(** * Whiteboard editor: a shallow embedding of [WhiteboardEditor.tsx]

    The editor is a React function component.  Its [useState] cells are the
    fields of the record [Editor]; every event handler is a function from the
    state it closes over to the state React renders next.  JavaScript numbers
    are embedded as exact rationals ([Q]): the properties below are about the
    algebra of the code, and the inputs at which a property is shown to fail
    are exact in binary floating point as well. *)

From Stdlib Require Import ZArith QArith Qminmax List Ascii String Bool Lia Lqa.
Import ListNotations.
Open Scope Z_scope.

(** ** JavaScript primitives used by the component *)

Module JS.

(** Relative index of [Array.prototype.slice]: negative arguments count
    from the end, everything is clamped to [0, len]. *)
Definition rel_index (len i : Z) : Z :=
  if i <? 0 then Z.max (len + i) 0 else Z.min i len.

(** [arr.slice(start, end)]. *)
Definition slice {A : Type} (arr : list A) (start end_ : Z) : list A :=
  let len := Z.of_nat (List.length arr) in
  let k := rel_index len start in
  let final := rel_index len end_ in
  firstn (Z.to_nat (final - k)) (skipn (Z.to_nat k) arr).

(** [arr[i]]: [None] stands for [undefined]. *)
Definition index {A : Type} (arr : list A) (i : Z) : option A :=
  if i <? 0 then None else nth_error arr (Z.to_nat i).

(** [[...x]] for an [x] read from an array: spreading [undefined] throws a
    TypeError, which [None] stands for. *)
Definition spread {A : Type} (x : option (list A)) : option (list A) := x.

(** [x || d] for an optional number [x]: [undefined] and [0] are falsy. *)
Definition or_else (x : option Q) (d : Q) : Q :=
  match x with
  | Some v => if Qeq_bool v 0 then d else v
  | None => d
  end.

(** [x || d] for an optional string: [undefined] and the empty string are
    falsy. *)
Definition or_else_str (x : option string) (d : string) : string :=
  match x with
  | Some EmptyString => d
  | Some v => v
  | None => d
  end.

End JS.

(** ** Data model ([types.ts]) *)

Record Point : Type := mkPoint { x : Q; y : Q }.
Record Size : Type := mkSize { width : Q; height : Q }.

(** The string literals of the unions [Tool], [ShapeType] and
    [WhiteboardElement['type']].  The unions are erased at run time, and
    [handleMouseUp] stores [currentTool] in the [type] field through
    [as any], so one enumeration of tags serves for all three. *)
Inductive Tag : Type :=
  | cursor | pen | highlighter | spray | calligraphy | eraser
  | text | sticky | fill | hand | delete | laser
  | rectangle | roundedRect | circle | triangle | arrow | line
  | shape.

Definition Tool : Type := Tag.
Definition ShapeType : Type := Tag.

Definition Tag_eq_dec (a b : Tag) : {a = b} + {a <> b}.
Proof. decide equality. Defined.

Definition Tag_eqb (a b : Tag) : bool :=
  if Tag_eq_dec a b then true else false.

(** [content: string].  A stroke stores [JSON.stringify(currentPath)]; the
    serialised text is represented by the point list it encodes
    ([JsonPoints]), every other content by its characters ([Str]). *)
Inductive Content : Type :=
  | Str (s : string)
  | JsonPoints (points : list Point).

Record Style : Type := mkStyle {
  color : string;
  backgroundColor : string;
  fontSize : option Q;
  fontFamily : option string;
  fontWeight : option string;
  fontStyle : option string;
  textDecoration : option string;
  textAlign : option string;
  strokeWidth : option Q;
  opacity : option Q;
  style_fill : option bool
}.

Record WhiteboardElement : Type := mkElement {
  id : string;
  type : Tag;
  shapeType : option ShapeType;
  position : Point;
  size : Size;
  content : Content;
  style : Style;
  rotation : option Q;
  zIndex : Z;
  timestamp : option Q
}.

Record WhiteboardContent : Type := mkContent {
  wc_elements : list WhiteboardElement;
  wc_canvasSize : Size;
  wc_zoom : Q;
  wc_pan : Point
}.

Record Whiteboard : Type := mkWhiteboard {
  wb_id : string;
  wb_name : string;
  wb_location : string;
  wb_template : option string;
  wb_createdBy : string;
  wb_createdAt : Q;
  wb_updatedAt : Q;
  wb_lastViewedAt : Q;
  wb_isFavorite : bool;
  wb_content : WhiteboardContent
}.

(** ** The 2D canvas context

    The part of the Canvas API the component calls.  The current
    transformation is kept as a scale and an offset (the component never
    rotates): a user-space point [p] lands on the backing-store pixel
    [(sx * p.x + tx, sy * p.y + ty)].  [scale] and [translate] compose on the
    right, as the API specifies: they act on the coordinates drawn
    afterwards.  Every painting call is logged together with the drawing
    state it was issued under. *)

Module Canvas.

Record Transform : Type := mkTransform { sx : Q; sy : Q; tx : Q; ty : Q }.

Definition identity : Transform := mkTransform 1 1 0 0.

Definition apply (m : Transform) (p : Point) : Point :=
  mkPoint (sx m * x p + tx m) (sy m * y p + ty m).

(** A font set from the template [`${size}px ${family}`]. *)
Record Font : Type := mkFont { font_px : Q; font_family : string }.

Record DrawState : Type := mkDrawState {
  transform : Transform;
  strokeStyle : string;
  fillStyle : string;
  lineWidth : Q;
  globalAlpha : Q;
  font : Font;
  lineCap : string;
  lineJoin : string
}.

(** Sub-path commands, in user-space coordinates.  Angles of [Arc] are in
    units of pi, so [arc(x, y, r, 0, 2 * Math.PI)] is [Arc x y r 0 2].
    [BarbTo cx cy len dy dx k] is the [lineTo] of an arrow barb: the point
    [(cx - len * cos(a), cy - len * sin(a))] with
    [a = atan2(dy, dx) + k * pi], which has no rational coordinates. *)
Inductive PathCmd : Type :=
  | MoveTo (px py : Q)
  | LineTo (px py : Q)
  | QuadraticCurveTo (cpx cpy px py : Q)
  | Rect (px py w h : Q)
  | Arc (px py r a0 a1 : Q)
  | BarbTo (cx cy len dy dx k : Q)
  | ClosePath.

Inductive Paint : Type :=
  | ClearRect (px py w h : Q) (st : DrawState)
  | FillRect (px py w h : Q) (st : DrawState)
  | StrokeRect (px py w h : Q) (st : DrawState)
  | FillText (txt : Content) (px py : Q) (st : DrawState)
  | Stroke (p : list PathCmd) (st : DrawState)
  | Fill (p : list PathCmd) (st : DrawState).

Record Context : Type := mkContext {
  state : DrawState;
  saved : list DrawState;
  path : list PathCmd;
  painted : list Paint
}.

Definition with_state (f : DrawState -> DrawState) (c : Context) : Context :=
  mkContext (f (state c)) (saved c) (path c) (painted c).

Definition paint (p : Paint) (c : Context) : Context :=
  mkContext (state c) (saved c) (path c) (painted c ++ [p]).

Definition add_path (cmd : PathCmd) (c : Context) : Context :=
  mkContext (state c) (saved c) (path c ++ [cmd]) (painted c).

Definition save (c : Context) : Context :=
  mkContext (state c) (state c :: saved c) (path c) (painted c).

(** [restore()] on an empty stack does nothing. *)
Definition restore (c : Context) : Context :=
  match saved c with
  | [] => c
  | st :: rest => mkContext st rest (path c) (painted c)
  end.

Definition scale (a b : Q) : Context -> Context :=
  with_state (fun st =>
    let m := transform st in
    mkDrawState (mkTransform (sx m * a) (sy m * b) (tx m) (ty m))
      (strokeStyle st) (fillStyle st) (lineWidth st) (globalAlpha st)
      (font st) (lineCap st) (lineJoin st)).

Definition translate (dx dy : Q) : Context -> Context :=
  with_state (fun st =>
    let m := transform st in
    mkDrawState
      (mkTransform (sx m) (sy m) (tx m + sx m * dx) (ty m + sy m * dy))
      (strokeStyle st) (fillStyle st) (lineWidth st) (globalAlpha st)
      (font st) (lineCap st) (lineJoin st)).

(** The setters of [strokeStyle], [fillStyle] and [font] store the string
    they are given.  The API ignores a string that does not parse as a
    colour or a font; parsing is not modelled, so what is stated about
    these cells is stated for the constants of the code and the colours of
    its palette. *)
Definition set_strokeStyle (v : string) : Context -> Context :=
  with_state (fun st =>
    mkDrawState (transform st) v (fillStyle st) (lineWidth st)
      (globalAlpha st) (font st) (lineCap st) (lineJoin st)).

Definition set_fillStyle (v : string) : Context -> Context :=
  with_state (fun st =>
    mkDrawState (transform st) (strokeStyle st) v (lineWidth st)
      (globalAlpha st) (font st) (lineCap st) (lineJoin st)).

(** The setter of [lineWidth] ignores values that are not positive. *)
Definition set_lineWidth (v : Q) : Context -> Context :=
  with_state (fun st =>
    if Qle_bool v 0 then st
    else mkDrawState (transform st) (strokeStyle st) (fillStyle st) v
           (globalAlpha st) (font st) (lineCap st) (lineJoin st)).

(** The setter of [globalAlpha] ignores values outside [0, 1]. *)
Definition set_globalAlpha (v : Q) : Context -> Context :=
  with_state (fun st =>
    if Qle_bool 0 v && Qle_bool v 1
    then mkDrawState (transform st) (strokeStyle st) (fillStyle st)
           (lineWidth st) v (font st) (lineCap st) (lineJoin st)
    else st).

Definition set_font (v : Font) : Context -> Context :=
  with_state (fun st =>
    mkDrawState (transform st) (strokeStyle st) (fillStyle st)
      (lineWidth st) (globalAlpha st) v (lineCap st) (lineJoin st)).

Definition beginPath (c : Context) : Context :=
  mkContext (state c) (saved c) [] (painted c).

Definition moveTo (px py : Q) : Context -> Context := add_path (MoveTo px py).
Definition lineTo (px py : Q) : Context -> Context := add_path (LineTo px py).
Definition quadraticCurveTo (cpx cpy px py : Q) : Context -> Context :=
  add_path (QuadraticCurveTo cpx cpy px py).
Definition rect (px py w h : Q) : Context -> Context := add_path (Rect px py w h).
(** [arc] with a radius that is not negative.  For a negative radius the
    API throws an IndexSizeError: a caller that computes its radius checks
    it before the call ([drawShape]); [drawLaser] passes the constant 8. *)
Definition arc (px py r a0 a1 : Q) : Context -> Context :=
  add_path (Arc px py r a0 a1).
Definition closePath : Context -> Context := add_path ClosePath.

Definition stroke (c : Context) : Context := paint (Stroke (path c) (state c)) c.
Definition fill (c : Context) : Context := paint (Fill (path c) (state c)) c.
Definition clearRect (px py w h : Q) (c : Context) : Context :=
  paint (ClearRect px py w h (state c)) c.
Definition fillRect (px py w h : Q) (c : Context) : Context :=
  paint (FillRect px py w h (state c)) c.
Definition strokeRect (px py w h : Q) (c : Context) : Context :=
  paint (StrokeRect px py w h (state c)) c.
Definition fillText (txt : Content) (px py : Q) (c : Context) : Context :=
  paint (FillText txt px py (state c)) c.

(** A context as [getContext('2d')] returns it, after the component set
    [lineCap] and [lineJoin] to ['round']. *)
Definition fresh : Context :=
  mkContext
    (mkDrawState identity "#000000" "#000000" 1 1 (mkFont 10 "sans-serif")
       "round" "round")
    [] [] [].

End Canvas.

(** ** Geometry: pointer position and view transform *)

(** What [getMousePos] reads from the DOM: the canvas backing-store size and
    its bounding client rectangle. *)
Record CanvasBox : Type := mkCanvasBox {
  canvas_width : Q;
  canvas_height : Q;
  rect_left : Q;
  rect_top : Q;
  rect_width : Q;
  rect_height : Q
}.

Record MouseEvent : Type := mkMouseEvent { clientX : Q; clientY : Q }.

(** [getMousePos], with [canvasRef.current] as an option.  The arithmetic
    is exact here and rounded in the code, and a division by zero, which
    gives [Infinity] or [NaN] in the code, gives 0 here: the zoom is taken
    non-zero wherever the value of the result matters. *)
Definition getMousePos (canvas : option CanvasBox) (zoom : Q) (pan : Point)
    (e : MouseEvent) : Point :=
  match canvas with
  | None => mkPoint 0 0
  | Some c =>
      let scaleX := canvas_width c / rect_width c in
      let scaleY := canvas_height c / rect_height c in
      mkPoint (((clientX e - rect_left c) * scaleX - x pan) / zoom)
              (((clientY e - rect_top c) * scaleY - y pan) / zoom)
  end%Q.

(** The pointer position in backing-store pixels, before zoom and pan. *)
Definition canvasPixel (c : CanvasBox) (e : MouseEvent) : Point :=
  mkPoint ((clientX e - rect_left c) * (canvas_width c / rect_width c))
          ((clientY e - rect_top c) * (canvas_height c / rect_height c))%Q.

(** The two calls by which [redrawCanvas] and the live preview of
    [handleMouseMove] install the view:
    [context.scale(zoom, zoom); context.translate(pan.x, pan.y)]. *)
Definition applyView (zoom : Q) (pan : Point) (c : Canvas.Context) : Canvas.Context :=
  Canvas.translate (x pan) (y pan) (Canvas.scale zoom zoom c).

Definition viewTransform (zoom : Q) (pan : Point) : Canvas.Transform :=
  Canvas.transform (Canvas.state (applyView zoom pan Canvas.fresh)).

(** Where the renderer paints a document point. *)
Definition docToCanvas (zoom : Q) (pan : Point) (doc : Point) : Point :=
  Canvas.apply (viewTransform zoom pan) doc.

(** The inverse in the words of the spec, to compare with [getMousePos]:
    [docX = (sx*scaleX)/zoom - pan.x], [docY = (sy*scaleY)/zoom - pan.y]. *)
Definition spec_inverse (c : CanvasBox) (zoom : Q) (pan : Point)
    (e : MouseEvent) : Point :=
  mkPoint (x (canvasPixel c e) / zoom - x pan)
          (y (canvasPixel c e) / zoom - y pan)%Q.

Definition Point_eq (p q : Point) : Prop := (x p == x q /\ y p == y q)%Q.

(** ** Editor state: the [useState] cells, the canvas ref and the context *)

Record Editor : Type := mkEditor {
  canvasRef : option CanvasBox;
  ctx : option Canvas.Context;
  isDrawing : bool;
  currentTool : Tool;
  currentColor : string;
  currentSize : Q;
  elements : list WhiteboardElement;
  history : list (list WhiteboardElement);
  historyIndex : Z;
  zoom : Q;
  pan : Point;
  isPanning : bool;
  lastPoint : option Point;
  currentPath : list Point;
  canvasSize : Size
}.

(** The state of the first render of [WhiteboardEditor({ whiteboard })]. *)
Definition init (whiteboard : Whiteboard) : Editor :=
  mkEditor None None false pen "#000000" 3
    (wc_elements (wb_content whiteboard))
    [wc_elements (wb_content whiteboard)]
    0
    (wc_zoom (wb_content whiteboard))
    (wc_pan (wb_content whiteboard))
    false None [] (mkSize 0 0).

(** The state setters. *)
Definition setCtx (v : option Canvas.Context) (s : Editor) : Editor :=
  mkEditor (canvasRef s) v (isDrawing s) (currentTool s) (currentColor s)
    (currentSize s) (elements s) (history s) (historyIndex s) (zoom s) (pan s)
    (isPanning s) (lastPoint s) (currentPath s) (canvasSize s).

Definition setIsDrawing (v : bool) (s : Editor) : Editor :=
  mkEditor (canvasRef s) (ctx s) v (currentTool s) (currentColor s)
    (currentSize s) (elements s) (history s) (historyIndex s) (zoom s) (pan s)
    (isPanning s) (lastPoint s) (currentPath s) (canvasSize s).

Definition setCurrentTool (v : Tool) (s : Editor) : Editor :=
  mkEditor (canvasRef s) (ctx s) (isDrawing s) v (currentColor s)
    (currentSize s) (elements s) (history s) (historyIndex s) (zoom s) (pan s)
    (isPanning s) (lastPoint s) (currentPath s) (canvasSize s).

Definition setElements (v : list WhiteboardElement) (s : Editor) : Editor :=
  mkEditor (canvasRef s) (ctx s) (isDrawing s) (currentTool s) (currentColor s)
    (currentSize s) v (history s) (historyIndex s) (zoom s) (pan s)
    (isPanning s) (lastPoint s) (currentPath s) (canvasSize s).

Definition setHistory (v : list (list WhiteboardElement)) (s : Editor) : Editor :=
  mkEditor (canvasRef s) (ctx s) (isDrawing s) (currentTool s) (currentColor s)
    (currentSize s) (elements s) v (historyIndex s) (zoom s) (pan s)
    (isPanning s) (lastPoint s) (currentPath s) (canvasSize s).

Definition setHistoryIndex (v : Z) (s : Editor) : Editor :=
  mkEditor (canvasRef s) (ctx s) (isDrawing s) (currentTool s) (currentColor s)
    (currentSize s) (elements s) (history s) v (zoom s) (pan s)
    (isPanning s) (lastPoint s) (currentPath s) (canvasSize s).

Definition setPan (v : Point) (s : Editor) : Editor :=
  mkEditor (canvasRef s) (ctx s) (isDrawing s) (currentTool s) (currentColor s)
    (currentSize s) (elements s) (history s) (historyIndex s) (zoom s) v
    (isPanning s) (lastPoint s) (currentPath s) (canvasSize s).

Definition setIsPanning (v : bool) (s : Editor) : Editor :=
  mkEditor (canvasRef s) (ctx s) (isDrawing s) (currentTool s) (currentColor s)
    (currentSize s) (elements s) (history s) (historyIndex s) (zoom s) (pan s)
    v (lastPoint s) (currentPath s) (canvasSize s).

Definition setLastPoint (v : option Point) (s : Editor) : Editor :=
  mkEditor (canvasRef s) (ctx s) (isDrawing s) (currentTool s) (currentColor s)
    (currentSize s) (elements s) (history s) (historyIndex s) (zoom s) (pan s)
    (isPanning s) v (currentPath s) (canvasSize s).

Definition setCurrentPath (v : list Point) (s : Editor) : Editor :=
  mkEditor (canvasRef s) (ctx s) (isDrawing s) (currentTool s) (currentColor s)
    (currentSize s) (elements s) (history s) (historyIndex s) (zoom s) (pan s)
    (isPanning s) (lastPoint s) v (canvasSize s).

(** ** Renderer *)

(** [s.split('\n')]. *)
Fixpoint split_lines (s : string) : list string :=
  match s with
  | EmptyString => [EmptyString]
  | String c rest =>
      if Ascii.eqb c "010"%char then EmptyString :: split_lines rest
      else match split_lines rest with
           | l :: ls => String c l :: ls
           | [] => [String c EmptyString]
           end
  end.

(** [element.content.split('\n')]: the JSON text of a path has no line
    break. *)
Definition content_lines (c : Content) : list Content :=
  match c with
  | Str s => map Str (split_lines s)
  | JsonPoints _ => [c]
  end.

(** [drawPath].  [JSON.parse] is not modelled: [None] stands for whatever
    the code does on a non-empty content that is not the JSON text of a
    point array (an exception for most texts, a plain return for a few,
    such as the text of a one-element array). *)
Definition drawPath (context : Canvas.Context) (element : WhiteboardElement)
    : option Canvas.Context :=
  match content element with
  | Str EmptyString => Some context
  | Str _ => None
  | JsonPoints points =>
      if Z.of_nat (List.length points) <? 2 then Some context
      else match points with
           | [] => Some context
           | p0 :: rest =>
               let c := Canvas.beginPath context in
               let c := Canvas.moveTo (x p0) (y p0) c in
               let c := fold_left (fun c p => Canvas.lineTo (x p) (y p) c) rest c in
               Some (Canvas.stroke c)
           end
  end.

Definition drawText (context : Canvas.Context) (element : WhiteboardElement)
    : Canvas.Context :=
  let c := Canvas.set_font
             (Canvas.mkFont (JS.or_else (fontSize (style element)) 16)
                (JS.or_else_str (fontFamily (style element)) "Arial")) context in
  let c := Canvas.set_fillStyle (color (style element)) c in
  Canvas.fillText (content element) (x (position element)) (y (position element)) c.

(** [lines.forEach((line, index) => context.fillText(line, x + 10,
    y + 20 + index * 20))]. *)
Fixpoint fillLines (lines : list Content) (index : Z) (px py : Q)
    (c : Canvas.Context) : Canvas.Context :=
  match lines with
  | [] => c
  | l :: rest =>
      fillLines rest (index + 1) px py
        (Canvas.fillText l (px + 10) (py + 20 + inject_Z index * 20)%Q c)
  end.

Definition drawSticky (context : Canvas.Context) (element : WhiteboardElement)
    : Canvas.Context :=
  let px := x (position element) in
  let py := y (position element) in
  let w := width (size element) in
  let h := height (size element) in
  let c := Canvas.set_fillStyle (backgroundColor (style element)) context in
  let c := Canvas.fillRect px py w h c in
  let c := Canvas.set_strokeStyle (color (style element)) c in
  let c := Canvas.strokeRect px py w h c in
  let c := Canvas.set_fillStyle (color (style element)) c in
  let c := Canvas.set_font
             (Canvas.mkFont (JS.or_else (fontSize (style element)) 14) "Arial") c in
  fillLines (content_lines (content element)) 0 px py c.

Definition roundRect (px py w h radius : Q) (c : Canvas.Context) : Canvas.Context :=
  let c := Canvas.moveTo (px + radius) py c in
  let c := Canvas.lineTo (px + w - radius) py c in
  let c := Canvas.quadraticCurveTo (px + w) py (px + w) (py + radius) c in
  let c := Canvas.lineTo (px + w) (py + h - radius) c in
  let c := Canvas.quadraticCurveTo (px + w) (py + h) (px + w - radius) (py + h) c in
  let c := Canvas.lineTo (px + radius) (py + h) c in
  let c := Canvas.quadraticCurveTo px (py + h) px (py + h - radius) c in
  let c := Canvas.lineTo px (py + radius) c in
  Canvas.quadraticCurveTo px py (px + radius) py c.

(** [drawArrow]: the shaft, then the two barbs at [angle -+ pi / 6]. *)
Definition drawArrow (x1 y1 x2 y2 : Q) (c : Canvas.Context) : Canvas.Context :=
  let headLength := 20%Q in
  let c := Canvas.moveTo x1 y1 c in
  let c := Canvas.lineTo x2 y2 c in
  let c := Canvas.add_path
             (Canvas.BarbTo x2 y2 headLength (y2 - y1) (x2 - x1) (- (1 # 6))) c in
  let c := Canvas.moveTo x2 y2 c in
  Canvas.add_path (Canvas.BarbTo x2 y2 headLength (y2 - y1) (x2 - x1) (1 # 6)) c.

(** The radius [drawShape] passes to [arc] for a circle:
    [Math.min(width, height) / 2]. *)
Definition circleRadius (element : WhiteboardElement) : Q :=
  (Qmin (width (size element)) (height (size element)) / 2)%Q.

(** [drawShape].  [None] is the IndexSizeError that [context.arc] throws
    for a negative radius; it escapes before anything is filled or
    stroked. *)
Definition drawShape (context : Canvas.Context) (element : WhiteboardElement)
    : option Canvas.Context :=
  let px := x (position element) in
  let py := y (position element) in
  let w := width (size element) in
  let h := height (size element) in
  let c := Canvas.beginPath context in
  let built :=
    match shapeType element with
    | Some rectangle => Some (Canvas.rect px py w h c)
    | Some roundedRect => Some (roundRect px py w h 10 c)
    | Some circle =>
        if Qle_bool 0 (circleRadius element)
        then Some (Canvas.arc (px + w / 2) (py + h / 2)
                     (circleRadius element) 0 2 c)
        else None
    | Some triangle =>
        let c := Canvas.moveTo (px + w / 2) py c in
        let c := Canvas.lineTo px (py + h) c in
        let c := Canvas.lineTo (px + w) (py + h) c in
        Some (Canvas.closePath c)
    | Some arrow => Some (drawArrow px py (px + w) (py + h) c)
    | Some line =>
        let c := Canvas.moveTo px py c in
        Some (Canvas.lineTo (px + w) (py + h) c)
    | _ => Some c
    end%Q in
  match built with
  | None => None
  | Some c =>
      let c := match style_fill (style element) with
               | Some true => Canvas.fill c
               | _ => c
               end in
      Some (Canvas.stroke c)
  end.

(** [drawLaser]; [now] is the value of [Date.now()]. *)
Definition drawLaser (now : Q) (context : Canvas.Context)
    (element : WhiteboardElement) : Canvas.Context :=
  let age := (now - JS.or_else (timestamp element) now)%Q in
  let maxAge := 3000%Q in
  if negb (Qle_bool age maxAge) then context
  else
    let opacity := Qmax 0 (1 - age / maxAge) in
    let c := Canvas.set_globalAlpha opacity context in
    let c := Canvas.set_fillStyle "#ff0000" c in
    let c := Canvas.beginPath c in
    let c := Canvas.arc (x (position element)) (y (position element)) 8 0 2 c in
    Canvas.fill c.

Definition drawElement (now : Q) (context : Canvas.Context)
    (element : WhiteboardElement) : option Canvas.Context :=
  let c := Canvas.save context in
  let c := Canvas.set_strokeStyle (color (style element)) c in
  let c := Canvas.set_fillStyle (backgroundColor (style element)) c in
  let c := Canvas.set_lineWidth (JS.or_else (strokeWidth (style element)) 2) c in
  let c := Canvas.set_globalAlpha (JS.or_else (opacity (style element)) 1) c in
  let r :=
    match type element with
    | pen | highlighter | spray | calligraphy => drawPath c element
    | text => Some (drawText c element)
    | sticky => Some (drawSticky c element)
    | shape => drawShape c element
    | laser => Some (drawLaser now c element)
    | _ => Some c
    end in
  option_map Canvas.restore r.

(** [elements.forEach(element => drawElement(context, element))]. *)
Fixpoint drawElements (now : Q) (els : list WhiteboardElement)
    (c : Canvas.Context) : option Canvas.Context :=
  match els with
  | [] => Some c
  | e :: rest =>
      match drawElement now c e with
      | Some c' => drawElements now rest c'
      | None => None
      end
  end.

Definition redrawCanvas (now : Q) (s : Editor) (context : Canvas.Context)
    : option Canvas.Context :=
  let w := width (canvasSize s) in
  let h := height (canvasSize s) in
  let c := Canvas.clearRect 0 0 w h context in
  let c := Canvas.set_fillStyle "#ffffff" c in
  let c := Canvas.fillRect 0 0 w h c in
  let c := Canvas.save c in
  let c := applyView (zoom s) (pan s) c in
  option_map Canvas.restore (drawElements now (elements s) c).

(** ** Event handlers

    Each handler is run against the state of the render it was created in
    and yields the state of the next render; events are taken one at a
    time. *)

(** [currentTool === 'pen' || currentTool === 'highlighter' ||
    currentTool === 'spray' || currentTool === 'calligraphy']. *)
Definition isFreehand (t : Tool) : bool :=
  match t with
  | pen | highlighter | spray | calligraphy => true
  | _ => false
  end.

(** [currentTool === 'highlighter' ? 0.5 : 1], as written both in the live
    preview and in the style of the committed element. *)
Definition toolAlpha (t : Tool) : Q :=
  if Tag_eqb t highlighter then 1 # 2 else 1.

Definition handleMouseDown (e : MouseEvent) (s : Editor) : Editor :=
  let pos := getMousePos (canvasRef s) (zoom s) (pan s) e in
  let s1 := setLastPoint (Some pos) s in
  if Tag_eqb (currentTool s) hand then setIsPanning true s1
  else setCurrentPath [pos] (setIsDrawing true s1).

(** The live preview of [handleMouseMove]: the newest segment, stroked
    under the view transform. *)
Definition drawPreview (s : Editor) (last pos : Point) (c : Canvas.Context)
    : Canvas.Context :=
  let c := Canvas.save c in
  let c := applyView (zoom s) (pan s) c in
  let c := Canvas.set_strokeStyle (currentColor s) c in
  let c := Canvas.set_lineWidth (currentSize s) c in
  let c := Canvas.set_globalAlpha (toolAlpha (currentTool s)) c in
  let c := Canvas.beginPath c in
  let c := Canvas.moveTo (x last) (y last) c in
  let c := Canvas.lineTo (x pos) (y pos) c in
  let c := Canvas.stroke c in
  Canvas.restore c.

Definition handleMouseMove (e : MouseEvent) (s : Editor) : Editor :=
  let pos := getMousePos (canvasRef s) (zoom s) (pan s) e in
  match isPanning s, lastPoint s with
  | true, Some last =>
      let deltaX := ((x pos - x last) * zoom s)%Q in
      let deltaY := ((y pos - y last) * zoom s)%Q in
      setPan (mkPoint (x (pan s) + deltaX) (y (pan s) + deltaY)) s
  | _, _ =>
      match isDrawing s, lastPoint s with
      | true, Some last =>
          let s1 :=
            if isFreehand (currentTool s) then
              let s' := setCurrentPath (currentPath s ++ [pos]) s in
              match ctx s with
              | Some c => setCtx (Some (drawPreview s last pos c)) s'
              | None => s'
              end
            else s in
          setLastPoint (Some pos) s1
      | _, _ => s
      end
  end.

(** [addToHistory]. *)
Definition addToHistory (newElements : list WhiteboardElement) (s : Editor)
    : Editor :=
  let newHistory := JS.slice (history s) 0 (historyIndex s + 1) ++ [newElements] in
  setHistoryIndex (Z.of_nat (List.length newHistory) - 1) (setHistory newHistory s).

(** The element [handleMouseUp] builds; [uuid] is the value of
    [crypto.randomUUID()].  [currentPath[0]] exists where this is used: the
    path has more than one point. *)
Definition newElement (uuid : string) (s : Editor) : WhiteboardElement :=
  mkElement uuid (currentTool s) None
    (hd (mkPoint 0 0) (currentPath s))
    (mkSize 0 0)
    (JsonPoints (currentPath s))
    (mkStyle (currentColor s) "transparent" None None None None None None
       (Some (currentSize s)) (Some (toolAlpha (currentTool s))) None)
    None
    (Z.of_nat (List.length (elements s)))
    None.

(** [handleMouseUp]; it is also the [onMouseLeave] handler. *)
Definition handleMouseUp (uuid : string) (s : Editor) : Editor :=
  if isPanning s then setLastPoint None (setIsPanning false s)
  else if negb (isDrawing s) then s
  else
    let s1 :=
      if 1 <? Z.of_nat (List.length (currentPath s)) then
        let newElements := elements s ++ [newElement uuid s] in
        addToHistory newElements (setElements newElements s)
      else s in
    setLastPoint None (setCurrentPath [] (setIsDrawing false s1)).

(** [undo] and [redo].  [None] is the TypeError of spreading [undefined],
    which the code would raise if the index pointed outside the array. *)
Definition undo (s : Editor) : option Editor :=
  if 0 <? historyIndex s then
    match JS.spread (JS.index (history s) (historyIndex s - 1)) with
    | Some els => Some (setElements els (setHistoryIndex (historyIndex s - 1) s))
    | None => None
    end
  else Some s.

Definition redo (s : Editor) : option Editor :=
  if historyIndex s <? Z.of_nat (List.length (history s)) - 1 then
    match JS.spread (JS.index (history s) (historyIndex s + 1)) with
    | Some els => Some (setElements els (setHistoryIndex (historyIndex s + 1) s))
    | None => None
    end
  else Some s.

Definition clearCanvas (s : Editor) : Editor :=
  addToHistory [] (setElements [] s).

(** [handleSave]: the record handed to [onSave]; [now] is [new Date()]. *)
Definition handleSave (whiteboard : Whiteboard) (now : Q) (s : Editor)
    : Whiteboard :=
  mkWhiteboard (wb_id whiteboard) (wb_name whiteboard) (wb_location whiteboard)
    (wb_template whiteboard) (wb_createdBy whiteboard) (wb_createdAt whiteboard)
    now (wb_lastViewedAt whiteboard) (wb_isFavorite whiteboard)
    (mkContent (elements s) (canvasSize s) (zoom s) (pan s)).

(** ** Runs of the editor *)

(** The operations of the history manager. *)
Inductive HistoryOp : Type :=
  | OpCommit (newElements : list WhiteboardElement)
  | OpUndo
  | OpRedo.

Definition history_step (op : HistoryOp) (s : Editor) : option Editor :=
  match op with
  | OpCommit newElements => Some (addToHistory newElements s)
  | OpUndo => undo s
  | OpRedo => redo s
  end.

Fixpoint history_run (ops : list HistoryOp) (s : Editor) : option Editor :=
  match ops with
  | [] => Some s
  | op :: rest =>
      match history_step op s with
      | Some s' => history_run rest s'
      | None => None
      end
  end.

(** [n] clicks on the undo button. *)
Fixpoint undo_n (n : nat) (s : Editor) : option Editor :=
  match n with
  | O => Some s
  | S k =>
      match undo s with
      | Some s' => undo_n k s'
      | None => None
      end
  end.

(** The pointer-move events of a gesture, in order. *)
Definition moves (evs : list MouseEvent) (s : Editor) : Editor :=
  fold_left (fun st e => handleMouseMove e st) evs s.

(** A complete gesture: pointer-down, the moves, then pointer-up (or
    pointer-leave, which runs the same handler). *)
Definition gesture (down : MouseEvent) (evs : list MouseEvent) (uuid : string)
    (s : Editor) : Editor :=
  handleMouseUp uuid (moves evs (handleMouseDown down s)).

(** The history invariant. *)
Definition history_ok (s : Editor) : Prop :=
  0 <= historyIndex s < Z.of_nat (List.length (history s)).

(** ** Vocabulary of the properties *)

Definition isLaser (e : WhiteboardElement) : bool := Tag_eqb (type e) laser.

(** Modelled from the spec: the eraser's hit test ("document-space
    point-in-bounds"), which the component does not contain.  A point is
    under an element when it lies in the rectangle spanned by the element's
    position and size. *)
Definition point_in_bounds (p : Point) (e : WhiteboardElement) : bool :=
  Qle_bool (x (position e)) (x p) &&
  Qle_bool (x p) (x (position e) + width (size e)) &&
  Qle_bool (y (position e)) (y p) &&
  Qle_bool (y p) (y (position e) + height (size e)).

(** What the spec asks of a rectangle gesture: a shape element with the
    given position and size. *)
Definition is_rectangle_at (e : WhiteboardElement) (px py w h : Q) : Prop :=
  type e = shape /\ shapeType e = Some rectangle /\
  (x (position e) == px /\ y (position e) == py /\
   width (size e) == w /\ height (size e) == h)%Q.

(** The committed part of the state: what undo and redo range over. *)
Definition document (s : Editor) : list WhiteboardElement
    * list (list WhiteboardElement) * Z :=
  (elements s, history s, historyIndex s).

(** The selections and the view that no pointer handler writes. *)
Definition settings (s : Editor) : Tool * string * Q * Q * option CanvasBox * Size :=
  (currentTool s, currentColor s, currentSize s, zoom s, canvasRef s, canvasSize s).

(** The drawing state a paint was issued under. *)
Definition paint_state (p : Canvas.Paint) : Canvas.DrawState :=
  match p with
  | Canvas.ClearRect _ _ _ _ st | Canvas.FillRect _ _ _ _ st
  | Canvas.StrokeRect _ _ _ _ st | Canvas.FillText _ _ _ st
  | Canvas.Stroke _ st | Canvas.Fill _ st => st
  end.

Definition is_stroke (p : Canvas.Paint) : bool :=
  match p with
  | Canvas.Stroke _ _ => true
  | _ => false
  end.

(** A stroked path painted with alpha [a]. *)
Definition stroke_with_alpha (a : Q) (p : Canvas.Paint) : Prop :=
  is_stroke p = true /\ Canvas.globalAlpha (paint_state p) = a.

(** ** Sample data *)

Definition plain_style : Style :=
  mkStyle "#000000" "#ffff88" None None None None None None None None None.

Definition blank_board : Whiteboard :=
  mkWhiteboard "wb-1" "Board" "local" None "user" 0 0 0 false
    (mkContent [] (mkSize 2000 1500) 1 (mkPoint 0 0)).

(** A canvas shown at its backing-store size, at the client origin. *)
Definition plain_box : CanvasBox := mkCanvasBox 800 600 0 0 800 600.

(** A mounted editor over [elems] with the given tool, zoom 1, no pan. *)
Definition editor_with (tool : Tool) (elems : list WhiteboardElement) : Editor :=
  mkEditor (Some plain_box) (Some Canvas.fresh) false tool "#000000" 3
    elems [elems] 0 1 (mkPoint 0 0) false None [] (mkSize 800 600).

Definition sample_sticky : WhiteboardElement :=
  mkElement "el-1" sticky None (mkPoint 0 0) (mkSize 100 100) (Str "note")
    plain_style None 0 None.

Definition sample_laser (stamp : Q) : WhiteboardElement :=
  mkElement "el-2" laser None (mkPoint 5 5) (mkSize 0 0) (Str "")
    plain_style None 0 (Some stamp).

Definition sample_stroke : WhiteboardElement :=
  mkElement "el-3" pen None (mkPoint 1 1) (mkSize 0 0)
    (JsonPoints [mkPoint 1 1; mkPoint 2 2]) plain_style None 1 None.

(** Zoom 2, pan (10, 0), pointer at client (100, 0). *)
Definition drift_pan : Point := mkPoint 10 0.
Definition drift_event : MouseEvent := mkMouseEvent 100 0.

(** Three commits on a blank board. *)
Definition three_commits : Editor :=
  addToHistory [sample_sticky; sample_stroke]
    (addToHistory [sample_sticky] (addToHistory [] (init blank_board))).

(** A board stored with a laser mark in its content. *)
Definition board_with_laser : Whiteboard :=
  mkWhiteboard "wb-2" "Board" "local" None "user" 0 0 0 false
    (mkContent [sample_sticky; sample_laser 1000] (mkSize 2000 1500) 1 (mkPoint 0 0)).

(** ** The toolbar *)

Definition setCurrentColor (v : string) (s : Editor) : Editor :=
  mkEditor (canvasRef s) (ctx s) (isDrawing s) (currentTool s) v
    (currentSize s) (elements s) (history s) (historyIndex s) (zoom s) (pan s)
    (isPanning s) (lastPoint s) (currentPath s) (canvasSize s).

Definition setCurrentSize (v : Q) (s : Editor) : Editor :=
  mkEditor (canvasRef s) (ctx s) (isDrawing s) (currentTool s) (currentColor s)
    v (elements s) (history s) (historyIndex s) (zoom s) (pan s)
    (isPanning s) (lastPoint s) (currentPath s) (canvasSize s).

Definition setZoom (v : Q) (s : Editor) : Editor :=
  mkEditor (canvasRef s) (ctx s) (isDrawing s) (currentTool s) (currentColor s)
    (currentSize s) (elements s) (history s) (historyIndex s) v (pan s)
    (isPanning s) (lastPoint s) (currentPath s) (canvasSize s).

(** The [-] button: [setZoom(Math.max(0.1, zoom - 0.1))]. *)
Definition zoomOut (s : Editor) : Editor :=
  setZoom (Qmax (1 # 10) (zoom s - (1 # 10))) s.

(** The [+] button: [setZoom(Math.min(3, zoom + 0.1))]. *)
Definition zoomIn (s : Editor) : Editor :=
  setZoom (Qmin 3 (zoom s + (1 # 10))) s.

(** The [100%] button: [setZoom(1); setPan({ x: 0, y: 0 })]. *)
Definition resetView (s : Editor) : Editor :=
  setPan (mkPoint 0 0) (setZoom 1 s).

(** What the user can do to the editor: the three pointer handlers of the
    canvas (pointer-leave runs [handleMouseUp]) and the buttons.  Mounting
    and resizing the canvas are not among the actions: a run keeps the
    canvas ref, the context object and the canvas size of the state it
    starts from, so the properties of runs are stated for every starting
    state, a mounted editor included. *)
Inductive Action : Type :=
  | MouseDown (e : MouseEvent)
  | MouseMove (e : MouseEvent)
  | MouseUp (uuid : string)
  | ClickUndo
  | ClickRedo
  | ClickClear
  | ClickZoomOut
  | ClickZoomIn
  | ClickResetView
  | SelectTool (t : Tool)
  | SelectColor (c : string)
  | SelectSize (n : Q).

Definition act (a : Action) (s : Editor) : option Editor :=
  match a with
  | MouseDown e => Some (handleMouseDown e s)
  | MouseMove e => Some (handleMouseMove e s)
  | MouseUp uuid => Some (handleMouseUp uuid s)
  | ClickUndo => undo s
  | ClickRedo => redo s
  | ClickClear => Some (clearCanvas s)
  | ClickZoomOut => Some (zoomOut s)
  | ClickZoomIn => Some (zoomIn s)
  | ClickResetView => Some (resetView s)
  | SelectTool t => Some (setCurrentTool t s)
  | SelectColor c => Some (setCurrentColor c s)
  | SelectSize n => Some (setCurrentSize n s)
  end.

Fixpoint run (acts : list Action) (s : Editor) : option Editor :=
  match acts with
  | [] => Some s
  | a :: rest =>
      match act a s with
      | Some s' => run rest s'
      | None => None
      end
  end.

(** The element list on screen is the snapshot the history index points
    at. *)
Definition synced (s : Editor) : Prop :=
  JS.index (history s) (historyIndex s) = Some (elements s).

(** No gesture in progress. *)
Definition idle (s : Editor) : Prop :=
  isPanning s = false /\ isDrawing s = false /\
  currentPath s = [] /\ lastPoint s = None.

(** Every element carries its position in the list as [zIndex], counting
    from [k]. *)
Fixpoint indexed_from (k : Z) (els : list WhiteboardElement) : bool :=
  match els with
  | [] => true
  | e :: rest => (zIndex e =? k) && indexed_from (k + 1) rest
  end.

(** The element list and every snapshot number their elements by
    position. *)
Definition all_indexed (s : Editor) : Prop :=
  indexed_from 0 (elements s) = true /\
  Forall (fun els => indexed_from 0 els = true) (history s).

(** The polyline [drawPath] builds through a list of points. *)
Definition polyline (pts : list Point) : list Canvas.PathCmd :=
  match pts with
  | [] => []
  | p0 :: rest =>
      Canvas.MoveTo (x p0) (y p0) :: map (fun p => Canvas.LineTo (x p) (y p)) rest
  end.

(** The consecutive pairs of a list of points. *)
Fixpoint segments (pts : list Point) : list (Point * Point) :=
  match pts with
  | [] => []
  | a :: rest =>
      match rest with
      | [] => []
      | b :: _ => (a, b) :: segments rest
      end
  end.

(** A paint that strokes the single segment [ab]. *)
Definition strokes_segment (ab : Point * Point) (p : Canvas.Paint) : Prop :=
  exists st : Canvas.DrawState,
    p = Canvas.Stroke [Canvas.MoveTo (x (fst ab)) (y (fst ab));
                       Canvas.LineTo (x (snd ab)) (y (snd ab))] st.

(** A paint issued under the transform [m]. *)
Definition under (m : Canvas.Transform) (p : Canvas.Paint) : Prop :=
  Canvas.transform (paint_state p) = m.

(** [ps] is what one call of [drawElement] on [e] paints, issued on a
    context whose drawing state is [st]. *)
Definition drawn_as (now : Q) (st : Canvas.DrawState) (e : WhiteboardElement)
    (ps : list Canvas.Paint) : Prop :=
  exists c c' : Canvas.Context,
    Canvas.state c = st /\
    drawElement now c e = Some c' /\
    Canvas.painted c' = Canvas.painted c ++ ps.

(** The age [drawLaser] computes for an element. *)
Definition laserAge (now : Q) (element : WhiteboardElement) : Q :=
  (now - JS.or_else (timestamp element) now)%Q.

(** Number of line breaks in a string. *)
Fixpoint count_newlines (s : string) : nat :=
  match s with
  | EmptyString => O
  | String c rest =>
      if Ascii.eqb c "010"%char then S (count_newlines rest)
      else count_newlines rest
  end.

(** ** The board list ([useWhiteboards]) and the screen that opens the
    editor ([Whiteboards])

    The hook awaits a call of its database collaborator before it touches
    the list.  The collaborator is an argument here: it maps the object it
    is handed to that object as the call leaves it, or to [None] when the
    promise rejects (the hook then leaves the list alone and the rejection
    reaches the caller). *)

Module Hook.

(** [whiteboards.find(w => w.id === id)]. *)
Definition findById (id : string) (whiteboards : list Whiteboard)
    : option Whiteboard :=
  find (fun w => String.eqb (wb_id w) id) whiteboards.

(** [updateWhiteboard]: the list after
    [prev.map(w => (w.id === whiteboard.id ? whiteboard : w))]. *)
Definition updateWhiteboard (db : Whiteboard -> option Whiteboard)
    (whiteboard : Whiteboard) (whiteboards : list Whiteboard)
    : option (list Whiteboard) :=
  match db whiteboard with
  | None => None
  | Some wb =>
      Some (map (fun w => if String.eqb (wb_id w) (wb_id wb) then wb else w)
              whiteboards)
  end.

(** [{ ...wb, isFavorite: !wb.isFavorite }]. *)
Definition flipFavorite (wb : Whiteboard) : Whiteboard :=
  mkWhiteboard (wb_id wb) (wb_name wb) (wb_location wb) (wb_template wb)
    (wb_createdBy wb) (wb_createdAt wb) (wb_updatedAt wb) (wb_lastViewedAt wb)
    (negb (wb_isFavorite wb)) (wb_content wb).

(** [toggleFavorite]. *)
Definition toggleFavorite (db : Whiteboard -> option Whiteboard) (id : string)
    (whiteboards : list Whiteboard) : option (list Whiteboard) :=
  match findById id whiteboards with
  | None => Some whiteboards
  | Some wb => updateWhiteboard db (flipFavorite wb) whiteboards
  end.

(** [deleteWhiteboard]; [confirmed] is the answer to [confirm(...)],
    [db] tells whether the delete call resolved. *)
Definition deleteWhiteboard (confirmed : bool) (db : string -> bool)
    (id : string) (whiteboards : list Whiteboard) : option (list Whiteboard) :=
  if confirmed then
    if db id
    then Some (filter (fun w => negb (String.eqb (wb_id w) id)) whiteboards)
    else None
  else Some whiteboards.

(** The argument of [createWhiteboard]:
    [Omit<Whiteboard, 'id' | 'createdAt' | 'updatedAt' | 'lastViewedAt'>]. *)
Record NewWhiteboard : Type := mkNewWhiteboard {
  nw_name : string;
  nw_location : string;
  nw_template : option string;
  nw_isFavorite : bool;
  nw_createdBy : string;
  nw_content : WhiteboardContent
}.

(** [createWhiteboard]: the new board goes to the end of the list and is
    returned. *)
Definition createWhiteboard (db : NewWhiteboard -> option Whiteboard)
    (whiteboard : NewWhiteboard) (whiteboards : list Whiteboard)
    : option (list Whiteboard * Whiteboard) :=
  match db whiteboard with
  | None => None
  | Some newBoard => Some (whiteboards ++ [newBoard], newBoard)
  end.

End Hook.

(** [dbService.createWhiteboard] of [services/db.ts], when the [add]
    succeeds: the data with a fresh identifier ([uuid] is
    [crypto.randomUUID()]) and the three dates set to [now]. *)
Definition dbService_createWhiteboard (uuid : string) (now : Q)
    (data : Hook.NewWhiteboard) : option Whiteboard :=
  Some (mkWhiteboard uuid (Hook.nw_name data) (Hook.nw_location data)
          (Hook.nw_template data) (Hook.nw_createdBy data) now now now
          (Hook.nw_isFavorite data) (Hook.nw_content data)).

(** [handleDuplicate] of [Whiteboards]: the new list and the identifier
    the screen selects for the editor. *)
Definition handleDuplicate (db : Hook.NewWhiteboard -> option Whiteboard)
    (whiteboard : Whiteboard) (whiteboards : list Whiteboard)
    : option (list Whiteboard * string) :=
  match
    Hook.createWhiteboard db
      (Hook.mkNewWhiteboard (wb_name whiteboard ++ " (Copy)")
         (wb_location whiteboard) (wb_template whiteboard) false
         "current-user" (wb_content whiteboard))
      whiteboards
  with
  | None => None
  | Some (l, newBoard) => Some (l, wb_id newBoard)
  end.

(** The object as [dbService.updateWhiteboard] of [services/db.ts] leaves
    it when the [put] succeeds: [whiteboard.updatedAt = new Date()]. *)
Definition dbService_updateWhiteboard (now : Q) (whiteboard : Whiteboard)
    : option Whiteboard :=
  Some (mkWhiteboard (wb_id whiteboard) (wb_name whiteboard)
          (wb_location whiteboard) (wb_template whiteboard)
          (wb_createdBy whiteboard) (wb_createdAt whiteboard) now
          (wb_lastViewedAt whiteboard) (wb_isFavorite whiteboard)
          (wb_content whiteboard)).

(** The editor screen of [Whiteboards], shown when
    [view === 'editor' && selectedId]: the board is looked up by
    [selectedId] and handed to [WhiteboardEditor].  [None] stands for no
    editor: an empty [selectedId] is falsy, and a board that is not found
    gives the "Whiteboard not found" message. *)
Definition openEditor (selectedId : string) (whiteboards : list Whiteboard)
    : option Editor :=
  match selectedId with
  | EmptyString => None
  | _ => option_map init (Hook.findById selectedId whiteboards)
  end.

(** The Save button of an editor opened on [whiteboard]:
    [onSave(updatedWhiteboard)] with [onSave] the hook's
    [updateWhiteboard]. *)
Definition saveBoard (db : Whiteboard -> option Whiteboard)
    (whiteboard : Whiteboard) (now : Q) (s : Editor)
    (whiteboards : list Whiteboard) : option (list Whiteboard) :=
  Hook.updateWhiteboard db (handleSave whiteboard now s) whiteboards.

(** ** More sample data *)

Definition sample_note (txt : string) : WhiteboardElement :=
  mkElement "el-4" sticky None (mkPoint 10 20) (mkSize 200 100) (Str txt)
    plain_style None 0 None.

Definition sample_circle (w h : Q) : WhiteboardElement :=
  mkElement "el-7" shape (Some circle) (mkPoint 10 10) (mkSize w h) (Str "")
    plain_style None 0 None.

Definition sample_rectangle (filled : option bool) : WhiteboardElement :=
  mkElement "el-5" shape (Some rectangle) (mkPoint 10 10) (mkSize 100 50)
    (Str "")
    (mkStyle "#000000" "#ffff88" None None None None None None None None filled)
    None 0 None.

Definition untimed_laser : WhiteboardElement :=
  mkElement "el-6" laser None (mkPoint 5 5) (mkSize 0 0) (Str "")
    plain_style None 0 None.

Definition other_board : Whiteboard :=
  mkWhiteboard "wb-9" "Other" "local" None "user" 0 0 0 true
    (mkContent [sample_sticky] (mkSize 2000 1500) 1 (mkPoint 0 0)).

(** A mounted blank board after one pen stroke of two points. *)
Definition one_stroke : Editor :=
  gesture (mkMouseEvent 0 0) [mkMouseEvent 1 1] "id-1" (editor_with pen []).

(** Two pen strokes, an undo and a third stroke. *)
Definition sample_actions : list Action :=
  [MouseDown (mkMouseEvent 0 0); MouseMove (mkMouseEvent 1 1); MouseUp "id-1";
   MouseDown (mkMouseEvent 2 2); MouseMove (mkMouseEvent 3 3); MouseUp "id-2";
   ClickUndo;
   MouseDown (mkMouseEvent 4 4); MouseMove (mkMouseEvent 5 5); MouseUp "id-3"].

(** Moving over the canvas and leaving it, no button pressed. *)
Definition is_hover (a : Action) : bool :=
  match a with
  | MouseMove _ | MouseUp _ => true
  | _ => false
  end.

(** The range the zoom buttons aim at. *)
Definition zoom_in_range (s : Editor) : Prop := (1 # 10 <= zoom s <= 3)%Q.

(** [c'] comes from [c] by painting under the transform [m] only, with the
    stack of saved states and the transform as they were. *)
Definition paints_under (m : Canvas.Transform) (c c' : Canvas.Context) : Prop :=
  Canvas.saved c' = Canvas.saved c /\
  Canvas.transform (Canvas.state c') = m /\
  exists ps : list Canvas.Paint,
    Canvas.painted c' = Canvas.painted c ++ ps /\ Forall (under m) ps.

(** A context operation that neither transforms nor touches the stack. *)
Definition keeps_view (f : Canvas.Context -> Canvas.Context) : Prop :=
  forall (m : Canvas.Transform) (c : Canvas.Context),
    Canvas.transform (Canvas.state c) = m -> paints_under m c (f c).

(** The text of a note with one line break. *)
Definition two_lines : string :=
  String "a"%char (String "010"%char (String "b"%char EmptyString)).

(** A database collaborator that resolves and leaves identifier, favourite
    flag and content of the object alone. *)
Definition db_keeps (db : Whiteboard -> option Whiteboard) : Prop :=
  forall w : Whiteboard,
    exists w' : Whiteboard,
      db w = Some w' /\ wb_id w' = wb_id w /\
      wb_isFavorite w' = wb_isFavorite w /\ wb_content w' = wb_content w.

(** * Properties *)

(** ** Geometry *)

Ltac unfold_view :=
  unfold Point_eq, docToCanvas, viewTransform, applyView, Canvas.apply,
    Canvas.translate, Canvas.scale, Canvas.with_state, Canvas.fresh,
    Canvas.identity; simpl.

Lemma docToCanvas_formula (zoom : Q) (pan doc : Point) :
  Point_eq (docToCanvas zoom pan doc)
           (mkPoint ((x doc + x pan) * zoom) ((y doc + y pan) * zoom))%Q.
Proof. unfold_view; split; ring. Qed.

(** Rendering what [getMousePos] returned lands [pan * (zoom - 1)] away
    from the pointer. *)
Lemma roundtrip_drift (c : CanvasBox) (zoom : Q) (pan : Point) (e : MouseEvent) :
  ~ (zoom == 0)%Q ->
  Point_eq (docToCanvas zoom pan (getMousePos (Some c) zoom pan e))
           (mkPoint (x (canvasPixel c e) + x pan * (zoom - 1))
                    (y (canvasPixel c e) + y pan * (zoom - 1)))%Q.
Proof.
  intros Hz. unfold_view. unfold getMousePos, canvasPixel; simpl.
  generalize (canvas_width c / rect_width c)%Q, (canvas_height c / rect_height c)%Q.
  intros kx ky; split; field; exact Hz.
Qed.

(** The inverse in the spec's words does invert the renderer. *)
Lemma spec_inverse_roundtrip (c : CanvasBox) (zoom : Q) (pan : Point) (e : MouseEvent) :
  ~ (zoom == 0)%Q ->
  Point_eq (docToCanvas zoom pan (spec_inverse c zoom pan e)) (canvasPixel c e).
Proof.
  intros Hz. unfold_view. unfold spec_inverse, canvasPixel; simpl.
  generalize (canvas_width c / rect_width c)%Q, (canvas_height c / rect_height c)%Q.
  intros kx ky; split; field; exact Hz.
Qed.

(** With no pan, or at zoom 1, the code's mapping and the renderer agree. *)
Lemma roundtrip_without_pan (c : CanvasBox) (zoom : Q) (e : MouseEvent) :
  ~ (zoom == 0)%Q ->
  Point_eq (docToCanvas zoom (mkPoint 0 0) (getMousePos (Some c) zoom (mkPoint 0 0) e))
           (canvasPixel c e).
Proof.
  intros Hz. unfold_view. unfold getMousePos, canvasPixel; simpl.
  generalize (canvas_width c / rect_width c)%Q, (canvas_height c / rect_height c)%Q.
  intros kx ky; split; field; exact Hz.
Qed.

(** On a context that is not transformed yet, the two calls of
    [redrawCanvas] and of the live preview install [viewTransform]. *)
Lemma applyView_from_identity (zoom : Q) (pan : Point) (c : Canvas.Context) :
  Canvas.transform (Canvas.state c) = Canvas.identity ->
  Canvas.transform (Canvas.state (applyView zoom pan c)) = viewTransform zoom pan.
Proof.
  intros Hid. unfold viewTransform, applyView, Canvas.translate, Canvas.scale,
    Canvas.with_state; simpl. rewrite Hid. reflexivity.
Qed.

(** C1 (fails on the code).  The claim: mapping a screen point with
    [getMousePos] and rendering the result with the renderer's transform
    gives the screen point back, the input mapping being
    [(sx*scaleX)/zoom - pan.x].  At zoom 2, pan (10, 0) and pointer x = 100
    the code computes the document x 45 (the claimed formula gives 40), and
    the renderer paints a document x of 45 at pixel 110, not 100. *)
Theorem getMousePos_roundtrip_fails :
  (x (canvasPixel plain_box drift_event) == 100 /\
   x (getMousePos (Some plain_box) 2 drift_pan drift_event) == 45 /\
   x (spec_inverse plain_box 2 drift_pan drift_event) == 40 /\
   x (docToCanvas 2 drift_pan
        (getMousePos (Some plain_box) 2 drift_pan drift_event)) == 110 /\
   ~ Point_eq (docToCanvas 2 drift_pan
                 (getMousePos (Some plain_box) 2 drift_pan drift_event))
              (canvasPixel plain_box drift_event))%Q.
Proof.
  repeat split; try reflexivity.
  intros [Hx _]. vm_compute in Hx. discriminate Hx.
Qed.

(** ** History manager *)

Lemma slice_prefix {A : Type} (l : list A) (e : Z) :
  0 <= e <= Z.of_nat (List.length l) ->
  JS.slice l 0 e = firstn (Z.to_nat e) l.
Proof.
  intros He. unfold JS.slice, JS.rel_index.
  replace (0 <? 0) with false by reflexivity.
  destruct (Z.ltb_spec e 0) as [Hneg | _]; [lia |].
  rewrite (Z.min_l 0) by lia. rewrite (Z.min_l e) by lia.
  rewrite Z.sub_0_r. reflexivity.
Qed.

Lemma slice_prefix_length {A : Type} (l : list A) (e : Z) :
  0 <= e <= Z.of_nat (List.length l) ->
  Z.of_nat (List.length (JS.slice l 0 e)) = e.
Proof.
  intros He. rewrite slice_prefix by exact He.
  rewrite length_firstn. lia.
Qed.

Lemma index_in_range {A : Type} (l : list A) (i : Z) :
  0 <= i < Z.of_nat (List.length l) -> exists v, JS.index l i = Some v.
Proof.
  intros Hi. unfold JS.index.
  destruct (Z.ltb_spec i 0) as [Hneg | _]; [lia |].
  destruct (nth_error l (Z.to_nat i)) as [v |] eqn:E; [eauto |].
  apply nth_error_None in E. lia.
Qed.

(** A commit leaves the pointer on the last entry, whatever the state. *)
Lemma addToHistory_last (newElements : list WhiteboardElement) (s : Editor) :
  historyIndex (addToHistory newElements s)
  = Z.of_nat (List.length (history (addToHistory newElements s))) - 1.
Proof. reflexivity. Qed.

Lemma addToHistory_ok (newElements : list WhiteboardElement) (s : Editor) :
  history_ok (addToHistory newElements s).
Proof.
  unfold history_ok. rewrite addToHistory_last.
  unfold addToHistory; simpl. rewrite length_app; simpl. lia.
Qed.

Lemma undo_ok (s : Editor) :
  history_ok s -> exists s', undo s = Some s' /\ history_ok s'.
Proof.
  unfold history_ok, undo. intros H.
  destruct (Z.ltb_spec 0 (historyIndex s)) as [Hpos | Hle].
  - destruct (index_in_range (history s) (historyIndex s - 1)) as [els Hels];
      [lia |].
    unfold JS.spread. rewrite Hels. eexists; split; [reflexivity |]. simpl. lia.
  - eexists; split; [reflexivity | exact H].
Qed.

Lemma redo_ok (s : Editor) :
  history_ok s -> exists s', redo s = Some s' /\ history_ok s'.
Proof.
  unfold history_ok, redo. intros H.
  destruct (Z.ltb_spec (historyIndex s) (Z.of_nat (List.length (history s)) - 1))
    as [Hlt | Hge].
  - destruct (index_in_range (history s) (historyIndex s + 1)) as [els Hels];
      [lia |].
    unfold JS.spread. rewrite Hels. eexists; split; [reflexivity |]. simpl. lia.
  - eexists; split; [reflexivity | exact H].
Qed.

Lemma history_step_ok (op : HistoryOp) (s : Editor) :
  history_ok s -> exists s', history_step op s = Some s' /\ history_ok s'.
Proof.
  intros H. destruct op as [newElements | |]; simpl.
  - eexists; split; [reflexivity | apply addToHistory_ok].
  - apply undo_ok, H.
  - apply redo_ok, H.
Qed.

Lemma history_run_ok (ops : list HistoryOp) :
  forall s, history_ok s -> exists s', history_run ops s = Some s' /\ history_ok s'.
Proof.
  induction ops as [| op rest IH]; intros s H; simpl.
  - eauto.
  - destruct (history_step_ok op s H) as [s1 [E1 H1]]. rewrite E1. apply IH, H1.
Qed.

Lemma init_ok (whiteboard : Whiteboard) : history_ok (init whiteboard).
Proof. unfold history_ok; simpl; lia. Qed.

Lemma undo_at_first (s : Editor) : historyIndex s = 0 -> undo s = Some s.
Proof. intros H. unfold undo. rewrite H. reflexivity. Qed.

Lemma redo_at_last (s : Editor) :
  historyIndex s = Z.of_nat (List.length (history s)) - 1 -> redo s = Some s.
Proof. intros H. unfold redo. rewrite <- H, Z.ltb_irrefl. reflexivity. Qed.

(** C2.  From the state of the first render (one snapshot, index 0), every
    finite sequence of commits, undos and redos runs to completion and ends
    in a state with [0 <= historyIndex < history.length]; an undo at index 0
    and a redo at the last index return the state unchanged, so neither the
    index nor the element list moves. *)
Theorem history_invariant :
  (forall (whiteboard : Whiteboard) (ops : list HistoryOp),
     exists s, history_run ops (init whiteboard) = Some s /\
               0 <= historyIndex s < Z.of_nat (List.length (history s))) /\
  (forall s : Editor, historyIndex s = 0 -> undo s = Some s) /\
  (forall s : Editor,
     historyIndex s = Z.of_nat (List.length (history s)) - 1 -> redo s = Some s).
Proof.
  split; [| split].
  - intros whiteboard ops. apply history_run_ok, init_ok.
  - exact undo_at_first.
  - exact redo_at_last.
Qed.

Lemma history_invariant_witness :
  undo (init blank_board) = Some (init blank_board) /\
  redo (init blank_board) = Some (init blank_board).
Proof.
  split.
  - apply (proj1 (proj2 history_invariant)). reflexivity.
  - apply (proj2 (proj2 history_invariant)). reflexivity.
Defined.

Lemma undo_back (s : Editor) :
  history_ok s -> 0 < historyIndex s ->
  exists els, JS.index (history s) (historyIndex s - 1) = Some els /\
    undo s = Some (setElements els (setHistoryIndex (historyIndex s - 1) s)).
Proof.
  unfold history_ok, undo. intros H Hpos.
  destruct (index_in_range (history s) (historyIndex s - 1)) as [els Hels];
    [lia |].
  exists els. split; [exact Hels |].
  destruct (Z.ltb_spec 0 (historyIndex s)) as [_ | Hle]; [| lia].
  unfold JS.spread. rewrite Hels. reflexivity.
Qed.

(** [n] undos move the pointer back by [n], stopping at 0, and leave the
    history array alone. *)
Lemma undo_n_spec (n : nat) :
  forall s, history_ok s ->
  exists s', undo_n n s = Some s' /\
    historyIndex s' = historyIndex s - Z.min (Z.of_nat n) (historyIndex s) /\
    history s' = history s.
Proof.
  induction n as [| k IH]; intros s H.
  - exists s. simpl. unfold history_ok in H. repeat split. lia.
  - cbn [undo_n]. destruct (Z.ltb_spec 0 (historyIndex s)) as [Hpos | Hle].
    + destruct (undo_back s H Hpos) as [els [_ E]]. rewrite E.
      set (s1 := setElements els (setHistoryIndex (historyIndex s - 1) s)).
      assert (H1 : history_ok s1) by (unfold history_ok in *; simpl; lia).
      destruct (IH s1 H1) as [s' [Erun [Hidx Hhist]]].
      exists s'. split; [exact Erun |]. simpl in Hidx, Hhist.
      split; [lia | exact Hhist].
    + assert (H0 : historyIndex s = 0) by (unfold history_ok in H; lia).
      rewrite (undo_at_first s H0).
      destruct (IH s H) as [s' [Erun [Hidx Hhist]]].
      exists s'. split; [exact Erun |]. split; [lia | exact Hhist].
Qed.

Lemma addToHistory_prefix (newElements : list WhiteboardElement) (s : Editor) :
  history_ok s ->
  history (addToHistory newElements s)
  = firstn (Z.to_nat (historyIndex s + 1)) (history s) ++ [newElements] /\
  historyIndex (addToHistory newElements s) = historyIndex s + 1.
Proof.
  unfold history_ok. intros H. unfold addToHistory; simpl.
  split.
  - rewrite slice_prefix by lia. reflexivity.
  - rewrite length_app, Nat2Z.inj_add, slice_prefix_length by lia. simpl. lia.
Qed.

(** C3.  [addToHistory(newElements)] sets the history to
    [history.slice(0, historyIndex + 1)] followed by [newElements] and the
    index to the new last index, so a redo right after is a no-op; in a
    state that satisfies the history invariant the slice is the prefix
    [history[0..historyIndex]].  After [n] undos and one commit the history
    is the prefix up to the pointer the undos reached followed by the new
    snapshot: the entries the undos made redoable are gone, and redo
    returns the state unchanged. *)
Theorem addToHistory_truncates :
  (forall (s : Editor) (newElements : list WhiteboardElement),
     history (addToHistory newElements s)
       = JS.slice (history s) 0 (historyIndex s + 1) ++ [newElements] /\
     historyIndex (addToHistory newElements s)
       = Z.of_nat (List.length (history (addToHistory newElements s))) - 1 /\
     redo (addToHistory newElements s) = Some (addToHistory newElements s) /\
     (0 <= historyIndex s < Z.of_nat (List.length (history s)) ->
      history (addToHistory newElements s)
        = firstn (Z.to_nat (historyIndex s + 1)) (history s) ++ [newElements] /\
      historyIndex (addToHistory newElements s) = historyIndex s + 1)) /\
  (forall (s : Editor) (n : nat) (newElements : list WhiteboardElement),
     0 <= historyIndex s < Z.of_nat (List.length (history s)) ->
     exists s',
       undo_n n s = Some s' /\
       historyIndex s' = historyIndex s - Z.min (Z.of_nat n) (historyIndex s) /\
       history (addToHistory newElements s')
         = firstn (Z.to_nat (historyIndex s' + 1)) (history s) ++ [newElements] /\
       historyIndex (addToHistory newElements s') = historyIndex s' + 1 /\
       Z.of_nat (List.length (history (addToHistory newElements s')))
         = historyIndex s' + 2 /\
       redo (addToHistory newElements s') = Some (addToHistory newElements s')).
Proof.
  split.
  - intros s newElements. repeat split.
    + apply redo_at_last, addToHistory_last.
    + apply (proj1 (addToHistory_prefix newElements s H)).
    + apply (proj2 (addToHistory_prefix newElements s H)).
  - intros s n newElements H.
    destruct (undo_n_spec n s H) as [s' [Erun [Hidx Hhist]]].
    assert (H' : history_ok s').
    { unfold history_ok in *. rewrite Hhist. lia. }
    destruct (addToHistory_prefix newElements s' H') as [Hh Hi].
    exists s'. split; [exact Erun |]. split; [exact Hidx |].
    rewrite Hhist in Hh. split; [exact Hh |]. split; [exact Hi |].
    split.
    + pose proof (addToHistory_last newElements s') as Hl. lia.
    + apply redo_at_last, addToHistory_last.
Qed.

Lemma addToHistory_truncates_witness :
  exists s',
    undo_n 2 three_commits = Some s' /\
    historyIndex s' = 1 /\
    Z.of_nat (List.length (history (addToHistory [sample_stroke] s'))) = 3 /\
    redo (addToHistory [sample_stroke] s')
      = Some (addToHistory [sample_stroke] s').
Proof.
  destruct (proj2 addToHistory_truncates three_commits 2%nat [sample_stroke])
    as [s' [Erun [Hidx [_ [_ [Hlen Hredo]]]]]].
  - vm_compute. split; [discriminate | reflexivity].
  - exists s'. split; [exact Erun |].
    change (historyIndex three_commits) with 3 in Hidx.
    change (Z.min (Z.of_nat 2) 3) with 2 in Hidx.
    split; [lia |]. split; [lia | exact Hredo].
Defined.

(** ** Input state machine *)

(** *** One pointer-move *)

Lemma handleMouseMove_document (e : MouseEvent) (s : Editor) :
  document (handleMouseMove e s) = document s.
Proof.
  unfold handleMouseMove.
  destruct (isPanning s), (lastPoint s), (isDrawing s),
    (isFreehand (currentTool s)), (ctx s); reflexivity.
Qed.

Lemma handleMouseMove_settings (e : MouseEvent) (s : Editor) :
  settings (handleMouseMove e s) = settings s.
Proof.
  unfold handleMouseMove.
  destruct (isPanning s), (lastPoint s), (isDrawing s),
    (isFreehand (currentTool s)), (ctx s); reflexivity.
Qed.

Lemma handleMouseMove_mode (e : MouseEvent) (s : Editor) :
  isPanning (handleMouseMove e s) = isPanning s /\
  isDrawing (handleMouseMove e s) = isDrawing s.
Proof.
  unfold handleMouseMove.
  destruct (isPanning s) eqn:Hp, (lastPoint s), (isDrawing s) eqn:Hd,
    (isFreehand (currentTool s)), (ctx s); simpl; split; congruence.
Qed.

(** A tool that is not a freehand one records no point and paints no
    preview. *)
Lemma handleMouseMove_no_record (e : MouseEvent) (s : Editor) :
  isFreehand (currentTool s) = false ->
  currentPath (handleMouseMove e s) = currentPath s /\
  ctx (handleMouseMove e s) = ctx s.
Proof.
  intros Hf. unfold handleMouseMove. rewrite Hf.
  destruct (isPanning s), (lastPoint s), (isDrawing s); split; reflexivity.
Qed.

(** While panning, a move writes the pan offset and nothing else. *)
Lemma handleMouseMove_panning (e : MouseEvent) (s : Editor) (last : Point) :
  isPanning s = true -> lastPoint s = Some last ->
  exists p, handleMouseMove e s = setPan p s.
Proof.
  intros Hp Hl. unfold handleMouseMove. rewrite Hp, Hl. eauto.
Qed.

(** While drawing with a freehand tool, a move appends the pointer position
    and, when there is a context, strokes the preview segment. *)
Lemma handleMouseMove_drawing (e : MouseEvent) (s : Editor) (last : Point) :
  isPanning s = false -> isDrawing s = true -> lastPoint s = Some last ->
  isFreehand (currentTool s) = true ->
  let pos := getMousePos (canvasRef s) (zoom s) (pan s) e in
  let s' := setCurrentPath (currentPath s ++ [pos]) s in
  handleMouseMove e s
  = setLastPoint (Some pos)
      match ctx s with
      | Some c => setCtx (Some (drawPreview s last pos c)) s'
      | None => s'
      end.
Proof.
  intros Hp Hd Hl Hf. unfold handleMouseMove. rewrite Hp, Hd, Hl, Hf.
  reflexivity.
Qed.

(** *** The moves of a gesture *)

Lemma moves_document (evs : list MouseEvent) :
  forall s, document (moves evs s) = document s.
Proof.
  induction evs as [| e rest IH]; intros s; [reflexivity |].
  change (moves (e :: rest) s) with (moves rest (handleMouseMove e s)).
  rewrite IH. apply handleMouseMove_document.
Qed.

Lemma moves_settings (evs : list MouseEvent) :
  forall s, settings (moves evs s) = settings s.
Proof.
  induction evs as [| e rest IH]; intros s; [reflexivity |].
  change (moves (e :: rest) s) with (moves rest (handleMouseMove e s)).
  rewrite IH. apply handleMouseMove_settings.
Qed.

Lemma moves_mode (evs : list MouseEvent) :
  forall s, isPanning (moves evs s) = isPanning s /\
            isDrawing (moves evs s) = isDrawing s.
Proof.
  induction evs as [| e rest IH]; intros s; [split; reflexivity |].
  change (moves (e :: rest) s) with (moves rest (handleMouseMove e s)).
  destruct (IH (handleMouseMove e s)) as [Hp Hd].
  destruct (handleMouseMove_mode e s) as [Hp' Hd'].
  split; congruence.
Qed.

Lemma settings_tool (a b : Editor) :
  settings a = settings b -> currentTool a = currentTool b.
Proof. unfold settings. intros H. congruence. Qed.

Lemma moves_no_record (evs : list MouseEvent) :
  forall s, isFreehand (currentTool s) = false ->
    currentPath (moves evs s) = currentPath s /\ ctx (moves evs s) = ctx s.
Proof.
  induction evs as [| e rest IH]; intros s Hf; [split; reflexivity |].
  change (moves (e :: rest) s) with (moves rest (handleMouseMove e s)).
  destruct (handleMouseMove_no_record e s Hf) as [Hpath Hctx].
  destruct (IH (handleMouseMove e s)) as [Hpath' Hctx'].
  - rewrite (settings_tool _ _ (handleMouseMove_settings e s)). exact Hf.
  - split; congruence.
Qed.

(** *** Pointer-up *)

Lemma handleMouseUp_below_threshold (uuid : string) (s : Editor) :
  (List.length (currentPath s) <= 1)%nat ->
  document (handleMouseUp uuid s) = document s.
Proof.
  intros Hlen. unfold handleMouseUp.
  destruct (isPanning s); [reflexivity |].
  destruct (isDrawing s); [| reflexivity]. simpl.
  destruct (Z.ltb_spec 1 (Z.of_nat (List.length (currentPath s)))) as [Hgt | _];
    [lia | reflexivity].
Qed.

Lemma handleMouseUp_panning (uuid : string) (s : Editor) :
  isPanning s = true ->
  handleMouseUp uuid s = setLastPoint None (setIsPanning false s).
Proof. intros Hp. unfold handleMouseUp. rewrite Hp. reflexivity. Qed.

Lemma handleMouseUp_commits (uuid : string) (s : Editor) :
  isPanning s = false -> isDrawing s = true ->
  (2 <= List.length (currentPath s))%nat ->
  elements (handleMouseUp uuid s) = elements s ++ [newElement uuid s] /\
  history (handleMouseUp uuid s)
    = JS.slice (history s) 0 (historyIndex s + 1)
        ++ [elements s ++ [newElement uuid s]] /\
  historyIndex (handleMouseUp uuid s)
    = Z.of_nat (List.length (history (handleMouseUp uuid s))) - 1.
Proof.
  intros Hp Hd Hlen. unfold handleMouseUp. rewrite Hp, Hd. simpl.
  destruct (Z.ltb_spec 1 (Z.of_nat (List.length (currentPath s)))) as [_ | Hle];
    [| lia].
  repeat split.
Qed.

(** The state pointer-down leaves behind with any tool but the hand. *)
Lemma handleMouseDown_drawing (e : MouseEvent) (s : Editor) :
  currentTool s <> hand ->
  handleMouseDown e s
  = setCurrentPath [getMousePos (canvasRef s) (zoom s) (pan s) e]
      (setIsDrawing true
         (setLastPoint (Some (getMousePos (canvasRef s) (zoom s) (pan s) e)) s)).
Proof.
  intros Hne. unfold handleMouseDown, Tag_eqb.
  destruct (Tag_eq_dec (currentTool s) hand); [contradiction | reflexivity].
Qed.

Lemma handleMouseDown_panning (e : MouseEvent) (s : Editor) :
  currentTool s = hand ->
  handleMouseDown e s
  = setIsPanning true
      (setLastPoint (Some (getMousePos (canvasRef s) (zoom s) (pan s) e)) s).
Proof. intros Hh. unfold handleMouseDown. rewrite Hh. reflexivity. Qed.

Lemma handleMouseDown_document (e : MouseEvent) (s : Editor) :
  document (handleMouseDown e s) = document s.
Proof.
  unfold handleMouseDown. destruct (Tag_eqb (currentTool s) hand); reflexivity.
Qed.

Lemma handleMouseDown_settings (e : MouseEvent) (s : Editor) :
  settings (handleMouseDown e s) = settings s.
Proof.
  unfold handleMouseDown. destruct (Tag_eqb (currentTool s) hand); reflexivity.
Qed.

Lemma isFreehand_not_hand (t : Tool) : isFreehand t = true -> t <> hand.
Proof. intros H E. subst t. discriminate H. Qed.

(** With a freehand tool every move of a drawing gesture records its
    document-space position; the view does not move meanwhile. *)
Lemma moves_record (evs : list MouseEvent) :
  forall s,
    isPanning s = false -> isDrawing s = true -> lastPoint s <> None ->
    isFreehand (currentTool s) = true ->
    currentPath (moves evs s)
      = currentPath s ++ map (getMousePos (canvasRef s) (zoom s) (pan s)) evs /\
    pan (moves evs s) = pan s.
Proof.
  induction evs as [| e rest IH]; intros s Hp Hd Hl Hf.
  - simpl. rewrite app_nil_r. split; reflexivity.
  - change (moves (e :: rest) s) with (moves rest (handleMouseMove e s)).
    destruct (lastPoint s) as [last |] eqn:El; [| contradiction].
    pose proof (handleMouseMove_drawing e s last Hp Hd El Hf) as Estep.
    cbv zeta in Estep.
    set (pos := getMousePos (canvasRef s) (zoom s) (pan s) e) in *.
    destruct (IH (handleMouseMove e s)) as [Hpath Hpan].
    + rewrite Estep. destruct (ctx s); exact Hp.
    + rewrite Estep. destruct (ctx s); exact Hd.
    + rewrite Estep. destruct (ctx s); discriminate.
    + rewrite Estep. destruct (ctx s); exact Hf.
    + rewrite Hpath, Hpan. rewrite Estep.
      destruct (ctx s); simpl; rewrite <- app_assoc; split; reflexivity.
Qed.

(** With any other tool a whole gesture leaves the document alone. *)
Lemma gesture_without_freehand (down : MouseEvent) (evs : list MouseEvent)
    (uuid : string) (s : Editor) :
  isFreehand (currentTool s) = false ->
  document (gesture down evs uuid s) = document s.
Proof.
  intros Hf. unfold gesture.
  set (s0 := handleMouseDown down s).
  assert (Hf0 : isFreehand (currentTool s0) = false).
  { unfold s0. rewrite (settings_tool _ _ (handleMouseDown_settings down s)).
    exact Hf. }
  destruct (moves_no_record evs s0 Hf0) as [Hpath _].
  destruct (moves_mode evs s0) as [Hpan _].
  assert (Hdoc : document (moves evs s0) = document s).
  { rewrite moves_document. apply handleMouseDown_document. }
  destruct (Tag_eq_dec (currentTool s) hand) as [Hh | Hne].
  - rewrite handleMouseUp_panning.
    + exact Hdoc.
    + rewrite Hpan. unfold s0. rewrite (handleMouseDown_panning down s Hh).
      reflexivity.
  - rewrite handleMouseUp_below_threshold; [exact Hdoc |].
    rewrite Hpath. unfold s0. rewrite (handleMouseDown_drawing down s Hne).
    simpl. lia.
Qed.

Lemma document_eq (a b : Editor) :
  document a = document b ->
  elements a = elements b /\ history a = history b /\
  historyIndex a = historyIndex b.
Proof. unfold document. intros H. inversion H. repeat split. Qed.

(** The callers of [addToHistory] keep the history invariant. *)
Lemma handleMouseUp_ok (uuid : string) (s : Editor) :
  history_ok s -> history_ok (handleMouseUp uuid s).
Proof.
  intros H. unfold handleMouseUp.
  destruct (isPanning s); [exact H |].
  destruct (isDrawing s); [| exact H]. cbn [negb].
  destruct (1 <? Z.of_nat (List.length (currentPath s))); [| exact H].
  exact (addToHistory_ok _ _).
Qed.

Lemma gesture_ok (down : MouseEvent) (evs : list MouseEvent) (uuid : string)
    (s : Editor) :
  history_ok s -> history_ok (gesture down evs uuid s).
Proof.
  intros H. apply handleMouseUp_ok.
  pose proof (moves_document evs (handleMouseDown down s)) as Hm.
  rewrite handleMouseDown_document in Hm.
  destruct (document_eq _ _ Hm) as [_ [Hh Hi]].
  unfold history_ok in *. rewrite Hh, Hi. exact H.
Qed.

Lemma clearCanvas_ok (s : Editor) :
  history_ok (clearCanvas s) /\ elements (clearCanvas s) = [].
Proof. split; [apply addToHistory_ok | reflexivity]. Qed.

(** A freehand gesture with one move or more commits one element. *)
Lemma freehand_gesture_commits (s : Editor) (down : MouseEvent)
    (evs : list MouseEvent) (uuid : string) :
  isFreehand (currentTool s) = true -> isPanning s = false -> evs <> [] ->
  exists e : WhiteboardElement,
    content e
      = JsonPoints (map (getMousePos (canvasRef s) (zoom s) (pan s))
                      (down :: evs)) /\
    type e = currentTool s /\
    opacity (style e) = Some (toolAlpha (currentTool s)) /\
    elements (gesture down evs uuid s) = elements s ++ [e] /\
    history (gesture down evs uuid s)
      = JS.slice (history s) 0 (historyIndex s + 1) ++ [elements s ++ [e]] /\
    historyIndex (gesture down evs uuid s)
      = Z.of_nat (List.length (history (gesture down evs uuid s))) - 1.
Proof.
  intros Hf Hp Hevs. unfold gesture.
  pose proof (handleMouseDown_drawing down s (isFreehand_not_hand _ Hf)) as E0.
  set (s0 := handleMouseDown down s) in *.
  assert (Hrec : currentPath (moves evs s0)
                 = map (getMousePos (canvasRef s) (zoom s) (pan s)) (down :: evs)
                 /\ pan (moves evs s0) = pan s).
  { destruct (moves_record evs s0) as [Hpath Hpan];
      try (rewrite E0; simpl; first [exact Hp | exact Hf | discriminate | reflexivity]).
    rewrite Hpath, Hpan. rewrite E0. simpl. split; reflexivity. }
  destruct Hrec as [Hpath _].
  destruct (moves_mode evs s0) as [Hp1 Hd1].
  pose proof (document_eq _ _ (moves_document evs s0)) as [He1 [Hh1 Hi1]].
  pose proof (settings_tool _ _ (moves_settings evs s0)) as Ht1.
  assert (Hbase : elements s0 = elements s /\ history s0 = history s /\
                  historyIndex s0 = historyIndex s /\
                  currentTool s0 = currentTool s /\
                  isPanning s0 = false /\ isDrawing s0 = true).
  { rewrite E0. simpl. repeat split. exact Hp. }
  destruct Hbase as [He0 [Hh0 [Hi0 [Ht0 [Hp0 Hd0]]]]].
  destruct (handleMouseUp_commits uuid (moves evs s0)) as [Hel [Hhi Hix]].
  - congruence.
  - congruence.
  - rewrite Hpath. simpl. rewrite length_map.
    destruct evs; [contradiction | simpl; lia].
  - exists (newElement uuid (moves evs s0)).
    split; [| split; [| split; [| split; [| split]]]].
    + unfold newElement; simpl. rewrite Hpath. reflexivity.
    + unfold newElement; simpl. congruence.
    + unfold newElement; simpl. congruence.
    + rewrite Hel. congruence.
    + rewrite Hhi. congruence.
    + exact Hix.
Qed.

(** C4.  Pointer-up commits nothing while at most one point is recorded,
    and with a freehand tool a press that is released without a move has
    recorded exactly one: elements, history and index are unchanged.  After
    one move or more (two recorded points or more) the gesture appends
    exactly one element, whose path is the press position followed by the
    positions of the moves, and pushes exactly one history entry, the new
    element list, leaving the index on it. *)
Theorem stroke_commit_threshold :
  (forall (s : Editor) (uuid : string),
     (List.length (currentPath s) <= 1)%nat ->
     elements (handleMouseUp uuid s) = elements s /\
     history (handleMouseUp uuid s) = history s /\
     historyIndex (handleMouseUp uuid s) = historyIndex s) /\
  (forall (s : Editor) (down : MouseEvent) (uuid : string),
     isFreehand (currentTool s) = true ->
     elements (gesture down [] uuid s) = elements s /\
     history (gesture down [] uuid s) = history s /\
     historyIndex (gesture down [] uuid s) = historyIndex s) /\
  (forall (s : Editor) (down : MouseEvent) (evs : list MouseEvent) (uuid : string),
     isFreehand (currentTool s) = true -> isPanning s = false -> evs <> [] ->
     exists e : WhiteboardElement,
       content e
         = JsonPoints (map (getMousePos (canvasRef s) (zoom s) (pan s))
                         (down :: evs)) /\
       type e = currentTool s /\
       elements (gesture down evs uuid s) = elements s ++ [e] /\
       history (gesture down evs uuid s)
         = JS.slice (history s) 0 (historyIndex s + 1) ++ [elements s ++ [e]] /\
       historyIndex (gesture down evs uuid s)
         = Z.of_nat (List.length (history (gesture down evs uuid s))) - 1).
Proof.
  split; [| split].
  - intros s uuid Hlen.
    apply document_eq, handleMouseUp_below_threshold, Hlen.
  - intros s down uuid Hf. apply document_eq. unfold gesture. simpl.
    rewrite handleMouseUp_below_threshold.
    + apply handleMouseDown_document.
    + rewrite (handleMouseDown_drawing down s (isFreehand_not_hand _ Hf)).
      simpl. lia.
  - intros s down evs uuid Hf Hp Hevs.
    destruct (freehand_gesture_commits s down evs uuid Hf Hp Hevs)
      as [e [Hcont [Hty [_ [Hel [Hhi Hix]]]]]].
    exists e. repeat split; assumption.
Qed.

Lemma stroke_commit_threshold_witness :
  elements (gesture (mkMouseEvent 10 10) [] "id-1" (editor_with pen [])) = [] /\
  exists e : WhiteboardElement,
    type e = pen /\
    elements (gesture (mkMouseEvent 10 10) [mkMouseEvent 20 20] "id-1"
                (editor_with pen []))
      = [] ++ [e].
Proof.
  split.
  - apply (proj1 (proj2 stroke_commit_threshold)). reflexivity.
  - destruct (proj2 (proj2 stroke_commit_threshold) (editor_with pen [])
                (mkMouseEvent 10 10) [mkMouseEvent 20 20] "id-1"%string)
      as [e [_ [Hty [Hel _]]]].
    + reflexivity.
    + reflexivity.
    + discriminate.
    + exists e. split; [exact Hty | exact Hel].
Defined.

(** *** Panning *)

Lemma setPan_same (s : Editor) : setPan (pan s) s = s.
Proof. destruct s; reflexivity. Qed.

(** While panning, any number of moves amounts to one write of the pan
    offset. *)
Lemma moves_panning (evs : list MouseEvent) :
  forall (s : Editor) (anchor : Point),
    isPanning s = true -> lastPoint s = Some anchor ->
    exists p, moves evs s = setPan p s.
Proof.
  induction evs as [| e rest IH]; intros s anchor Hp Hl.
  - exists (pan s). symmetry. apply setPan_same.
  - change (moves (e :: rest) s) with (moves rest (handleMouseMove e s)).
    destruct (handleMouseMove_panning e s anchor Hp Hl) as [q Hq].
    rewrite Hq.
    destruct (IH (setPan q s) anchor Hp Hl) as [p Ep].
    exists p. rewrite Ep. reflexivity.
Qed.

(** C9.  A gesture that starts with the hand tool ends in the state it
    started from with a new pan offset, [isPanning] false and [lastPoint]
    null; every other cell is untouched, in particular the element list,
    the history array and the history index, so nothing is committed. *)
Theorem pan_gesture_frame (s : Editor) (down : MouseEvent)
    (evs : list MouseEvent) (uuid : string) :
  currentTool s = hand ->
  (exists p : Point,
     gesture down evs uuid s = setLastPoint None (setIsPanning false (setPan p s))) /\
  elements (gesture down evs uuid s) = elements s /\
  history (gesture down evs uuid s) = history s /\
  historyIndex (gesture down evs uuid s) = historyIndex s.
Proof.
  intros Hh.
  assert (E : exists p : Point,
             gesture down evs uuid s
             = setLastPoint None (setIsPanning false (setPan p s))).
  { unfold gesture. rewrite (handleMouseDown_panning down s Hh).
    set (anchor := getMousePos (canvasRef s) (zoom s) (pan s) down).
    set (s0 := setIsPanning true (setLastPoint (Some anchor) s)).
    destruct (moves_panning evs s0 anchor) as [p Ep];
      [reflexivity | reflexivity |].
    exists p. rewrite Ep. rewrite handleMouseUp_panning; reflexivity. }
  split; [exact E |].
  destruct E as [p Ep]. rewrite Ep. repeat split.
Qed.

Lemma pan_gesture_frame_witness :
  elements (gesture (mkMouseEvent 10 10) [mkMouseEvent 30 40; mkMouseEvent 50 5]
              "id-1" (editor_with hand [sample_sticky]))
  = [sample_sticky].
Proof.
  apply (pan_gesture_frame (editor_with hand [sample_sticky])).
  reflexivity.
Defined.

(** *** Tools without a pointer-up action *)

(** C5 (fails on the code).  The claim: a rectangle gesture from (10, 10)
    to (110, 60) commits a shape element at (10, 10) of size 100 x 50.  On
    a mounted blank board at zoom 1 the press maps to the document point
    (10, 10) and the last move to (110, 60); after pointer-up the element
    list has no such element (it is still empty) and the history still has
    its single snapshot. *)
Lemma rectangle_gesture_counterexample :
  let s := editor_with rectangle [] in
  let down := mkMouseEvent 10 10 in
  let up := mkMouseEvent 110 60 in
  Point_eq (getMousePos (canvasRef s) (zoom s) (pan s) down) (mkPoint 10 10) /\
  Point_eq (getMousePos (canvasRef s) (zoom s) (pan s) up) (mkPoint 110 60) /\
  elements (gesture down [up] "id-1" s) = [] /\
  history (gesture down [up] "id-1" s) = [[]] /\
  ~ exists e : WhiteboardElement,
      In e (elements (gesture down [up] "id-1" s)) /\
      is_rectangle_at e 10 10 100 50.
Proof.
  cbv zeta. repeat split.
  intros [e [Hin _]]. exact Hin.
Qed.

(** C5, amended.  A gesture with the rectangle tool commits nothing: the
    moves record no path point, so pointer-up finds the single point of the
    press, below the commit threshold; elements, history and index are the
    ones before the gesture. *)
Theorem rectangle_gesture_commits_nothing (s : Editor) (down : MouseEvent)
    (evs : list MouseEvent) (uuid : string) :
  currentTool s = rectangle ->
  elements (gesture down evs uuid s) = elements s /\
  history (gesture down evs uuid s) = history s /\
  historyIndex (gesture down evs uuid s) = historyIndex s.
Proof.
  intros Ht. apply document_eq, gesture_without_freehand.
  rewrite Ht. reflexivity.
Qed.

Lemma rectangle_gesture_commits_nothing_witness :
  elements (gesture (mkMouseEvent 10 10) [mkMouseEvent 110 60] "id-1"
              (editor_with rectangle [sample_sticky]))
  = [sample_sticky].
Proof.
  apply (rectangle_gesture_commits_nothing (editor_with rectangle [sample_sticky])).
  reflexivity.
Defined.

(** C6 (fails on the code).  The claim: with the eraser, a move tick
    removes the elements under the cursor.  A sticky note spans (0, 0) to
    (100, 100); the eraser is pressed and moved at the document point
    (50, 50), inside it; the note is still in the element list after the
    tick and after pointer-up. *)
Lemma eraser_counterexample :
  let s := editor_with eraser [sample_sticky] in
  let ev := mkMouseEvent 50 50 in
  point_in_bounds (getMousePos (canvasRef s) (zoom s) (pan s) ev) sample_sticky
    = true /\
  In sample_sticky (elements (handleMouseMove ev (handleMouseDown ev s))) /\
  In sample_sticky (elements (gesture ev [ev] "id-1" s)).
Proof.
  cbv zeta. split; [reflexivity |]. split; left; reflexivity.
Qed.

(** C6, amended.  With the eraser active no move tick removes anything and
    pointer-up commits nothing: the element list is the same after every
    tick, and elements, history and index are unchanged by the whole
    gesture. *)
Theorem eraser_gesture_removes_nothing (s : Editor) (down : MouseEvent)
    (evs : list MouseEvent) (uuid : string) :
  currentTool s = eraser ->
  (forall k : nat,
     elements (moves (firstn k evs) (handleMouseDown down s)) = elements s) /\
  elements (gesture down evs uuid s) = elements s /\
  history (gesture down evs uuid s) = history s /\
  historyIndex (gesture down evs uuid s) = historyIndex s.
Proof.
  intros Ht. split.
  - intros k.
    pose proof (moves_document (firstn k evs) (handleMouseDown down s)) as Hm.
    rewrite handleMouseDown_document in Hm.
    apply (proj1 (document_eq _ _ Hm)).
  - apply document_eq, gesture_without_freehand. rewrite Ht. reflexivity.
Qed.

Lemma eraser_gesture_removes_nothing_witness :
  elements (gesture (mkMouseEvent 50 50) [mkMouseEvent 50 50] "id-1"
              (editor_with eraser [sample_sticky]))
  = [sample_sticky].
Proof.
  apply (eraser_gesture_removes_nothing (editor_with eraser [sample_sticky])).
  reflexivity.
Defined.

(** ** Saving *)

(** C7 (fails on the code).  The claim: the whiteboard handed to [onSave]
    holds no laser element.  An editor opened on a board whose content has
    a laser mark saves that mark with the rest. *)
Lemma handleSave_counterexample :
  let s := init board_with_laser in
  In (sample_laser 1000)
     (wc_elements (wb_content (handleSave board_with_laser 0 s))) /\
  isLaser (sample_laser 1000) = true /\
  existsb isLaser (wc_elements (wb_content (handleSave board_with_laser 0 s)))
    = true.
Proof.
  cbv zeta. split; [right; left; reflexivity |]. split; reflexivity.
Qed.

(** C7, amended.  [handleSave] hands over the in-memory element list as it
    is: every element, laser or not, is passed on unchanged and in order,
    so the non-laser elements are preserved and the laser ones are not
    filtered out; zoom, pan and canvas size are the current ones. *)
Theorem handleSave_passes_elements (whiteboard : Whiteboard) (now : Q)
    (s : Editor) :
  wc_elements (wb_content (handleSave whiteboard now s)) = elements s /\
  filter (fun e => negb (isLaser e))
         (wc_elements (wb_content (handleSave whiteboard now s)))
    = filter (fun e => negb (isLaser e)) (elements s) /\
  filter isLaser (wc_elements (wb_content (handleSave whiteboard now s)))
    = filter isLaser (elements s) /\
  wc_zoom (wb_content (handleSave whiteboard now s)) = zoom s /\
  wc_pan (wb_content (handleSave whiteboard now s)) = pan s /\
  wc_canvasSize (wb_content (handleSave whiteboard now s)) = canvasSize s.
Proof. repeat split. Qed.

(** ** Renderer *)

(** *** The canvas context *)

Lemma painted_restore (c : Canvas.Context) :
  Canvas.painted (Canvas.restore c) = Canvas.painted c.
Proof. unfold Canvas.restore. destruct (Canvas.saved c); reflexivity. Qed.

Lemma set_globalAlpha_accepts (v : Q) (c : Canvas.Context) :
  (0 <= v <= 1)%Q ->
  Canvas.globalAlpha (Canvas.state (Canvas.set_globalAlpha v c)) = v.
Proof.
  intros [H0 H1]. unfold Canvas.set_globalAlpha, Canvas.with_state; simpl.
  apply Qle_bool_iff in H0. apply Qle_bool_iff in H1. rewrite H0, H1.
  reflexivity.
Qed.

Lemma toolAlpha_cases (t : Tool) :
  (t = highlighter /\ toolAlpha t = (1 # 2)%Q) \/
  (t <> highlighter /\ toolAlpha t = 1%Q).
Proof.
  unfold toolAlpha, Tag_eqb. destruct (Tag_eq_dec t highlighter); auto.
Qed.

Lemma toolAlpha_range (t : Tool) : (0 < toolAlpha t <= 1)%Q.
Proof.
  destruct (toolAlpha_cases t) as [[_ E] | [_ E]]; rewrite E; split;
    reflexivity || discriminate.
Qed.

Lemma or_else_nonzero (v d : Q) : ~ (v == 0)%Q -> JS.or_else (Some v) d = v.
Proof.
  intros Hv. unfold JS.or_else.
  destruct (Qeq_bool v 0) eqn:E; [| reflexivity].
  apply Qeq_bool_iff in E. contradiction.
Qed.

(** *** Laser marks *)

Lemma drawLaser_expired (now : Q) (c : Canvas.Context) (e : WhiteboardElement)
    (ts : Q) :
  timestamp e = Some ts -> ~ (ts == 0)%Q -> (3000 < now - ts)%Q ->
  drawLaser now c e = c.
Proof.
  intros Hts Hnz Hage. unfold drawLaser.
  rewrite Hts, (or_else_nonzero ts now Hnz).
  destruct (Qle_bool (now - ts) 3000) eqn:E; [| reflexivity].
  apply Qle_bool_iff in E. lra.
Qed.

Lemma drawLaser_fading (now : Q) (c : Canvas.Context) (e : WhiteboardElement)
    (ts : Q) :
  timestamp e = Some ts -> ~ (ts == 0)%Q -> (0 < now - ts < 3000)%Q ->
  exists st : Canvas.DrawState,
    Canvas.painted (drawLaser now c e)
      = Canvas.painted c
        ++ [Canvas.Fill [Canvas.Arc (x (position e)) (y (position e)) 8 0 2] st] /\
    Canvas.fillStyle st = "#ff0000"%string /\
    (Canvas.globalAlpha st == 1 - (now - ts) / 3000)%Q /\
    (0 < Canvas.globalAlpha st < 1)%Q.
Proof.
  intros Hts Hnz [Hlo Hhi]. unfold drawLaser.
  rewrite Hts, (or_else_nonzero ts now Hnz).
  assert (E : Qle_bool (now - ts) 3000 = true) by (apply Qle_bool_iff; lra).
  rewrite E. cbn [negb].
  set (age := (now - ts)%Q) in *.
  assert (Hfrac : (0 < 1 - age / 3000 < 1)%Q).
  { assert (Hd : (age / 3000 == age * (1 # 3000))%Q) by (field; discriminate).
    rewrite Hd. lra. }
  assert (Hmax : (Qmax 0 (1 - age / 3000) == 1 - age / 3000)%Q).
  { apply Q.max_r. lra. }
  set (o := Qmax 0 (1 - age / 3000)) in *.
  assert (Ho : (0 <= o <= 1)%Q) by (rewrite Hmax; lra).
  eexists. split; [reflexivity |]. split; [reflexivity |].
  cbn [Canvas.arc Canvas.add_path Canvas.beginPath Canvas.set_fillStyle
       Canvas.with_state Canvas.state Canvas.globalAlpha].
  rewrite (set_globalAlpha_accepts o c Ho).
  split; [exact Hmax | rewrite Hmax; exact Hfrac].
Qed.

(** [drawElement] on a laser element paints what [drawLaser] paints. *)
Lemma drawElement_laser (now : Q) (c : Canvas.Context) (e : WhiteboardElement) :
  type e = laser ->
  exists c0 c' : Canvas.Context,
    Canvas.painted c0 = Canvas.painted c /\
    drawElement now c e = Some c' /\
    Canvas.painted c' = Canvas.painted (drawLaser now c0 e).
Proof.
  intros Hty. unfold drawElement. rewrite Hty.
  eexists. eexists. split; [| split; [reflexivity |]].
  2: { rewrite painted_restore. reflexivity. }
  reflexivity.
Qed.

(** For a laser element with a non-zero timestamp the renderer fades and
    expires the mark by its age: when [now - timestamp] exceeds 3000 ms, [drawLaser] returns
    without touching the context and [drawElement] paints nothing; when the
    age lies strictly between 0 and 3000 ms, they paint one filled red
    circle of radius 8 at the element's position with alpha
    [1 - age / 3000], which is strictly between 0 and 1. *)
Lemma laser_fade (now : Q) (c : Canvas.Context) (e : WhiteboardElement)
    (ts : Q) :
  type e = laser -> timestamp e = Some ts -> ~ (ts == 0)%Q ->
  ((3000 < now - ts)%Q ->
     drawLaser now c e = c /\
     exists c', drawElement now c e = Some c' /\
                Canvas.painted c' = Canvas.painted c) /\
  ((0 < now - ts < 3000)%Q ->
     exists (c' : Canvas.Context) (st : Canvas.DrawState),
       drawElement now c e = Some c' /\
       Canvas.painted c'
         = Canvas.painted c
           ++ [Canvas.Fill [Canvas.Arc (x (position e)) (y (position e)) 8 0 2] st] /\
       Canvas.fillStyle st = "#ff0000"%string /\
       (Canvas.globalAlpha st == 1 - (now - ts) / 3000)%Q /\
       (0 < Canvas.globalAlpha st < 1)%Q).
Proof.
  intros Hty Hts Hnz.
  destruct (drawElement_laser now c e Hty) as [c0 [c' [Hc0 [Hdraw Hpaint]]]].
  split.
  - intros Hage. split; [apply (drawLaser_expired now c e ts Hts Hnz Hage) |].
    exists c'. split; [exact Hdraw |].
    rewrite Hpaint, (drawLaser_expired now c0 e ts Hts Hnz Hage). exact Hc0.
  - intros Hage.
    destruct (drawLaser_fading now c0 e ts Hts Hnz Hage) as [st [Hp [Hf [Ha Hr]]]].
    exists c', st. split; [exact Hdraw |].
    rewrite Hpaint, Hp, Hc0. repeat split; try assumption; apply Hr.
Qed.

(** A mark stamped 5 s ago is not painted; one stamped 1 s ago is painted
    with alpha 2/3. *)
Example laser_fade_example :
  (exists c', drawElement 10000 Canvas.fresh (sample_laser 5000) = Some c' /\
              Canvas.painted c' = Canvas.painted Canvas.fresh) /\
  (exists (c' : Canvas.Context) (st : Canvas.DrawState),
     drawElement 10000 Canvas.fresh (sample_laser 9000) = Some c' /\
     (Canvas.globalAlpha st == 1 - (10000 - 9000) / 3000)%Q /\
     (0 < Canvas.globalAlpha st < 1)%Q).
Proof.
  split.
  - apply (laser_fade 10000 Canvas.fresh (sample_laser 5000) 5000);
      try reflexivity; discriminate.
  - destruct (proj2 (laser_fade 10000 Canvas.fresh (sample_laser 9000) 9000
                       eq_refl eq_refl ltac:(discriminate)))
      as [c' [st [Hd [_ [_ [Ha Hr]]]]]].
    + split; reflexivity.
    + exists c', st. split; [exact Hd |]. split; [exact Ha | exact Hr].
Qed.

(** C8 (the code falls short of it).  The claim: a laser element with a
    timestamp is not painted once [now - timestamp] exceeds 3000 ms.
    [drawLaser] reads the stamp as [element.timestamp || now], which takes
    a stamp of 0 for a missing one: at [now = 5000] the mark stamped 0 is
    5000 ms old, its age is computed as 0, and both [drawLaser] and
    [drawElement] fill the red circle, at alpha 1.  For every other stamp
    the code does what the claim says ([laser_fade]). *)
Theorem drawLaser_zero_timestamp_painted :
  let e := sample_laser 0 in
  type e = laser /\
  timestamp e = Some 0%Q /\
  (3000 < 5000 - 0)%Q /\
  (exists st : Canvas.DrawState,
     Canvas.painted (drawLaser 5000 Canvas.fresh e)
       = [Canvas.Fill [Canvas.Arc 5 5 8 0 2] st] /\
     (Canvas.globalAlpha st == 1)%Q) /\
  (exists (c' : Canvas.Context) (st : Canvas.DrawState),
     drawElement 5000 Canvas.fresh e = Some c' /\
     Canvas.painted c' = [Canvas.Fill [Canvas.Arc 5 5 8 0 2] st] /\
     (Canvas.globalAlpha st == 1)%Q).
Proof.
  cbv zeta. split; [reflexivity |]. split; [reflexivity |].
  split; [reflexivity |]. split.
  - eexists. split; reflexivity.
  - eexists. eexists. split; [reflexivity |]. split; reflexivity.
Qed.

(** *** Strokes and their preview *)

Lemma drawPreview_paints (s : Editor) (last pos : Point) (c : Canvas.Context) :
  exists p : Canvas.Paint,
    Canvas.painted (drawPreview s last pos c) = Canvas.painted c ++ [p] /\
    stroke_with_alpha (toolAlpha (currentTool s)) p.
Proof.
  unfold drawPreview. rewrite painted_restore.
  eexists. split; [reflexivity |]. split; [reflexivity |].
  cbn [paint_state Canvas.lineTo Canvas.moveTo Canvas.add_path Canvas.beginPath
       Canvas.state].
  apply set_globalAlpha_accepts.
  destruct (toolAlpha_range (currentTool s)) as [Hlo Hhi].
  split; [apply Qlt_le_weak, Hlo | exact Hhi].
Qed.

(** Every move of a freehand gesture strokes one preview segment, all with
    the alpha of the tool. *)
Lemma moves_previews (evs : list MouseEvent) :
  forall (s : Editor) (c : Canvas.Context),
    isPanning s = false -> isDrawing s = true -> lastPoint s <> None ->
    isFreehand (currentTool s) = true -> ctx s = Some c ->
    exists (c' : Canvas.Context) (previews : list Canvas.Paint),
      ctx (moves evs s) = Some c' /\
      Canvas.painted c' = Canvas.painted c ++ previews /\
      List.length previews = List.length evs /\
      Forall (stroke_with_alpha (toolAlpha (currentTool s))) previews.
Proof.
  induction evs as [| e rest IH]; intros s c Hp Hd Hl Hf Hc.
  - exists c, []. simpl. rewrite app_nil_r. repeat split; [exact Hc | constructor].
  - change (moves (e :: rest) s) with (moves rest (handleMouseMove e s)).
    destruct (lastPoint s) as [last |] eqn:El; [| contradiction].
    pose proof (handleMouseMove_drawing e s last Hp Hd El Hf) as Estep.
    cbv zeta in Estep. rewrite Hc in Estep.
    set (pos := getMousePos (canvasRef s) (zoom s) (pan s) e) in *.
    destruct (drawPreview_paints s last pos c) as [p [Hpaint Hp_ok]].
    destruct (IH (handleMouseMove e s) (drawPreview s last pos c))
      as [c' [previews [Hc' [Hpainted [Hlen Hall]]]]];
      try (rewrite Estep; simpl; first [assumption | discriminate | reflexivity]).
    assert (Htool : currentTool (handleMouseMove e s) = currentTool s)
      by (rewrite Estep; reflexivity).
    rewrite Htool in Hall.
    exists c', (p :: previews). split; [exact Hc' |]. split; [| split].
    + rewrite Hpainted, Hpaint, <- app_assoc. reflexivity.
    + simpl. rewrite Hlen. reflexivity.
    + constructor; assumption.
Qed.

Lemma fold_lineTo_frame (pts : list Point) :
  forall c : Canvas.Context,
    Canvas.state (fold_left (fun c p => Canvas.lineTo (x p) (y p) c) pts c)
      = Canvas.state c /\
    Canvas.painted (fold_left (fun c p => Canvas.lineTo (x p) (y p) c) pts c)
      = Canvas.painted c.
Proof.
  induction pts as [| p rest IH]; intros c; [split; reflexivity |].
  simpl. destruct (IH (Canvas.lineTo (x p) (y p) c)) as [Hs Hp].
  rewrite Hs, Hp. split; reflexivity.
Qed.

(** [drawElement] strokes a freehand element of two points or more once,
    with the alpha stored in its style. *)
Lemma drawElement_stroke (now : Q) (c : Canvas.Context) (e : WhiteboardElement)
    (pts : list Point) (a : Q) :
  isFreehand (type e) = true -> content e = JsonPoints pts ->
  (2 <= List.length pts)%nat ->
  opacity (style e) = Some a -> (0 < a <= 1)%Q ->
  exists (c' : Canvas.Context) (p : Canvas.Paint),
    drawElement now c e = Some c' /\
    Canvas.painted c' = Canvas.painted c ++ [p] /\
    stroke_with_alpha a p.
Proof.
  intros Hf Hcont Hlen Hop [Hlo Hhi].
  assert (Hnz : ~ (a == 0)%Q) by (intros E; rewrite E in Hlo; discriminate Hlo).
  set (c0 := Canvas.set_globalAlpha (JS.or_else (opacity (style e)) 1)
               (Canvas.set_lineWidth (JS.or_else (strokeWidth (style e)) 2)
                  (Canvas.set_fillStyle (backgroundColor (style e))
                     (Canvas.set_strokeStyle (color (style e)) (Canvas.save c))))).
  assert (Hpath : exists p : Canvas.Paint,
             drawPath c0 e <> None /\
             forall c1, drawPath c0 e = Some c1 ->
               Canvas.painted c1 = Canvas.painted c ++ [p] /\
               stroke_with_alpha a p).
  { unfold drawPath. rewrite Hcont.
    destruct (Z.ltb_spec (Z.of_nat (List.length pts)) 2) as [Hlt | _]; [lia |].
    destruct pts as [| p0 rest]; [simpl in Hlen; lia |].
    eexists. split; [discriminate |]. intros c1 E1. injection E1 as <-.
    unfold Canvas.stroke, Canvas.paint. cbn [Canvas.painted Canvas.state Canvas.path].
    destruct (fold_lineTo_frame rest
                (Canvas.moveTo (x p0) (y p0) (Canvas.beginPath c0))) as [Hs Hp].
    rewrite Hs, Hp. split; [reflexivity |]. split; [reflexivity |].
    cbn [paint_state Canvas.moveTo Canvas.add_path Canvas.beginPath Canvas.state].
    unfold c0. rewrite Hop, (or_else_nonzero a 1 Hnz).
    apply set_globalAlpha_accepts. split; [apply Qlt_le_weak, Hlo | exact Hhi]. }
  destruct Hpath as [p [Hsome Hspec]].
  destruct (drawPath c0 e) as [c1 |] eqn:E1; [| contradiction].
  destruct (Hspec c1 eq_refl) as [Hpainted Hok].
  exists (Canvas.restore c1), p.
  split; [| split; [rewrite painted_restore; exact Hpainted | exact Hok]].
  unfold drawElement. fold c0.
  destruct (type e); try discriminate Hf; rewrite E1; reflexivity.
Qed.

Lemma handleMouseUp_ctx (uuid : string) (s : Editor) :
  ctx (handleMouseUp uuid s) = ctx s.
Proof.
  unfold handleMouseUp.
  destruct (isPanning s), (isDrawing s),
    (1 <? Z.of_nat (List.length (currentPath s))); reflexivity.
Qed.

(** C10.  The element [handleMouseUp] builds stores the alpha of the tool
    as its opacity: 0.5 for the highlighter, 1 for pen, spray and
    calligraphy.  The element a freehand gesture commits carries that
    opacity; every preview segment stroked during the gesture was painted
    with the same alpha; and [drawElement] strokes the committed element
    with it again. *)
Theorem stroke_opacity_matches_preview (s : Editor) (down : MouseEvent)
    (evs : list MouseEvent) (uuid : string) :
  isFreehand (currentTool s) = true -> isPanning s = false -> evs <> [] ->
  let a := toolAlpha (currentTool s) in
  (currentTool s = highlighter -> a = (1 # 2)%Q) /\
  (currentTool s = pen \/ currentTool s = spray \/ currentTool s = calligraphy ->
   a = 1%Q) /\
  exists e : WhiteboardElement,
    elements (gesture down evs uuid s) = elements s ++ [e] /\
    opacity (style e) = Some a /\
    (forall c : Canvas.Context, ctx s = Some c ->
       exists (c' : Canvas.Context) (previews : list Canvas.Paint),
         ctx (gesture down evs uuid s) = Some c' /\
         Canvas.painted c' = Canvas.painted c ++ previews /\
         List.length previews = List.length evs /\
         Forall (stroke_with_alpha a) previews) /\
    (forall (now : Q) (c : Canvas.Context),
       exists (c' : Canvas.Context) (p : Canvas.Paint),
         drawElement now c e = Some c' /\
         Canvas.painted c' = Canvas.painted c ++ [p] /\
         stroke_with_alpha a p).
Proof.
  intros Hf Hp Hevs a.
  split; [intros Ht; unfold a; rewrite Ht; reflexivity |].
  split; [intros [Ht | [Ht | Ht]]; unfold a; rewrite Ht; reflexivity |].
  destruct (freehand_gesture_commits s down evs uuid Hf Hp Hevs)
    as [e [Hcont [Hty [Hop [Hel _]]]]].
  exists e. split; [exact Hel |]. split; [exact Hop |]. split.
  - intros c Hc. unfold gesture. rewrite handleMouseUp_ctx.
    pose proof (handleMouseDown_drawing down s (isFreehand_not_hand _ Hf)) as E0.
    destruct (moves_previews evs (handleMouseDown down s) c)
      as [c' [previews [Hc' [Hpainted [Hlen Hall]]]]];
      try (rewrite E0; simpl; first [assumption | discriminate | reflexivity]).
    assert (Htool : currentTool (handleMouseDown down s) = currentTool s)
      by (rewrite E0; reflexivity).
    rewrite Htool in Hall. exists c', previews. repeat split; assumption.
  - intros now c.
    apply (drawElement_stroke now c e
             (map (getMousePos (canvasRef s) (zoom s) (pan s)) (down :: evs)) a).
    + rewrite Hty. exact Hf.
    + exact Hcont.
    + simpl. rewrite length_map. destruct evs; [contradiction | simpl; lia].
    + exact Hop.
    + apply toolAlpha_range.
Qed.

Lemma stroke_opacity_matches_preview_witness :
  exists e : WhiteboardElement,
    elements (gesture (mkMouseEvent 10 10) [mkMouseEvent 20 20] "id-1"
                (editor_with highlighter []))
      = [] ++ [e] /\
    opacity (style e) = Some (1 # 2)%Q.
Proof.
  destruct (stroke_opacity_matches_preview (editor_with highlighter [])
              (mkMouseEvent 10 10) [mkMouseEvent 20 20] "id-1"%string)
    as [_ [_ [e [Hel [Hop _]]]]].
  - reflexivity.
  - reflexivity.
  - discriminate.
  - exists e. split; [exact Hel | exact Hop].
Defined.

(** ** A session, end to end

    On a blank board: a pen stroke of five points is committed (history
    length 2), a rectangle gesture commits nothing, and one undo brings the
    empty element list back. *)
Example session_stroke_then_undo :
  let s0 := editor_with pen [] in
  let s1 := gesture (mkMouseEvent 0 0)
              [mkMouseEvent 1 1; mkMouseEvent 2 2; mkMouseEvent 3 3; mkMouseEvent 4 4]
              "id-1" s0 in
  let s2 := gesture (mkMouseEvent 10 10) [mkMouseEvent 110 60] "id-2"
              (setCurrentTool rectangle s1) in
  List.length (elements s1) = 1%nat /\
  List.length (history s1) = 2%nat /\
  historyIndex s1 = 1 /\
  map (fun e => List.length match content e with
                            | JsonPoints pts => pts
                            | Str _ => []
                            end) (elements s1) = [5%nat] /\
  elements s2 = elements s1 /\
  List.length (history s2) = 2%nat /\
  option_map elements (undo s2) = Some [] /\
  option_map historyIndex (undo s2) = Some 0.
Proof. vm_compute. repeat split. Qed.

(** * Further properties *)

(** ** The editor under any sequence of user actions *)

Lemma index_last {A : Type} (l : list A) (a : A) :
  JS.index (l ++ [a]) (Z.of_nat (List.length (l ++ [a])) - 1) = Some a.
Proof.
  unfold JS.index. rewrite length_app, Nat2Z.inj_add. simpl.
  destruct (Z.ltb_spec (Z.of_nat (List.length l) + 1 - 1) 0) as [Hneg | _]; [lia |].
  replace (Z.to_nat (Z.of_nat (List.length l) + 1 - 1)) with (List.length l) by lia.
  rewrite nth_error_app2 by lia. rewrite Nat.sub_diag. reflexivity.
Qed.

Lemma index_app_left {A : Type} (l r : list A) (i : Z) :
  0 <= i < Z.of_nat (List.length l) -> JS.index (l ++ r) i = JS.index l i.
Proof.
  intros Hi. unfold JS.index.
  destruct (Z.ltb_spec i 0) as [Hneg | _]; [lia |].
  apply nth_error_app1. lia.
Qed.

Lemma index_firstn {A : Type} (l : list A) (n : nat) (i : Z) :
  0 <= i < Z.of_nat n -> JS.index (firstn n l) i = JS.index l i.
Proof.
  intros Hi. unfold JS.index.
  destruct (Z.ltb_spec i 0) as [Hneg | _]; [lia |].
  rewrite nth_error_firstn.
  destruct (Nat.ltb_spec (Z.to_nat i) n) as [_ | Hge]; [reflexivity | lia].
Qed.

(** Below the pointer a commit changes no snapshot. *)
Lemma index_commit (hist : list (list WhiteboardElement)) (idx i : Z)
    (newElements : list WhiteboardElement) :
  0 <= idx < Z.of_nat (List.length hist) -> 0 <= i <= idx ->
  JS.index (JS.slice hist 0 (idx + 1) ++ [newElements]) i = JS.index hist i.
Proof.
  intros Hidx Hi.
  rewrite index_app_left by (rewrite slice_prefix_length; lia).
  rewrite slice_prefix by lia. apply index_firstn. lia.
Qed.

(** The invariant of the editor: the index is in range, the element list is
    the snapshot under the index, and the first snapshot is [first]. *)
Lemma commit_invariant (first newElements : list WhiteboardElement) (s : Editor) :
  history_ok s -> JS.index (history s) 0 = Some first ->
  history_ok (addToHistory newElements (setElements newElements s)) /\
  synced (addToHistory newElements (setElements newElements s)) /\
  JS.index (history (addToHistory newElements (setElements newElements s))) 0
    = Some first.
Proof.
  intros Hok Hfirst. split; [apply addToHistory_ok |]. split.
  - unfold synced. rewrite addToHistory_last. apply index_last.
  - unfold addToHistory; simpl. unfold history_ok in Hok.
    rewrite index_commit by lia. exact Hfirst.
Qed.

Lemma handleMouseUp_cases (uuid : string) (s : Editor) :
  document (handleMouseUp uuid s) = document s \/
  document (handleMouseUp uuid s)
  = document (addToHistory (elements s ++ [newElement uuid s])
                (setElements (elements s ++ [newElement uuid s]) s)).
Proof.
  unfold handleMouseUp.
  destruct (isPanning s); [left; reflexivity |].
  destruct (isDrawing s); [| left; reflexivity]. cbn [negb].
  destruct (1 <? Z.of_nat (List.length (currentPath s)));
    [right | left]; reflexivity.
Qed.

Lemma undo_spec (s : Editor) :
  history_ok s ->
  (historyIndex s = 0 /\ undo s = Some s) \/
  (0 < historyIndex s /\
   exists els, JS.index (history s) (historyIndex s - 1) = Some els /\
     undo s = Some (setElements els (setHistoryIndex (historyIndex s - 1) s))).
Proof.
  intros Hok. destruct (Z.ltb_spec 0 (historyIndex s)) as [Hpos | Hle].
  - right. split; [exact Hpos |].
    destruct (undo_back s Hok Hpos) as [els [Hels E]]. eauto.
  - left. unfold history_ok in Hok.
    assert (H0 : historyIndex s = 0) by lia.
    split; [exact H0 | apply undo_at_first, H0].
Qed.

Lemma redo_spec (s : Editor) :
  history_ok s ->
  (historyIndex s = Z.of_nat (List.length (history s)) - 1 /\ redo s = Some s) \/
  (historyIndex s < Z.of_nat (List.length (history s)) - 1 /\
   exists els, JS.index (history s) (historyIndex s + 1) = Some els /\
     redo s = Some (setElements els (setHistoryIndex (historyIndex s + 1) s))).
Proof.
  intros Hok. unfold history_ok in Hok.
  destruct (Z.ltb_spec (historyIndex s) (Z.of_nat (List.length (history s)) - 1))
    as [Hlt | Hge].
  - right. split; [exact Hlt |].
    destruct (index_in_range (history s) (historyIndex s + 1)) as [els Hels];
      [lia |].
    exists els. split; [exact Hels |].
    unfold redo, JS.spread.
    destruct (Z.ltb_spec (historyIndex s) (Z.of_nat (List.length (history s)) - 1));
      [| lia].
    rewrite Hels. reflexivity.
  - left. assert (H : historyIndex s = Z.of_nat (List.length (history s)) - 1) by lia.
    split; [exact H | apply redo_at_last, H].
Qed.

Lemma act_invariant (first : list WhiteboardElement) (a : Action) (s : Editor) :
  history_ok s -> synced s -> JS.index (history s) 0 = Some first ->
  exists s', act a s = Some s' /\
    history_ok s' /\ synced s' /\ JS.index (history s') 0 = Some first.
Proof.
  intros Hok Hsync Hfirst.
  assert (Hdoc : forall s', document s' = document s ->
            history_ok s' /\ synced s' /\ JS.index (history s') 0 = Some first).
  { intros s' Hd. destruct (document_eq _ _ Hd) as [He [Hh Hi]].
    unfold history_ok, synced in *. rewrite He, Hh, Hi. auto. }
  destruct a as [e | e | uuid | | | | | | | t | c | n]; simpl;
    try (eexists; split; [reflexivity | apply Hdoc; reflexivity]).
  - eexists; split; [reflexivity | apply Hdoc, handleMouseDown_document].
  - eexists; split; [reflexivity | apply Hdoc, handleMouseMove_document].
  - eexists; split; [reflexivity |].
    destruct (handleMouseUp_cases uuid s) as [Hd | Hd]; [apply Hdoc, Hd |].
    destruct (commit_invariant first (elements s ++ [newElement uuid s]) s Hok Hfirst)
      as [H1 [H2 H3]].
    destruct (document_eq _ _ Hd) as [He [Hh Hi]].
    unfold history_ok, synced in *. rewrite He, Hh, Hi. auto.
  - destruct (undo_spec s Hok) as [[_ E] | [Hpos [els [Hels E]]]]; rewrite E.
    + eexists; split; [reflexivity | auto].
    + eexists; split; [reflexivity |]. unfold history_ok, synced in *; simpl.
      repeat split; try lia; assumption.
  - destruct (redo_spec s Hok) as [[_ E] | [Hlt [els [Hels E]]]]; rewrite E.
    + eexists; split; [reflexivity | auto].
    + eexists; split; [reflexivity |]. unfold history_ok, synced in *; simpl.
      repeat split; try lia; assumption.
  - eexists; split; [reflexivity |].
    apply (commit_invariant first [] s Hok Hfirst).
Qed.

Lemma run_invariant (first : list WhiteboardElement) (acts : list Action) :
  forall s,
    history_ok s -> synced s -> JS.index (history s) 0 = Some first ->
    exists s', run acts s = Some s' /\
      history_ok s' /\ synced s' /\ JS.index (history s') 0 = Some first.
Proof.
  induction acts as [| a rest IH]; intros s Hok Hsync Hfirst; simpl.
  - eauto.
  - destruct (act_invariant first a s Hok Hsync Hfirst) as [s1 [E1 [H1 [H2 H3]]]].
    rewrite E1. apply IH; assumption.
Qed.

(** The state of an editor opened on a board, mounted or not, is in good
    order: only the document cells matter. *)
Lemma opened_in_order (whiteboard : Whiteboard) (s : Editor) :
  document s = document (init whiteboard) ->
  history_ok s /\ synced s /\
  JS.index (history s) 0 = Some (wc_elements (wb_content whiteboard)).
Proof.
  intros Hd. destruct (document_eq _ _ Hd) as [He [Hh Hi]].
  unfold history_ok, synced. rewrite He, Hh, Hi. simpl.
  repeat split; try reflexivity; lia.
Qed.

(** X1.  From every state in which the history index is inside the
    history and the element list is the snapshot under the index (the
    state of an editor opened on a board is such a state, whatever its
    canvas ref, context and canvas size), whatever the user does next
    (pointer events, undo, redo, clear, zoom, tool, colour and size
    selection, in any order) no action throws, the index stays inside the
    history, the element list on screen is the snapshot under the index,
    and the first snapshot is the one it was. *)
Theorem editor_invariant (first : list WhiteboardElement) (acts : list Action)
    (s : Editor) :
  0 <= historyIndex s < Z.of_nat (List.length (history s)) ->
  JS.index (history s) (historyIndex s) = Some (elements s) ->
  JS.index (history s) 0 = Some first ->
  exists s' : Editor,
    run acts s = Some s' /\
    0 <= historyIndex s' < Z.of_nat (List.length (history s')) /\
    JS.index (history s') (historyIndex s') = Some (elements s') /\
    JS.index (history s') 0 = Some first.
Proof. apply run_invariant. Qed.

Lemma editor_invariant_witness :
  exists s' : Editor,
    run sample_actions (editor_with pen []) = Some s' /\
    0 <= historyIndex s' < Z.of_nat (List.length (history s')) /\
    JS.index (history s') (historyIndex s') = Some (elements s') /\
    JS.index (history s') 0 = Some [].
Proof.
  apply (editor_invariant [] sample_actions (editor_with pen [])).
  - vm_compute. split; [discriminate | reflexivity].
  - reflexivity.
  - reflexivity.
Defined.

(** ** Undo and redo *)

Lemma undo_then_redo (s : Editor) :
  history_ok s -> synced s -> 0 < historyIndex s ->
  exists s1, undo s = Some s1 /\ historyIndex s1 = historyIndex s - 1 /\
             history s1 = history s /\ redo s1 = Some s.
Proof.
  intros Hok Hsync Hpos. unfold history_ok, synced in *.
  destruct (undo_back s Hok Hpos) as [els [Hels E]].
  eexists. split; [exact E |]. split; [reflexivity |]. split; [reflexivity |].
  unfold redo, JS.spread; simpl.
  destruct (Z.ltb_spec (historyIndex s - 1) (Z.of_nat (List.length (history s)) - 1))
    as [_ | Hge]; [| lia].
  replace (historyIndex s - 1 + 1) with (historyIndex s) by lia.
  rewrite Hsync. f_equal. destruct s; reflexivity.
Qed.

Lemma redo_then_undo (s : Editor) :
  history_ok s -> synced s ->
  historyIndex s < Z.of_nat (List.length (history s)) - 1 ->
  exists s1, redo s = Some s1 /\ historyIndex s1 = historyIndex s + 1 /\
             history s1 = history s /\ undo s1 = Some s.
Proof.
  intros Hok Hsync Hlt. unfold synced in *.
  destruct (redo_spec s Hok) as [[Hlast _] | [_ [els [Hels E]]]]; [lia |].
  eexists. split; [exact E |]. split; [reflexivity |]. split; [reflexivity |].
  unfold undo, JS.spread; simpl.
  destruct (Z.ltb_spec 0 (historyIndex s + 1)) as [_ | Hle];
    [| unfold history_ok in Hok; lia].
  replace (historyIndex s + 1 - 1) with (historyIndex s) by lia.
  rewrite Hsync. f_equal. destruct s; reflexivity.
Qed.

(** X2.  In a state where the index is in range and the element list is
    the snapshot under it, undo and redo are inverse to each other: away
    from the first snapshot an undo followed by a redo gives the state back,
    and away from the last one a redo followed by an undo does.  Neither
    changes the history array. *)
Theorem undo_redo_inverse (s : Editor) :
  0 <= historyIndex s < Z.of_nat (List.length (history s)) ->
  JS.index (history s) (historyIndex s) = Some (elements s) ->
  (0 < historyIndex s ->
     exists s1, undo s = Some s1 /\ historyIndex s1 = historyIndex s - 1 /\
                history s1 = history s /\ redo s1 = Some s) /\
  (historyIndex s < Z.of_nat (List.length (history s)) - 1 ->
     exists s1, redo s = Some s1 /\ historyIndex s1 = historyIndex s + 1 /\
                history s1 = history s /\ undo s1 = Some s).
Proof.
  intros Hok Hsync. split.
  - apply undo_then_redo; assumption.
  - apply redo_then_undo; assumption.
Qed.

Lemma undo_redo_inverse_witness :
  exists s1, undo one_stroke = Some s1 /\
             historyIndex s1 = historyIndex one_stroke - 1 /\
             history s1 = history one_stroke /\
             redo s1 = Some one_stroke.
Proof.
  apply (proj1 (undo_redo_inverse one_stroke
                  ltac:(vm_compute; split; [discriminate | reflexivity])
                  eq_refl)).
  reflexivity.
Defined.

(** Right after a commit on top of [s], one undo shows the elements of
    [s] again. *)
Lemma undo_after_commit (s t : Editor) (newElements : list WhiteboardElement) :
  history_ok s -> synced s ->
  history t = JS.slice (history s) 0 (historyIndex s + 1) ++ [newElements] ->
  historyIndex t = Z.of_nat (List.length (history t)) - 1 ->
  historyIndex t = historyIndex s + 1 /\
  undo t = Some (setElements (elements s) (setHistoryIndex (historyIndex s) t)).
Proof.
  intros Hok Hsync Hh Hi. unfold history_ok, synced in *.
  assert (Hidx : historyIndex t = historyIndex s + 1).
  { rewrite Hi, Hh, length_app, Nat2Z.inj_add, slice_prefix_length by lia.
    simpl. lia. }
  split; [exact Hidx |].
  unfold undo, JS.spread.
  destruct (Z.ltb_spec 0 (historyIndex t)) as [_ | Hle]; [| lia].
  rewrite Hidx. replace (historyIndex s + 1 - 1) with (historyIndex s) by lia.
  rewrite Hh, index_commit by lia. rewrite Hsync. reflexivity.
Qed.

(** X3.  One undo takes a committed stroke back: after a freehand gesture
    of one move or more on a state in good order, undo shows the element
    list from before the gesture, with the index it had, and a redo then
    brings back the state with the stroke. *)
Theorem stroke_undo (s : Editor) (down : MouseEvent) (evs : list MouseEvent)
    (uuid : string) :
  0 <= historyIndex s < Z.of_nat (List.length (history s)) ->
  JS.index (history s) (historyIndex s) = Some (elements s) ->
  isFreehand (currentTool s) = true -> isPanning s = false -> evs <> [] ->
  exists (e : WhiteboardElement) (s1 : Editor),
    elements (gesture down evs uuid s) = elements s ++ [e] /\
    undo (gesture down evs uuid s) = Some s1 /\
    elements s1 = elements s /\
    historyIndex s1 = historyIndex s /\
    redo s1 = Some (gesture down evs uuid s).
Proof.
  intros Hok Hsync Hf Hp Hevs.
  destruct (freehand_gesture_commits s down evs uuid Hf Hp Hevs)
    as [e [_ [_ [_ [Hel [Hh Hi]]]]]].
  set (g := gesture down evs uuid s) in *.
  assert (Hokg : history_ok g) by (apply gesture_ok, Hok).
  assert (Hsyncg : synced g).
  { unfold synced. rewrite Hi, Hh, Hel. apply index_last. }
  destruct (undo_after_commit s g (elements s ++ [e]) Hok Hsync Hh Hi) as [Hidx Hu].
  destruct (undo_then_redo g Hokg Hsyncg) as [s1 [E1 [_ [_ Hr]]]];
    [unfold history_ok in Hok; lia |].
  exists e, s1. split; [exact Hel |]. split; [exact E1 |].
  rewrite Hu in E1. injection E1 as <-. repeat split. exact Hr.
Qed.

Lemma stroke_undo_witness :
  exists (e : WhiteboardElement) (s1 : Editor),
    elements (gesture (mkMouseEvent 5 5) [mkMouseEvent 6 6] "id-2" one_stroke)
      = elements one_stroke ++ [e] /\
    undo (gesture (mkMouseEvent 5 5) [mkMouseEvent 6 6] "id-2" one_stroke)
      = Some s1 /\
    elements s1 = elements one_stroke /\
    historyIndex s1 = historyIndex one_stroke /\
    redo s1 = Some (gesture (mkMouseEvent 5 5) [mkMouseEvent 6 6] "id-2" one_stroke).
Proof.
  apply (stroke_undo one_stroke).
  - vm_compute. split; [discriminate | reflexivity].
  - reflexivity.
  - reflexivity.
  - reflexivity.
  - discriminate.
Defined.



(** ** Element order and [zIndex] *)

Lemma indexed_from_app (a b : list WhiteboardElement) :
  forall k, indexed_from k (a ++ b)
            = indexed_from k a && indexed_from (k + Z.of_nat (List.length a)) b.
Proof.
  induction a as [| e rest IH]; intros k.
  - simpl. rewrite Z.add_0_r. reflexivity.
  - cbn [app indexed_from List.length]. rewrite IH, andb_assoc.
    replace (k + 1 + Z.of_nat (List.length rest))
      with (k + Z.of_nat (S (List.length rest))) by lia.
    reflexivity.
Qed.

Lemma indexed_from_nth (els : list WhiteboardElement) :
  forall k, indexed_from k els = true ->
  forall (i : nat) (e : WhiteboardElement),
    nth_error els i = Some e -> zIndex e = k + Z.of_nat i.
Proof.
  induction els as [| e0 rest IH]; intros k H i e Hi.
  - destruct i; discriminate Hi.
  - cbn [indexed_from] in H. apply andb_true_iff in H. destruct H as [H0 Hrest].
    destruct i as [| j].
    + injection Hi as <-. apply Z.eqb_eq in H0. simpl. lia.
    + simpl in Hi. rewrite (IH (k + 1) Hrest j e Hi). lia.
Qed.

Lemma In_take {A : Type} (v : A) (n : nat) :
  forall l : list A, In v (firstn n l) -> In v l.
Proof.
  induction n as [| n IH]; intros l H; [contradiction |].
  destruct l as [| a l]; [contradiction |].
  destruct H as [H | H]; [left; exact H | right; apply IH, H].
Qed.

Lemma In_drop {A : Type} (v : A) (n : nat) :
  forall l : list A, In v (skipn n l) -> In v l.
Proof.
  induction n as [| n IH]; intros l H; [exact H |].
  destruct l as [| a l]; [contradiction | right; apply IH, H].
Qed.

(** A slice holds elements of the array only. *)
Lemma Forall_slice {A : Type} (P : A -> Prop) (l : list A) (a b : Z) :
  Forall P l -> Forall P (JS.slice l a b).
Proof.
  intros H. apply Forall_forall. intros v Hv. unfold JS.slice in Hv.
  rewrite Forall_forall in H. apply H.
  apply In_take, In_drop in Hv. exact Hv.
Qed.

Lemma index_In {A : Type} (l : list A) (i : Z) (v : A) :
  JS.index l i = Some v -> In v l.
Proof.
  unfold JS.index. destruct (i <? 0); [discriminate |]. apply nth_error_In.
Qed.

Lemma commit_indexed (newElements : list WhiteboardElement) (s : Editor) :
  all_indexed s -> indexed_from 0 newElements = true ->
  all_indexed (addToHistory newElements (setElements newElements s)).
Proof.
  intros [_ Hh] Hnew. split; [exact Hnew |].
  unfold addToHistory; simpl. apply Forall_app. split.
  - apply Forall_slice, Hh.
  - constructor; [exact Hnew | constructor].
Qed.

Lemma act_indexed (a : Action) (s s' : Editor) :
  all_indexed s -> act a s = Some s' -> all_indexed s'.
Proof.
  intros Hs E.
  assert (Hdoc : forall t, document t = document s -> all_indexed t).
  { intros t Hd. destruct (document_eq _ _ Hd) as [He [Hh _]].
    unfold all_indexed. rewrite He, Hh. exact Hs. }
  destruct a as [e | e | uuid | | | | | | | t | c | n]; simpl in E;
    try (injection E as <-; apply Hdoc; reflexivity).
  - injection E as <-. apply Hdoc, handleMouseDown_document.
  - injection E as <-. apply Hdoc, handleMouseMove_document.
  - injection E as <-.
    destruct (handleMouseUp_cases uuid s) as [Hd | Hd]; [apply Hdoc, Hd |].
    assert (Hc : all_indexed
                   (addToHistory (elements s ++ [newElement uuid s])
                      (setElements (elements s ++ [newElement uuid s]) s))).
    { apply commit_indexed; [exact Hs |].
      rewrite indexed_from_app. destruct Hs as [He _]. rewrite He. simpl.
      rewrite Z.eqb_refl. reflexivity. }
    destruct (document_eq _ _ Hd) as [He [Hh _]].
    unfold all_indexed. rewrite He, Hh. exact Hc.
  - unfold undo, JS.spread in E. destruct (0 <? historyIndex s).
    + destruct (JS.index (history s) (historyIndex s - 1)) as [els |] eqn:Hels;
        [| discriminate].
      injection E as <-. destruct Hs as [_ Hh]. split; [| exact Hh].
      simpl. rewrite Forall_forall in Hh. apply Hh, (index_In _ _ _ Hels).
    + injection E as <-. exact Hs.
  - unfold redo, JS.spread in E.
    destruct (historyIndex s <? Z.of_nat (List.length (history s)) - 1).
    + destruct (JS.index (history s) (historyIndex s + 1)) as [els |] eqn:Hels;
        [| discriminate].
      injection E as <-. destruct Hs as [_ Hh]. split; [| exact Hh].
      simpl. rewrite Forall_forall in Hh. apply Hh, (index_In _ _ _ Hels).
    + injection E as <-. exact Hs.
  - injection E as <-. apply commit_indexed; [exact Hs | reflexivity].
Qed.

Lemma run_indexed (acts : list Action) :
  forall s s', all_indexed s -> run acts s = Some s' -> all_indexed s'.
Proof.
  induction acts as [| a rest IH]; intros s s' Hs E; simpl in E.
  - injection E as <-. exact Hs.
  - destruct (act a s) as [s1 |] eqn:E1; [| discriminate].
    apply (IH s1 s' (act_indexed a s s1 Hs E1) E).
Qed.

(** X5.  If the element list and every snapshot of the history carry
    list positions as [zIndex] (an editor opened on an empty board, or on a
    board stored that way, is in this state), then after any sequence of
    user actions the element at position [i] of the list on screen has
    [zIndex = i]: strokes are numbered by [elements.length] when they are
    committed, and undo, redo and clear only move between lists numbered
    that way. *)
Theorem zIndex_is_position (acts : list Action) (s s' : Editor) :
  indexed_from 0 (elements s) = true ->
  Forall (fun els => indexed_from 0 els = true) (history s) ->
  run acts s = Some s' ->
  forall (i : nat) (e : WhiteboardElement),
    nth_error (elements s') i = Some e -> zIndex e = Z.of_nat i.
Proof.
  intros He Hh E i e Hi.
  assert (Hs : all_indexed s') by (apply (run_indexed acts s s' (conj He Hh) E)).
  destruct Hs as [He' _]. apply (indexed_from_nth _ 0 He' i e Hi).
Qed.

Lemma zIndex_is_position_witness :
  exists s' : Editor,
    run sample_actions (editor_with pen []) = Some s' /\
    List.length (elements s') = 2%nat /\
    forall (i : nat) (e : WhiteboardElement),
      nth_error (elements s') i = Some e -> zIndex e = Z.of_nat i.
Proof.
  eexists. split; [vm_compute; reflexivity |]. split; [reflexivity |].
  apply (zIndex_is_position sample_actions (editor_with pen [])).
  - reflexivity.
  - constructor; [reflexivity | constructor].
  - reflexivity.
Defined.

(** ** Idle pointer, finished gestures, zoom buttons *)

Lemma act_hover (a : Action) (s : Editor) :
  isPanning s = false -> isDrawing s = false -> is_hover a = true ->
  act a s = Some s.
Proof.
  intros Hp Hd Ha. destruct a; try discriminate Ha; simpl.
  - unfold handleMouseMove. rewrite Hp, Hd.
    destruct (lastPoint s); reflexivity.
  - unfold handleMouseUp. rewrite Hp, Hd. reflexivity.
Qed.

(** X6.  With no gesture in progress, moving the pointer over the canvas
    and leaving it change nothing at all: no cell of the state is written
    and nothing is painted, however many such events arrive. *)
Theorem hover_changes_nothing (acts : list Action) (s : Editor) :
  isPanning s = false -> isDrawing s = false ->
  forallb is_hover acts = true ->
  run acts s = Some s.
Proof.
  intros Hp Hd. induction acts as [| a rest IH]; intros Hall; [reflexivity |].
  simpl in Hall. apply andb_true_iff in Hall. destruct Hall as [Ha Hrest].
  simpl. rewrite (act_hover a s Hp Hd Ha). apply IH, Hrest.
Qed.

Lemma hover_changes_nothing_witness :
  run [MouseMove (mkMouseEvent 3 4); MouseUp "id-1"; MouseMove (mkMouseEvent 9 9)]
      (editor_with pen [sample_sticky])
  = Some (editor_with pen [sample_sticky]).
Proof.
  apply (hover_changes_nothing
           [MouseMove (mkMouseEvent 3 4); MouseUp "id-1"%string;
            MouseMove (mkMouseEvent 9 9)]
           (editor_with pen [sample_sticky])); reflexivity.
Defined.

(** X7.  A gesture never leaves the state machine stuck: from an idle
    state, pointer-down, any moves and pointer-up (or pointer-leave) end in
    an idle state again, whatever the tool. *)
Theorem gesture_returns_to_idle (s : Editor) (down : MouseEvent)
    (evs : list MouseEvent) (uuid : string) :
  idle s -> idle (gesture down evs uuid s).
Proof.
  intros [Hp [Hd [Hpath Hl]]]. unfold gesture.
  destruct (Tag_eq_dec (currentTool s) hand) as [Hh | Hne].
  - rewrite (handleMouseDown_panning down s Hh).
    set (anchor := getMousePos (canvasRef s) (zoom s) (pan s) down).
    destruct (moves_panning evs
                (setIsPanning true (setLastPoint (Some anchor) s)) anchor)
      as [p Ep]; [reflexivity | reflexivity |].
    rewrite Ep, handleMouseUp_panning by reflexivity.
    unfold idle; simpl. auto.
  - set (s0 := handleMouseDown down s).
    destruct (moves_mode evs s0) as [Hp1 Hd1].
    assert (E0 : isPanning s0 = false /\ isDrawing s0 = true).
    { unfold s0. rewrite (handleMouseDown_drawing down s Hne). simpl. auto. }
    destruct E0 as [Hp0 Hd0]. rewrite Hp0 in Hp1. rewrite Hd0 in Hd1.
    unfold handleMouseUp. rewrite Hp1, Hd1. cbn [negb].
    unfold idle.
    destruct (1 <? Z.of_nat (List.length (currentPath (moves evs s0)))); simpl;
      auto.
Qed.

Lemma gesture_returns_to_idle_witness :
  idle (gesture (mkMouseEvent 1 1) [mkMouseEvent 2 2; mkMouseEvent 3 3] "id-1"
          (editor_with highlighter [])).
Proof.
  apply (gesture_returns_to_idle (editor_with highlighter [])).
  repeat split.
Defined.

Lemma handleMouseUp_zoom (uuid : string) (s : Editor) :
  zoom (handleMouseUp uuid s) = zoom s.
Proof.
  unfold handleMouseUp.
  destruct (isPanning s), (isDrawing s),
    (1 <? Z.of_nat (List.length (currentPath s))); reflexivity.
Qed.

Lemma settings_zoom (a b : Editor) : settings a = settings b -> zoom a = zoom b.
Proof. unfold settings. intros H. congruence. Qed.

Lemma act_zoom (a : Action) (s s' : Editor) :
  act a s = Some s' ->
  zoom s' = zoom s \/ zoom s' = zoom (zoomOut s) \/ zoom s' = zoom (zoomIn s) \/
  zoom s' = 1%Q.
Proof.
  intros E. destruct a as [e | e | uuid | | | | | | | t | c | n]; simpl in E;
    try (injection E as <-; auto; fail).
  - injection E as <-. left. apply settings_zoom, handleMouseDown_settings.
  - injection E as <-. left. apply settings_zoom, handleMouseMove_settings.
  - injection E as <-. left. apply handleMouseUp_zoom.
  - left. unfold undo, JS.spread in E.
    destruct (0 <? historyIndex s);
      [destruct (JS.index (history s) (historyIndex s - 1)); [| discriminate] |];
      injection E as <-; reflexivity.
  - left. unfold redo, JS.spread in E.
    destruct (historyIndex s <? Z.of_nat (List.length (history s)) - 1);
      [destruct (JS.index (history s) (historyIndex s + 1)); [| discriminate] |];
      injection E as <-; reflexivity.
Qed.

Lemma zoomOut_range (s : Editor) :
  (1 # 10 <= zoom (zoomOut s))%Q /\
  ((zoom s <= 3)%Q -> (zoom (zoomOut s) <= 3)%Q).
Proof.
  unfold zoomOut; simpl. split; [apply Q.le_max_l |].
  intros H. apply Q.max_lub; [discriminate | lra].
Qed.

Lemma zoomIn_range (s : Editor) :
  (zoom (zoomIn s) <= 3)%Q /\
  ((1 # 10 <= zoom s)%Q -> (1 # 10 <= zoom (zoomIn s))%Q).
Proof.
  unfold zoomIn; simpl. split; [apply Q.le_min_l |].
  intros H. apply Q.min_glb; [discriminate | lra].
Qed.

(** X8.  The [-] button never takes the zoom below 0.1 and the [+] button
    never above 3, whatever the zoom was; and once the zoom is between 0.1
    and 3 no sequence of user actions takes it out of that range, so it
    stays positive and [getMousePos] never divides by zero. *)
Theorem zoom_stays_in_range :
  (forall s : Editor, (1 # 10 <= zoom (zoomOut s))%Q) /\
  (forall s : Editor, (zoom (zoomIn s) <= 3)%Q) /\
  (forall (acts : list Action) (s s' : Editor),
     (1 # 10 <= zoom s <= 3)%Q -> run acts s = Some s' ->
     (1 # 10 <= zoom s' <= 3)%Q /\ (0 < zoom s')%Q).
Proof.
  split; [intros s; apply zoomOut_range |].
  split; [intros s; apply zoomIn_range |].
  assert (Hrun : forall (acts : list Action) (s s' : Editor),
             (1 # 10 <= zoom s <= 3)%Q -> run acts s = Some s' ->
             (1 # 10 <= zoom s' <= 3)%Q).
  { induction acts as [| a rest IH]; intros s s' Hr E; simpl in E.
    - injection E as <-. exact Hr.
    - destruct (act a s) as [s1 |] eqn:E1; [| discriminate].
      apply (IH s1 s'); [| exact E].
      destruct (act_zoom a s s1 E1) as [H | [H | [H | H]]]; rewrite H.
      + exact Hr.
      + split; [apply zoomOut_range | apply zoomOut_range, Hr].
      + split; [apply zoomIn_range, Hr | apply zoomIn_range].
      + split; discriminate. }
  intros acts s s' Hr E. pose proof (Hrun acts s s' Hr E) as H.
  split; [exact H | lra].
Qed.

Lemma zoom_stays_in_range_witness :
  exists s' : Editor,
    run [ClickZoomOut; ClickZoomOut; ClickZoomIn; ClickUndo]
        (editor_with pen []) = Some s' /\
    (1 # 10 <= zoom s' <= 3)%Q /\ (0 < zoom s')%Q.
Proof.
  eexists. split; [vm_compute; reflexivity |].
  apply (proj2 (proj2 zoom_stays_in_range)
           [ClickZoomOut; ClickZoomOut; ClickZoomIn; ClickUndo]
           (editor_with pen [])).
  - split; discriminate.
  - reflexivity.
Defined.

(** ** Renderer: what a redraw leaves behind *)

Lemma paints_under_refl (m : Canvas.Transform) (c : Canvas.Context) :
  Canvas.transform (Canvas.state c) = m -> paints_under m c c.
Proof.
  intros H. split; [reflexivity |]. split; [exact H |].
  exists []. rewrite app_nil_r. split; [reflexivity | constructor].
Qed.

Lemma paints_under_trans (m : Canvas.Transform) (a b c : Canvas.Context) :
  paints_under m a b -> paints_under m b c -> paints_under m a c.
Proof.
  intros [Hs1 [Ht1 [ps1 [Hp1 Hf1]]]] [Hs2 [Ht2 [ps2 [Hp2 Hf2]]]].
  split; [congruence |]. split; [exact Ht2 |].
  exists (ps1 ++ ps2). split.
  - rewrite Hp2, Hp1, app_assoc. reflexivity.
  - apply Forall_app. split; assumption.
Qed.

Lemma paints_under_step (f : Canvas.Context -> Canvas.Context)
    (m : Canvas.Transform) (c c1 : Canvas.Context) :
  keeps_view f -> paints_under m c c1 -> paints_under m c (f c1).
Proof.
  intros Hf H. apply (paints_under_trans m c c1 (f c1) H).
  apply Hf. apply H.
Qed.

Lemma keeps_with_state (f : Canvas.DrawState -> Canvas.DrawState) :
  (forall st, Canvas.transform (f st) = Canvas.transform st) ->
  keeps_view (Canvas.with_state f).
Proof.
  intros Hf m c Hm. split; [reflexivity |]. split.
  - simpl. rewrite Hf. exact Hm.
  - exists []. simpl. rewrite app_nil_r. split; [reflexivity | constructor].
Qed.

Lemma keeps_set_strokeStyle (v : string) : keeps_view (Canvas.set_strokeStyle v).
Proof. apply keeps_with_state. reflexivity. Qed.

Lemma keeps_set_fillStyle (v : string) : keeps_view (Canvas.set_fillStyle v).
Proof. apply keeps_with_state. reflexivity. Qed.

Lemma keeps_set_font (v : Canvas.Font) : keeps_view (Canvas.set_font v).
Proof. apply keeps_with_state. reflexivity. Qed.

Lemma keeps_set_lineWidth (v : Q) : keeps_view (Canvas.set_lineWidth v).
Proof.
  apply keeps_with_state. intros st. destruct (Qle_bool v 0); reflexivity.
Qed.

Lemma keeps_set_globalAlpha (v : Q) : keeps_view (Canvas.set_globalAlpha v).
Proof.
  apply keeps_with_state. intros st.
  destruct (Qle_bool 0 v && Qle_bool v 1); reflexivity.
Qed.

Lemma keeps_add_path (cmd : Canvas.PathCmd) : keeps_view (Canvas.add_path cmd).
Proof.
  intros m c Hm. split; [reflexivity |]. split; [exact Hm |].
  exists []. simpl. rewrite app_nil_r. split; [reflexivity | constructor].
Qed.

Lemma keeps_beginPath : keeps_view Canvas.beginPath.
Proof.
  intros m c Hm. split; [reflexivity |]. split; [exact Hm |].
  exists []. simpl. rewrite app_nil_r. split; [reflexivity | constructor].
Qed.

Lemma keeps_paint (mk : Canvas.DrawState -> Canvas.Paint) :
  (forall st, paint_state (mk st) = st) ->
  keeps_view (fun c => Canvas.paint (mk (Canvas.state c)) c).
Proof.
  intros Hmk m c Hm. split; [reflexivity |]. split; [exact Hm |].
  exists [mk (Canvas.state c)]. split; [reflexivity |].
  constructor; [| constructor]. unfold under. rewrite Hmk. exact Hm.
Qed.

Lemma keeps_stroke : keeps_view Canvas.stroke.
Proof.
  intros m c Hm. split; [reflexivity |]. split; [exact Hm |].
  eexists. split; [reflexivity |]. constructor; [exact Hm | constructor].
Qed.

Lemma keeps_fill : keeps_view Canvas.fill.
Proof.
  intros m c Hm. split; [reflexivity |]. split; [exact Hm |].
  eexists. split; [reflexivity |]. constructor; [exact Hm | constructor].
Qed.

Lemma keeps_fillRect (px py w h : Q) : keeps_view (Canvas.fillRect px py w h).
Proof. exact (keeps_paint (Canvas.FillRect px py w h) (fun _ => eq_refl)). Qed.

Lemma keeps_strokeRect (px py w h : Q) : keeps_view (Canvas.strokeRect px py w h).
Proof. exact (keeps_paint (Canvas.StrokeRect px py w h) (fun _ => eq_refl)). Qed.

Lemma keeps_clearRect (px py w h : Q) : keeps_view (Canvas.clearRect px py w h).
Proof. exact (keeps_paint (Canvas.ClearRect px py w h) (fun _ => eq_refl)). Qed.

Lemma keeps_fillText (txt : Content) (px py : Q) :
  keeps_view (Canvas.fillText txt px py).
Proof. exact (keeps_paint (Canvas.FillText txt px py) (fun _ => eq_refl)). Qed.

Create HintDb canvas.
#[local] Hint Resolve keeps_set_strokeStyle keeps_set_fillStyle keeps_set_font
  keeps_set_lineWidth keeps_set_globalAlpha keeps_add_path keeps_beginPath
  keeps_stroke keeps_fill keeps_fillRect keeps_strokeRect keeps_clearRect
  keeps_fillText : canvas.

(** Peels the calls of a painter off, last call first. *)
Ltac peel :=
  repeat first
    [ apply paints_under_refl; assumption
    | apply paints_under_step;
      [ first [ solve [auto with canvas]
              | unfold Canvas.moveTo, Canvas.lineTo, Canvas.quadraticCurveTo,
                  Canvas.rect, Canvas.arc, Canvas.closePath;
                solve [auto with canvas] ]
      | ] ].

Lemma keeps_moveTo (px py : Q) : keeps_view (Canvas.moveTo px py).
Proof. apply keeps_add_path. Qed.

Lemma keeps_lineTo (px py : Q) : keeps_view (Canvas.lineTo px py).
Proof. apply keeps_add_path. Qed.

Lemma keeps_drawText (e : WhiteboardElement) : keeps_view (fun c => drawText c e).
Proof. intros m c Hm. unfold drawText. peel. Qed.

Lemma keeps_fillLines (lines : list Content) :
  forall (index : Z) (px py : Q), keeps_view (fillLines lines index px py).
Proof.
  induction lines as [| l rest IH]; intros index px py m c Hm.
  - apply paints_under_refl, Hm.
  - cbn [fillLines]. apply paints_under_step; [apply IH |]. peel.
Qed.

Lemma keeps_drawSticky (e : WhiteboardElement) : keeps_view (fun c => drawSticky c e).
Proof.
  intros m c Hm. unfold drawSticky.
  apply paints_under_step; [apply keeps_fillLines |]. peel.
Qed.

Lemma keeps_roundRect (px py w h r : Q) : keeps_view (roundRect px py w h r).
Proof. intros m c Hm. unfold roundRect. peel. Qed.

Lemma keeps_drawArrow (x1 y1 x2 y2 : Q) : keeps_view (drawArrow x1 y1 x2 y2).
Proof. intros m c Hm. unfold drawArrow. peel. Qed.

Lemma drawShape_paints_under (m : Canvas.Transform) (c c' : Canvas.Context)
    (e : WhiteboardElement) :
  Canvas.transform (Canvas.state c) = m -> drawShape c e = Some c' ->
  paints_under m c c'.
Proof.
  intros Hm E. unfold drawShape in E. cbv zeta in E.
  match type of E with
  | match ?b with _ => _ end = _ => destruct b as [cp |] eqn:Eb; [| discriminate E]
  end.
  injection E as <-.
  assert (Hpath : paints_under m c cp).
  { destruct (shapeType e) as [[] |];
      try (destruct (Qle_bool 0 (circleRadius e)); [| discriminate Eb]);
      injection Eb as <-; peel;
      first [ apply paints_under_step; [apply keeps_roundRect | peel]
            | apply paints_under_step; [apply keeps_drawArrow | peel] ]. }
  apply paints_under_step; [apply keeps_stroke |].
  destruct (style_fill (style e)) as [[] |]; [| exact Hpath | exact Hpath].
  apply paints_under_step; [apply keeps_fill | exact Hpath].
Qed.

Lemma keeps_drawLaser (now : Q) (e : WhiteboardElement) :
  keeps_view (fun c => drawLaser now c e).
Proof.
  intros m c Hm. unfold drawLaser.
  destruct (negb (Qle_bool (now - JS.or_else (timestamp e) now) 3000)); peel.
Qed.

Lemma fold_lineTo_keeps (pts : list Point) :
  keeps_view (fold_left (fun c p => Canvas.lineTo (x p) (y p) c) pts).
Proof.
  induction pts as [| p rest IH]; intros m c Hm.
  - apply paints_under_refl, Hm.
  - simpl. apply (paints_under_trans m c (Canvas.lineTo (x p) (y p) c)).
    + apply keeps_lineTo, Hm.
    + apply IH. exact Hm.
Qed.

Lemma drawPath_paints_under (m : Canvas.Transform) (c c' : Canvas.Context)
    (e : WhiteboardElement) :
  Canvas.transform (Canvas.state c) = m -> drawPath c e = Some c' ->
  paints_under m c c'.
Proof.
  intros Hm E. unfold drawPath in E.
  destruct (content e) as [[| ch rest] | pts]; try discriminate.
  - injection E as <-. apply paints_under_refl, Hm.
  - destruct (Z.of_nat (List.length pts) <? 2);
      [injection E as <-; apply paints_under_refl, Hm |].
    destruct pts as [| p0 rest]; injection E as <-;
      [apply paints_under_refl, Hm |].
    apply paints_under_step; [apply keeps_stroke |].
    apply paints_under_step; [apply fold_lineTo_keeps |]. peel.
Qed.

Lemma restore_after_save (m : Canvas.Transform) (c c1 : Canvas.Context) :
  Canvas.transform (Canvas.state c) = m ->
  paints_under m (Canvas.save c) c1 ->
  Canvas.state (Canvas.restore c1) = Canvas.state c /\
  Canvas.saved (Canvas.restore c1) = Canvas.saved c /\
  exists ps : list Canvas.Paint,
    Canvas.painted (Canvas.restore c1) = Canvas.painted c ++ ps /\
    Forall (under m) ps.
Proof.
  intros Hm [Hs [_ [ps [Hp Hf]]]]. unfold Canvas.restore.
  simpl in Hs. rewrite Hs. simpl. repeat split.
  exists ps. split; [exact Hp | exact Hf].
Qed.

Lemma drawElement_frame (now : Q) (c c' : Canvas.Context) (e : WhiteboardElement) :
  drawElement now c e = Some c' ->
  Canvas.state c' = Canvas.state c /\
  Canvas.saved c' = Canvas.saved c /\
  exists ps : list Canvas.Paint,
    Canvas.painted c' = Canvas.painted c ++ ps /\
    Forall (under (Canvas.transform (Canvas.state c))) ps.
Proof.
  intros E. unfold drawElement in E.
  set (m := Canvas.transform (Canvas.state c)).
  set (c0 := Canvas.set_globalAlpha (JS.or_else (opacity (style e)) 1)
               (Canvas.set_lineWidth (JS.or_else (strokeWidth (style e)) 2)
                  (Canvas.set_fillStyle (backgroundColor (style e))
                     (Canvas.set_strokeStyle (color (style e)) (Canvas.save c)))))
    in *.
  assert (H0 : paints_under m (Canvas.save c) c0).
  { assert (Hm : Canvas.transform (Canvas.state (Canvas.save c)) = m)
      by reflexivity.
    unfold c0. peel. }
  assert (Hbody : forall c1, paints_under m c0 c1 ->
            Some (Canvas.restore c1) = Some c' ->
            Canvas.state c' = Canvas.state c /\
            Canvas.saved c' = Canvas.saved c /\
            exists ps : list Canvas.Paint,
              Canvas.painted c' = Canvas.painted c ++ ps /\ Forall (under m) ps).
  { intros c1 H1 E1. injection E1 as <-.
    apply (restore_after_save m c c1 eq_refl).
    apply (paints_under_trans m _ c0 c1 H0 H1). }
  assert (Hm0 : Canvas.transform (Canvas.state c0) = m) by apply H0.
  destruct (type e);
    try (apply (Hbody c0 (paints_under_refl m c0 Hm0) E));
    try (destruct (drawPath c0 e) as [c1 |] eqn:E1; [| discriminate E];
         apply (Hbody c1 (drawPath_paints_under m c0 c1 e Hm0 E1) E)).
  - apply (Hbody _ (keeps_drawText e m c0 Hm0) E).
  - apply (Hbody _ (keeps_drawSticky e m c0 Hm0) E).
  - apply (Hbody _ (keeps_drawLaser now e m c0 Hm0) E).
  - destruct (drawShape c0 e) as [c1 |] eqn:E1; [| discriminate E].
    apply (Hbody c1 (drawShape_paints_under m c0 c1 e Hm0 E1) E).
Qed.

(** X11.  Drawing one element is self-contained: when [drawElement]
    returns, the drawing state (colours, line width, alpha, font,
    transform) and the stack of saved states are exactly what they were, so
    no style of one element leaks into the next; and everything it painted
    was painted under the transform in force at the call. *)
Theorem drawElement_restores_state (now : Q) (c c' : Canvas.Context)
    (e : WhiteboardElement) :
  drawElement now c e = Some c' ->
  Canvas.state c' = Canvas.state c /\
  Canvas.saved c' = Canvas.saved c /\
  exists ps : list Canvas.Paint,
    Canvas.painted c' = Canvas.painted c ++ ps /\
    Forall (under (Canvas.transform (Canvas.state c))) ps.
Proof. apply drawElement_frame. Qed.

Lemma drawElement_restores_state_witness :
  exists c' : Canvas.Context,
    drawElement 0 Canvas.fresh (sample_rectangle (Some true)) = Some c' /\
    Canvas.state c' = Canvas.state Canvas.fresh /\
    Canvas.saved c' = Canvas.saved Canvas.fresh.
Proof.
  eexists. split; [vm_compute; reflexivity |].
  destruct (drawElement_restores_state 0 Canvas.fresh _
              (sample_rectangle (Some true)) eq_refl) as [Hs [Hv _]].
  split; [exact Hs | exact Hv].
Defined.

(** What a pass over the element list paints: one batch per element, in
    list order, each batch what [drawElement] paints for that element under
    the drawing state the pass started with, which every call restores. *)
Lemma drawElements_batches (now : Q) (els : list WhiteboardElement) :
  forall c c' : Canvas.Context,
    drawElements now els c = Some c' ->
    Canvas.state c' = Canvas.state c /\
    Canvas.saved c' = Canvas.saved c /\
    exists pss : list (list Canvas.Paint),
      Canvas.painted c' = Canvas.painted c ++ List.concat pss /\
      Forall2 (drawn_as now (Canvas.state c)) els pss /\
      Forall (Forall (under (Canvas.transform (Canvas.state c)))) pss.
Proof.
  induction els as [| e rest IH]; intros c c' E; simpl in E.
  - injection E as <-. repeat split. exists []. simpl. rewrite app_nil_r.
    repeat split; constructor.
  - destruct (drawElement now c e) as [c1 |] eqn:E1; [| discriminate].
    destruct (drawElement_frame now c c1 e E1) as [Hs1 [Hv1 [ps1 [Hp1 Hf1]]]].
    destruct (IH c1 c' E) as [Hs2 [Hv2 [pss [Hp2 [Hd2 Hf2]]]]].
    rewrite Hs1 in Hs2, Hd2, Hf2. rewrite Hv1 in Hv2.
    split; [exact Hs2 |]. split; [exact Hv2 |].
    exists (ps1 :: pss). split; [| split].
    + rewrite Hp2, Hp1. simpl. rewrite app_assoc. reflexivity.
    + constructor; [| exact Hd2]. exists c, c1. repeat split; assumption.
    + constructor; assumption.
Qed.

(** X12.  A redraw that completes on an untransformed context first
    clears the canvas rectangle and fills it white, then paints the
    elements one after the other in list order: for each element exactly
    what [drawElement] paints for it under the redraw's drawing state
    (white fill style, view transform), every paint under the view
    transform (zoom, then pan).  It leaves the context as it found it but
    for the fill style, which is white. *)
Theorem redrawCanvas_paints_under_view (now : Q) (s : Editor)
    (c c' : Canvas.Context) :
  Canvas.transform (Canvas.state c) = Canvas.identity ->
  redrawCanvas now s c = Some c' ->
  Canvas.state c' = Canvas.state (Canvas.set_fillStyle "#ffffff" c) /\
  Canvas.saved c' = Canvas.saved c /\
  exists (st0 st1 : Canvas.DrawState) (pss : list (list Canvas.Paint)),
    Canvas.painted c'
      = Canvas.painted c
        ++ Canvas.ClearRect 0 0 (width (canvasSize s)) (height (canvasSize s)) st0
        :: Canvas.FillRect 0 0 (width (canvasSize s)) (height (canvasSize s)) st1
        :: List.concat pss /\
    Canvas.fillStyle st1 = "#ffffff"%string /\
    Forall2
      (drawn_as now
         (Canvas.state
            (applyView (zoom s) (pan s) (Canvas.set_fillStyle "#ffffff" c))))
      (elements s) pss /\
    Forall (Forall (under (viewTransform (zoom s) (pan s)))) pss.
Proof.
  intros Hid E. unfold redrawCanvas in E. cbv zeta in E.
  set (w := width (canvasSize s)) in *. set (h := height (canvasSize s)) in *.
  set (c1 := Canvas.fillRect 0 0 w h
               (Canvas.set_fillStyle "#ffffff" (Canvas.clearRect 0 0 w h c))) in *.
  set (c2 := applyView (zoom s) (pan s) (Canvas.save c1)) in *.
  destruct (drawElements now (elements s) c2) as [c3 |] eqn:E3; [| discriminate].
  injection E as <-.
  destruct (drawElements_batches now (elements s) c2 c3 E3)
    as [Hs [Hv [pss [Hp [Hd Hf]]]]].
  assert (Hview : Canvas.transform (Canvas.state c2) = viewTransform (zoom s) (pan s)).
  { unfold c2. apply applyView_from_identity. exact Hid. }
  rewrite Hview in Hf.
  unfold Canvas.restore. rewrite Hv. simpl. repeat split.
  exists (Canvas.state c), (Canvas.state (Canvas.set_fillStyle "#ffffff" c)), pss.
  split; [| split; [reflexivity | split; [exact Hd | exact Hf]]].
  rewrite Hp. simpl. rewrite <- !app_assoc. reflexivity.
Qed.

(** A redraw of a sticky note and a two-point stroke: background, the
    three paints of the note, the stroke. *)
Lemma redrawCanvas_paints_under_view_witness :
  exists c' : Canvas.Context,
    redrawCanvas 0 (editor_with pen [sample_sticky; sample_stroke]) Canvas.fresh
      = Some c' /\
    map is_stroke (Canvas.painted c') = [false; false; false; false; false; true] /\
    exists pss : list (list Canvas.Paint),
      Forall2
        (drawn_as 0
           (Canvas.state
              (applyView 1 (mkPoint 0 0)
                 (Canvas.set_fillStyle "#ffffff" Canvas.fresh))))
        [sample_sticky; sample_stroke] pss.
Proof.
  eexists. split; [vm_compute; reflexivity |]. split; [reflexivity |].
  destruct (redrawCanvas_paints_under_view 0
              (editor_with pen [sample_sticky; sample_stroke]) Canvas.fresh _
              eq_refl eq_refl)
    as [_ [_ [st0 [st1 [pss [_ [_ [Hd _]]]]]]]].
  exists pss. exact Hd.
Defined.

(** ** Renderer: strokes *)

Lemma fold_lineTo_path (pts : list Point) :
  forall c : Canvas.Context,
    Canvas.path (fold_left (fun c p => Canvas.lineTo (x p) (y p) c) pts c)
    = Canvas.path c ++ map (fun p => Canvas.LineTo (x p) (y p)) pts.
Proof.
  induction pts as [| p rest IH]; intros c; simpl.
  - rewrite app_nil_r. reflexivity.
  - rewrite IH. simpl. rewrite <- app_assoc. reflexivity.
Qed.

Lemma drawPath_polyline (c : Canvas.Context) (e : WhiteboardElement)
    (pts : list Point) :
  content e = JsonPoints pts -> (2 <= List.length pts)%nat ->
  exists c' : Canvas.Context,
    drawPath c e = Some c' /\
    Canvas.state c' = Canvas.state c /\
    Canvas.painted c'
      = Canvas.painted c ++ [Canvas.Stroke (polyline pts) (Canvas.state c)].
Proof.
  intros Hc Hlen. unfold drawPath. rewrite Hc.
  destruct (Z.ltb_spec (Z.of_nat (List.length pts)) 2) as [Hlt | _]; [lia |].
  destruct pts as [| p0 rest]; [simpl in Hlen; lia |].
  eexists. split; [reflexivity |].
  unfold Canvas.stroke, Canvas.paint. cbn [Canvas.state Canvas.painted].
  destruct (fold_lineTo_frame rest
              (Canvas.moveTo (x p0) (y p0) (Canvas.beginPath c))) as [Hs Hp].
  rewrite Hs, Hp, fold_lineTo_path. split; reflexivity.
Qed.

(** X13.  [drawPath] needs two points: an element whose path has fewer
    (or whose content is empty) paints nothing and leaves the context
    untouched; with two points or more it strokes once, a polyline that
    starts at the first point and runs through all the others in order. *)
Theorem drawPath_needs_two_points (c : Canvas.Context) (e : WhiteboardElement) :
  (content e = Str "" -> drawPath c e = Some c) /\
  (forall pts : list Point,
     content e = JsonPoints pts -> (List.length pts < 2)%nat ->
     drawPath c e = Some c) /\
  (forall pts : list Point,
     content e = JsonPoints pts -> (2 <= List.length pts)%nat ->
     exists c' : Canvas.Context,
       drawPath c e = Some c' /\
       Canvas.state c' = Canvas.state c /\
       Canvas.painted c'
         = Canvas.painted c ++ [Canvas.Stroke (polyline pts) (Canvas.state c)]).
Proof.
  split; [| split].
  - intros Hc. unfold drawPath. rewrite Hc. reflexivity.
  - intros pts Hc Hlen. unfold drawPath. rewrite Hc.
    destruct (Z.ltb_spec (Z.of_nat (List.length pts)) 2) as [_ | Hge];
      [reflexivity | lia].
  - intros pts. apply drawPath_polyline.
Qed.

Lemma drawPath_needs_two_points_witness :
  exists c' : Canvas.Context,
    drawPath Canvas.fresh sample_stroke = Some c' /\
    Canvas.painted c'
      = [Canvas.Stroke [Canvas.MoveTo 1 1; Canvas.LineTo 2 2]
           (Canvas.state Canvas.fresh)].
Proof.
  destruct (proj2 (proj2 (drawPath_needs_two_points Canvas.fresh sample_stroke))
              [mkPoint 1 1; mkPoint 2 2] eq_refl) as [c' [E [_ Hp]]].
  - simpl. lia.
  - exists c'. split; [exact E | exact Hp].
Defined.

(** The state a freehand gesture is in when pointer-up runs. *)
Lemma freehand_gesture_state (s : Editor) (down : MouseEvent)
    (evs : list MouseEvent) (uuid : string) :
  isFreehand (currentTool s) = true -> isPanning s = false -> evs <> [] ->
  exists s1 : Editor,
    currentPath s1
      = map (getMousePos (canvasRef s) (zoom s) (pan s)) (down :: evs) /\
    settings s1 = settings s /\
    elements (gesture down evs uuid s) = elements s ++ [newElement uuid s1].
Proof.
  intros Hf Hp Hevs. unfold gesture.
  pose proof (handleMouseDown_drawing down s (isFreehand_not_hand _ Hf)) as E0.
  set (s0 := handleMouseDown down s) in *.
  exists (moves evs s0).
  destruct (moves_record evs s0) as [Hpath Hpan];
    try (rewrite E0; simpl; first [exact Hp | exact Hf | discriminate | reflexivity]).
  destruct (moves_mode evs s0) as [Hp1 Hd1].
  pose proof (document_eq _ _ (moves_document evs s0)) as [He1 _].
  assert (Hpath' : currentPath (moves evs s0)
                   = map (getMousePos (canvasRef s) (zoom s) (pan s)) (down :: evs)).
  { rewrite Hpath, E0. reflexivity. }
  split; [exact Hpath' |]. split.
  - rewrite moves_settings. unfold s0. apply handleMouseDown_settings.
  - destruct (handleMouseUp_commits uuid (moves evs s0)) as [Hel _].
    + rewrite Hp1, E0. exact Hp.
    + rewrite Hd1, E0. reflexivity.
    + rewrite Hpath'. simpl. rewrite length_map.
      destruct evs; [contradiction | simpl; lia].
    + rewrite Hel, He1, E0. reflexivity.
Qed.

(** X14.  What was drawn is what is shown: the element a freehand gesture
    commits is rendered by [drawElement] as one stroke, a polyline through
    the recorded pointer positions in order (the press, then every move),
    in the colour selected during the gesture, with the selected size as
    line width when that is positive, under the transform in force. *)
Theorem committed_stroke_rendering (s : Editor) (down : MouseEvent)
    (evs : list MouseEvent) (uuid : string) :
  isFreehand (currentTool s) = true -> isPanning s = false -> evs <> [] ->
  exists e : WhiteboardElement,
    elements (gesture down evs uuid s) = elements s ++ [e] /\
    forall (now : Q) (c : Canvas.Context),
    exists (c' : Canvas.Context) (st : Canvas.DrawState),
      drawElement now c e = Some c' /\
      Canvas.painted c'
        = Canvas.painted c
          ++ [Canvas.Stroke
                (polyline (map (getMousePos (canvasRef s) (zoom s) (pan s))
                             (down :: evs)))
                st] /\
      Canvas.strokeStyle st = currentColor s /\
      Canvas.transform st = Canvas.transform (Canvas.state c) /\
      ((0 < currentSize s)%Q -> Canvas.lineWidth st = currentSize s).
Proof.
  intros Hf Hp Hevs.
  destruct (freehand_gesture_state s down evs uuid Hf Hp Hevs)
    as [s1 [Hpath [Hset Hel]]].
  exists (newElement uuid s1). split; [exact Hel |]. intros now c.
  assert (Htool : currentTool s1 = currentTool s) by (apply settings_tool, Hset).
  assert (Hcolor : currentColor s1 = currentColor s)
    by (unfold settings in Hset; congruence).
  assert (Hsize : currentSize s1 = currentSize s)
    by (unfold settings in Hset; congruence).
  set (e := newElement uuid s1).
  set (c0 := Canvas.set_globalAlpha (JS.or_else (opacity (style e)) 1)
               (Canvas.set_lineWidth (JS.or_else (strokeWidth (style e)) 2)
                  (Canvas.set_fillStyle (backgroundColor (style e))
                     (Canvas.set_strokeStyle (color (style e)) (Canvas.save c))))).
  destruct (drawPath_polyline c0 e (currentPath s1)) as [c1 [E1 [Hs1 Hp1]]];
    [reflexivity | rewrite Hpath; simpl; rewrite length_map;
                   destruct evs; [contradiction | simpl; lia] |].
  exists (Canvas.restore c1), (Canvas.state c0).
  split; [| split; [| split; [| split]]].
  - unfold drawElement. fold e. fold c0.
    replace (type e) with (currentTool s) by (symmetry; exact Htool).
    destruct (currentTool s); try discriminate Hf; rewrite E1; reflexivity.
  - rewrite painted_restore, Hp1, Hpath. reflexivity.
  - unfold c0. cbn [Canvas.set_globalAlpha Canvas.set_lineWidth
                    Canvas.set_fillStyle Canvas.set_strokeStyle
                    Canvas.with_state Canvas.state].
    destruct (Qle_bool 0 (JS.or_else (opacity (style e)) 1)
              && Qle_bool (JS.or_else (opacity (style e)) 1) 1),
             (Qle_bool (JS.or_else (strokeWidth (style e)) 2) 0);
      simpl; exact Hcolor.
  - assert (H0 : paints_under (Canvas.transform (Canvas.state c))
                   (Canvas.save c) c0).
    { assert (Hm : Canvas.transform (Canvas.state (Canvas.save c))
                   = Canvas.transform (Canvas.state c)) by reflexivity.
      unfold c0. peel. }
    apply H0.
  - intros Hpos.
    assert (Hnz : ~ (currentSize s == 0)%Q) by lra.
    assert (Hw : JS.or_else (strokeWidth (style e)) 2 = currentSize s).
    { unfold e, newElement; simpl. rewrite Hsize. apply or_else_nonzero, Hnz. }
    unfold c0. rewrite Hw.
    cbn [Canvas.set_globalAlpha Canvas.set_lineWidth Canvas.with_state Canvas.state].
    assert (Hle : Qle_bool (currentSize s) 0 = false).
    { destruct (Qle_bool (currentSize s) 0) eqn:E; [| reflexivity].
      apply Qle_bool_iff in E. lra. }
    rewrite Hle.
    destruct (Qle_bool 0 (JS.or_else (opacity (style e)) 1)
              && Qle_bool (JS.or_else (opacity (style e)) 1) 1); reflexivity.
Qed.

Lemma committed_stroke_rendering_witness :
  exists e : WhiteboardElement,
    elements (gesture (mkMouseEvent 1 1) [mkMouseEvent 2 2] "id-1"
                (editor_with pen []))
    = [] ++ [e].
Proof.
  destruct (committed_stroke_rendering (editor_with pen []) (mkMouseEvent 1 1)
              [mkMouseEvent 2 2] "id-1"%string) as [e [Hel _]].
  - reflexivity.
  - reflexivity.
  - discriminate.
  - exists e. exact Hel.
Defined.

Lemma drawPreview_segment (s : Editor) (last pos : Point) (c : Canvas.Context) :
  exists st : Canvas.DrawState,
    Canvas.painted (drawPreview s last pos c)
      = Canvas.painted c
        ++ [Canvas.Stroke [Canvas.MoveTo (x last) (y last);
                           Canvas.LineTo (x pos) (y pos)] st] /\
    Canvas.transform st
      = Canvas.transform (Canvas.state (applyView (zoom s) (pan s) c)) /\
    Canvas.state (drawPreview s last pos c) = Canvas.state c /\
    Canvas.saved (drawPreview s last pos c) = Canvas.saved c.
Proof.
  unfold drawPreview. eexists. split; [| split; [| split]].
  - rewrite painted_restore. reflexivity.
  - cbn [Canvas.lineTo Canvas.moveTo Canvas.add_path Canvas.beginPath
         Canvas.state Canvas.set_globalAlpha Canvas.set_lineWidth
         Canvas.set_strokeStyle Canvas.with_state].
    destruct (Qle_bool 0 (toolAlpha (currentTool s))
              && Qle_bool (toolAlpha (currentTool s)) 1),
             (Qle_bool (currentSize s) 0); reflexivity.
  - reflexivity.
  - reflexivity.
Qed.

Lemma moves_preview_segments (evs : list MouseEvent) :
  forall (s : Editor) (c : Canvas.Context) (last : Point),
    isPanning s = false -> isDrawing s = true -> lastPoint s = Some last ->
    isFreehand (currentTool s) = true -> ctx s = Some c ->
    exists (c' : Canvas.Context) (previews : list Canvas.Paint),
      ctx (moves evs s) = Some c' /\
      Canvas.painted c' = Canvas.painted c ++ previews /\
      Forall2 strokes_segment
        (segments (last :: map (getMousePos (canvasRef s) (zoom s) (pan s)) evs))
        previews /\
      Forall (under (Canvas.transform
                       (Canvas.state (applyView (zoom s) (pan s) c))))
        previews.
Proof.
  induction evs as [| e rest IH]; intros s c last Hp Hd Hl Hf Hc.
  - exists c, []. simpl. rewrite app_nil_r.
    repeat split; [exact Hc | constructor | constructor].
  - change (moves (e :: rest) s) with (moves rest (handleMouseMove e s)).
    pose proof (handleMouseMove_drawing e s last Hp Hd Hl Hf) as Estep.
    cbv zeta in Estep. rewrite Hc in Estep.
    set (pos := getMousePos (canvasRef s) (zoom s) (pan s) e) in *.
    destruct (drawPreview_segment s last pos c) as [st [Hpaint [Htr [Hst _]]]].
    destruct (IH (handleMouseMove e s) (drawPreview s last pos c) pos)
      as [c' [previews [Hc' [Hpainted [Hseg Hund]]]]];
      try (rewrite Estep; simpl; first [assumption | reflexivity]).
    assert (Hview : canvasRef (handleMouseMove e s) = canvasRef s /\
                    zoom (handleMouseMove e s) = zoom s /\
                    pan (handleMouseMove e s) = pan s)
      by (rewrite Estep; repeat split).
    destruct Hview as [Hr [Hz Hq]]. rewrite Hr, Hz, Hq in Hseg.
    rewrite Hz, Hq in Hund.
    assert (Hsame : Canvas.transform
                      (Canvas.state
                         (applyView (zoom s) (pan s) (drawPreview s last pos c)))
                    = Canvas.transform
                        (Canvas.state (applyView (zoom s) (pan s) c))).
    { unfold applyView, Canvas.translate, Canvas.scale, Canvas.with_state.
      cbn [Canvas.state]. rewrite Hst. reflexivity. }
    rewrite Hsame in Hund.
    exists c', (Canvas.Stroke [Canvas.MoveTo (x last) (y last);
                               Canvas.LineTo (x pos) (y pos)] st :: previews).
    split; [exact Hc' |]. split; [| split].
    + rewrite Hpainted, Hpaint, <- app_assoc. reflexivity.
    + cbn [map segments]. fold pos. constructor; [| exact Hseg].
      exists st. reflexivity.
    + constructor; [exact Htr | exact Hund].
Qed.

(** X15.  The live preview traces the stroke that is committed: during a
    freehand gesture every move strokes one segment, and these segments
    are, in order, the consecutive pairs of the recorded path (press, then
    moves), each painted under the view transform applied to the context's
    own. *)
Theorem preview_traces_path (s : Editor) (c : Canvas.Context)
    (down : MouseEvent) (evs : list MouseEvent) (uuid : string) :
  isFreehand (currentTool s) = true -> isPanning s = false ->
  ctx s = Some c ->
  exists (c' : Canvas.Context) (previews : list Canvas.Paint),
    ctx (gesture down evs uuid s) = Some c' /\
    Canvas.painted c' = Canvas.painted c ++ previews /\
    Forall2 strokes_segment
      (segments (map (getMousePos (canvasRef s) (zoom s) (pan s)) (down :: evs)))
      previews /\
    Forall (under (Canvas.transform
                     (Canvas.state (applyView (zoom s) (pan s) c))))
      previews.
Proof.
  intros Hf Hp Hc. unfold gesture. rewrite handleMouseUp_ctx.
  pose proof (handleMouseDown_drawing down s (isFreehand_not_hand _ Hf)) as E0.
  destruct (moves_preview_segments evs (handleMouseDown down s) c
              (getMousePos (canvasRef s) (zoom s) (pan s) down))
    as [c' [previews [Hc' [Hpainted [Hseg Hund]]]]];
    try (rewrite E0; simpl; first [assumption | reflexivity]).
  assert (Hview : canvasRef (handleMouseDown down s) = canvasRef s /\
                  zoom (handleMouseDown down s) = zoom s /\
                  pan (handleMouseDown down s) = pan s)
    by (rewrite E0; repeat split).
  destruct Hview as [Hr [Hz Hq]]. rewrite Hr, Hz, Hq in Hseg.
  rewrite Hz, Hq in Hund.
  exists c', previews. repeat split; assumption.
Qed.

Lemma preview_traces_path_witness :
  exists (c' : Canvas.Context) (previews : list Canvas.Paint),
    ctx (gesture (mkMouseEvent 1 1) [mkMouseEvent 2 2; mkMouseEvent 3 1] "id-1"
           (editor_with pen []))
    = Some c' /\
    Canvas.painted c' = Canvas.painted Canvas.fresh ++ previews /\
    List.length previews = 2%nat.
Proof.
  destruct (preview_traces_path (editor_with pen []) Canvas.fresh
              (mkMouseEvent 1 1) [mkMouseEvent 2 2; mkMouseEvent 3 1]
              "id-1"%string eq_refl eq_refl eq_refl)
    as [c' [previews [Hc [Hp [Hseg _]]]]].
  exists c', previews. split; [exact Hc |]. split; [exact Hp |].
  apply Forall2_length in Hseg. simpl in Hseg. symmetry. exact Hseg.
Defined.

(** ** Renderer: laser marks, sticky notes, shapes *)

(** X16.  The lifetime of a laser mark, by the age the code computes
    ([now - (timestamp || now)]).  Past 3000 ms nothing is painted and the
    context is untouched; up to and including 3000 ms one red circle is
    filled: for ages from 0 to 3000 with alpha [1 - age / 3000] (so a mark
    exactly 3000 ms old is still painted, with alpha 0), and for a negative
    age (a stamp in the future) with the alpha the context already had,
    because the canvas ignores an alpha above 1.  A mark without a
    timestamp has age 0 at every instant, so it never fades. *)
Theorem drawLaser_lifetime (now : Q) (c : Canvas.Context) (e : WhiteboardElement) :
  ((3000 < laserAge now e)%Q -> drawLaser now c e = c) /\
  ((laserAge now e <= 3000)%Q ->
     exists st : Canvas.DrawState,
       Canvas.painted (drawLaser now c e)
         = Canvas.painted c
           ++ [Canvas.Fill [Canvas.Arc (x (position e)) (y (position e)) 8 0 2] st] /\
       Canvas.fillStyle st = "#ff0000"%string /\
       ((0 <= laserAge now e)%Q ->
          (Canvas.globalAlpha st == 1 - laserAge now e / 3000)%Q) /\
       ((laserAge now e < 0)%Q ->
          Canvas.globalAlpha st = Canvas.globalAlpha (Canvas.state c))) /\
  (timestamp e = None -> (laserAge now e == 0)%Q).
Proof.
  split; [| split].
  - intros Hage. unfold drawLaser. fold (laserAge now e).
    destruct (Qle_bool (laserAge now e) 3000) eqn:E; [| reflexivity].
    apply Qle_bool_iff in E. lra.
  - intros Hage. unfold drawLaser. fold (laserAge now e).
    assert (E : Qle_bool (laserAge now e) 3000 = true) by (apply Qle_bool_iff, Hage).
    rewrite E. cbn [negb].
    set (age := laserAge now e) in *.
    assert (Hd : (age / 3000 == age * (1 # 3000))%Q) by (field; discriminate).
    set (o := Qmax 0 (1 - age / 3000)).
    eexists. split; [reflexivity |]. split; [reflexivity |].
    cbn [Canvas.arc Canvas.add_path Canvas.beginPath Canvas.set_fillStyle
         Canvas.with_state Canvas.state Canvas.globalAlpha].
    split.
    + intros Hpos.
      assert (Hmax : (o == 1 - age / 3000)%Q) by (apply Q.max_r; rewrite Hd; lra).
      rewrite set_globalAlpha_accepts; [exact Hmax |].
      rewrite Hmax, Hd. lra.
    + intros Hneg.
      assert (Hbig : (1 < o)%Q).
      { apply Qlt_le_trans with (1 - age / 3000)%Q;
          [rewrite Hd; lra | apply Q.le_max_r]. }
      unfold Canvas.set_globalAlpha, Canvas.with_state. cbn [Canvas.state].
      destruct (Qle_bool o 1) eqn:E1.
      * apply Qle_bool_iff in E1. lra.
      * rewrite andb_false_r. reflexivity.
  - intros Hts. unfold laserAge. rewrite Hts. simpl. ring.
Qed.

Lemma drawLaser_lifetime_witness :
  exists st : Canvas.DrawState,
    Canvas.painted (drawLaser 4000 Canvas.fresh (sample_laser 1000))
      = Canvas.painted Canvas.fresh
        ++ [Canvas.Fill [Canvas.Arc 5 5 8 0 2] st] /\
    (Canvas.globalAlpha st == 1 - laserAge 4000 (sample_laser 1000) / 3000)%Q.
Proof.
  destruct (proj1 (proj2 (drawLaser_lifetime 4000 Canvas.fresh (sample_laser 1000))))
    as [st [Hp [_ [Ha _]]]].
  - vm_compute. discriminate.
  - exists st. split; [exact Hp |]. apply Ha. vm_compute. discriminate.
Defined.

Lemma split_lines_length (s : string) :
  List.length (split_lines s) = S (count_newlines s).
Proof.
  induction s as [| ch rest IH]; [reflexivity |].
  cbn [split_lines count_newlines]. destruct (Ascii.eqb ch "010"%char).
  - simpl. rewrite IH. reflexivity.
  - destruct (split_lines rest) as [| l ls]; [discriminate IH | exact IH].
Qed.

Lemma fillLines_layout (lines : list Content) :
  forall (index : Z) (px py : Q) (c : Canvas.Context),
  exists texts : list Canvas.Paint,
    Canvas.painted (fillLines lines index px py c) = Canvas.painted c ++ texts /\
    List.length texts = List.length lines /\
    forall (i : nat) (l : Content),
      nth_error lines i = Some l ->
      nth_error texts i
      = Some (Canvas.FillText l (px + 10)
                (py + 20 + inject_Z (index + Z.of_nat i) * 20)%Q
                (Canvas.state c)).
Proof.
  induction lines as [| l0 rest IH]; intros index px py c.
  - exists []. simpl. rewrite app_nil_r. repeat split.
    intros i l Hi. destruct i; discriminate Hi.
  - cbn [fillLines].
    destruct (IH (index + 1) px py
                (Canvas.fillText l0 (px + 10) (py + 20 + inject_Z index * 20)%Q c))
      as [texts [Hp [Hlen Hnth]]].
    exists (Canvas.FillText l0 (px + 10) (py + 20 + inject_Z index * 20)%Q
              (Canvas.state c) :: texts).
    split; [| split].
    + rewrite Hp. simpl. rewrite <- app_assoc. reflexivity.
    + simpl. rewrite Hlen. reflexivity.
    + intros i l Hi. destruct i as [| j].
      * injection Hi as <-. simpl. rewrite Z.add_0_r. reflexivity.
      * simpl in Hi. simpl nth_error. rewrite (Hnth j l Hi).
        replace (index + 1 + Z.of_nat j) with (index + Z.of_nat (S j)) by lia.
        reflexivity.
Qed.

(** X17.  A sticky note is painted as its rectangle (position and size)
    filled, then the same rectangle stroked, then its text line by line,
    the content being split at line breaks: line [i] (counting from 0) is
    written at [(x + 10, y + 20 + 20 i)], all lines under one drawing
    state; a text with [k] line breaks gives [k + 1] lines.  Nothing else
    is painted, and every paint is made under the transform of the
    call. *)
Theorem drawSticky_layout (c : Canvas.Context) (e : WhiteboardElement) :
  exists (st1 st2 st3 : Canvas.DrawState) (texts : list Canvas.Paint),
    Canvas.painted (drawSticky c e)
      = Canvas.painted c
        ++ Canvas.FillRect (x (position e)) (y (position e))
             (width (size e)) (height (size e)) st1
        :: Canvas.StrokeRect (x (position e)) (y (position e))
             (width (size e)) (height (size e)) st2
        :: texts /\
    Canvas.transform st1 = Canvas.transform (Canvas.state c) /\
    Canvas.transform st2 = Canvas.transform (Canvas.state c) /\
    Canvas.transform st3 = Canvas.transform (Canvas.state c) /\
    List.length texts = List.length (content_lines (content e)) /\
    (forall (i : nat) (l : Content),
       nth_error (content_lines (content e)) i = Some l ->
       nth_error texts i
       = Some (Canvas.FillText l (x (position e) + 10)
                 (y (position e) + 20 + inject_Z (Z.of_nat i) * 20)%Q st3)) /\
    (forall txt : string,
       content e = Str txt -> List.length texts = S (count_newlines txt)).
Proof.
  unfold drawSticky. cbv zeta.
  match goal with
  | |- context [fillLines ?ls ?i ?px ?py ?c0] =>
      destruct (fillLines_layout ls i px py c0) as [texts [Hp [Hlen Hnth]]];
      eexists; eexists; exists (Canvas.state c0), texts
  end.
  split; [rewrite Hp; simpl; rewrite <- !app_assoc; reflexivity |].
  split; [reflexivity |]. split; [reflexivity |]. split; [reflexivity |].
  split; [exact Hlen |]. split.
  - intros i l Hi. rewrite (Hnth i l Hi). reflexivity.
  - intros txt Htxt. rewrite Hlen, Htxt. simpl.
    rewrite length_map. apply split_lines_length.
Qed.

(** X18.  A circle whose radius, as the code computes it
    ([Math.min(width, height) / 2]), is negative makes [drawShape] throw
    before anything is painted.  Every other shape is stroked, and filled
    first exactly when [style.fill] is true; fill and stroke use the same
    path and the drawing state of the call, which is left as it was.  A
    rectangle's path is the rectangle of its position and size, a line's
    runs from the position to position plus size, a circle's is the full
    arc around the centre of its box, and an element without [shapeType]
    gets an empty path, which is still stroked. *)
Theorem drawShape_fill_then_stroke (c : Canvas.Context) (e : WhiteboardElement) :
  (shapeType e = Some circle -> (circleRadius e < 0)%Q ->
   drawShape c e = None) /\
  ((shapeType e = Some circle -> (0 <= circleRadius e)%Q) ->
   exists (c' : Canvas.Context) (p : list Canvas.PathCmd),
     drawShape c e = Some c' /\
     Canvas.painted c'
       = Canvas.painted c
         ++ (if match style_fill (style e) with Some true => true | _ => false end
             then [Canvas.Fill p (Canvas.state c)] else [])
         ++ [Canvas.Stroke p (Canvas.state c)] /\
     Canvas.state c' = Canvas.state c /\
     (shapeType e = Some rectangle ->
        p = [Canvas.Rect (x (position e)) (y (position e))
               (width (size e)) (height (size e))]) /\
     (shapeType e = Some line ->
        p = [Canvas.MoveTo (x (position e)) (y (position e));
             Canvas.LineTo (x (position e) + width (size e))
               (y (position e) + height (size e))]%Q) /\
     (shapeType e = Some circle ->
        p = [Canvas.Arc (x (position e) + width (size e) / 2)
               (y (position e) + height (size e) / 2)
               (circleRadius e) 0 2]%Q) /\
     (shapeType e = None -> p = [])).
Proof.
  split.
  - intros Hc Hneg. unfold drawShape. rewrite Hc. cbv zeta.
    destruct (Qle_bool 0 (circleRadius e)) eqn:E; [| reflexivity].
    apply Qle_bool_iff in E. lra.
  - intros Hr. unfold drawShape. cbv zeta.
    destruct (shapeType e) as [[] |] eqn:Ek;
      try (assert (E : Qle_bool 0 (circleRadius e) = true)
             by (apply Qle_bool_iff, Hr; reflexivity);
           rewrite E);
      destruct (style_fill (style e)) as [[] |];
      eexists; eexists; (split; [reflexivity |]);
      (split; [simpl; rewrite <- ?app_assoc; reflexivity |]);
      (split; [reflexivity |]);
      repeat split; intros H; try discriminate H; reflexivity.
Qed.

Lemma drawSticky_layout_witness :
  exists texts : list Canvas.Paint,
    List.length texts = S (count_newlines two_lines) /\
    nth_error (content_lines (content (sample_note two_lines))) 1 = Some (Str "b").
Proof.
  destruct (drawSticky_layout Canvas.fresh (sample_note two_lines))
    as [st1 [st2 [st3 [texts [_ [_ [_ [_ [_ [_ Hcount]]]]]]]]]].
  exists texts. split; [apply Hcount; reflexivity | reflexivity].
Defined.

Lemma drawShape_fill_then_stroke_witness :
  drawShape Canvas.fresh (sample_circle (-4) 10) = None /\
  exists (c' : Canvas.Context) (p : list Canvas.PathCmd),
    drawShape Canvas.fresh (sample_rectangle (Some true)) = Some c' /\
    p = [Canvas.Rect 10 10 100 50] /\
    Canvas.painted c'
      = [Canvas.Fill p (Canvas.state Canvas.fresh);
         Canvas.Stroke p (Canvas.state Canvas.fresh)].
Proof.
  split.
  - apply (proj1 (drawShape_fill_then_stroke Canvas.fresh (sample_circle (-4) 10)));
      reflexivity.
  - destruct (proj2 (drawShape_fill_then_stroke Canvas.fresh
                       (sample_rectangle (Some true))))
      as [c' [p [E [Hp [_ [Hrect _]]]]]].
    + intros H. discriminate H.
    + exists c', p. split; [exact E |].
      split; [apply Hrect; reflexivity | exact Hp].
Defined.

(** ** The board list and saving *)

Lemma findById_id (id : string) (l : list Whiteboard) (w : Whiteboard) :
  Hook.findById id l = Some w -> wb_id w = id /\ In w l.
Proof.
  unfold Hook.findById. intros H. apply find_some in H. destruct H as [Hin He].
  apply String.eqb_eq in He. split; assumption.
Qed.

Lemma replace_found (wb : Whiteboard) (l : list Whiteboard) :
  Hook.findById (wb_id wb) l <> None ->
  Hook.findById (wb_id wb)
    (map (fun w => if String.eqb (wb_id w) (wb_id wb) then wb else w) l)
  = Some wb.
Proof.
  unfold Hook.findById. induction l as [| w rest IH]; intros H.
  - contradiction H. reflexivity.
  - simpl in *. destruct (String.eqb (wb_id w) (wb_id wb)) eqn:E.
    + rewrite String.eqb_refl. reflexivity.
    + rewrite E. apply IH, H.
Qed.

Lemma replace_absent (wb : Whiteboard) (l : list Whiteboard) :
  Hook.findById (wb_id wb) l = None ->
  map (fun w => if String.eqb (wb_id w) (wb_id wb) then wb else w) l = l.
Proof.
  unfold Hook.findById. induction l as [| w rest IH]; intros H; [reflexivity |].
  simpl in *. destruct (String.eqb (wb_id w) (wb_id wb)); [discriminate H |].
  rewrite IH by exact H. reflexivity.
Qed.

Lemma replace_other (wb : Whiteboard) (id : string) (l : list Whiteboard) :
  id <> wb_id wb ->
  Hook.findById id
    (map (fun w => if String.eqb (wb_id w) (wb_id wb) then wb else w) l)
  = Hook.findById id l.
Proof.
  unfold Hook.findById. intros Hne. induction l as [| w rest IH]; [reflexivity |].
  simpl. destruct (String.eqb (wb_id w) (wb_id wb)) eqn:E.
  - apply String.eqb_eq in E.
    assert (E1 : String.eqb (wb_id wb) id = false)
      by (apply String.eqb_neq; congruence).
    assert (E2 : String.eqb (wb_id w) id = false)
      by (apply String.eqb_neq; congruence).
    rewrite E1, E2. exact IH.
  - destruct (String.eqb (wb_id w) id); [reflexivity | exact IH].
Qed.

Lemma replace_ids (wb : Whiteboard) (l : list Whiteboard) :
  map wb_id (map (fun w => if String.eqb (wb_id w) (wb_id wb) then wb else w) l)
  = map wb_id l.
Proof.
  induction l as [| w rest IH]; [reflexivity |].
  simpl. rewrite IH. destruct (String.eqb (wb_id w) (wb_id wb)) eqn:E;
    [apply String.eqb_eq in E; rewrite E |]; reflexivity.
Qed.

Lemma updateWhiteboard_spec (db : Whiteboard -> option Whiteboard)
    (whiteboard stored : Whiteboard) (l : list Whiteboard) :
  db whiteboard = Some stored ->
  exists l' : list Whiteboard,
    Hook.updateWhiteboard db whiteboard l = Some l' /\
    map wb_id l' = map wb_id l /\
    (Hook.findById (wb_id stored) l <> None ->
       Hook.findById (wb_id stored) l' = Some stored) /\
    (Hook.findById (wb_id stored) l = None -> l' = l) /\
    (forall id : string,
       id <> wb_id stored -> Hook.findById id l' = Hook.findById id l).
Proof.
  intros Hdb. unfold Hook.updateWhiteboard. rewrite Hdb.
  eexists. split; [reflexivity |]. split; [apply replace_ids |].
  split; [apply replace_found |]. split; [apply replace_absent |].
  intros id Hne. apply replace_other, Hne.
Qed.

(** X19.  [updateWhiteboard] of the hook, once the database call
    resolved, replaces the board with the same identifier and nothing else:
    the list keeps its identifiers in the same order, a lookup of that
    identifier gives the object as the database call left it, lookups of
    other identifiers are unchanged, and when no board of the list has the
    identifier the list is left as it is.  When the call rejects, the list
    is not touched. *)
Theorem updateWhiteboard_replaces_by_id (db : Whiteboard -> option Whiteboard)
    (whiteboard : Whiteboard) (l : list Whiteboard) :
  (db whiteboard = None -> Hook.updateWhiteboard db whiteboard l = None) /\
  (forall stored : Whiteboard,
     db whiteboard = Some stored ->
     exists l' : list Whiteboard,
       Hook.updateWhiteboard db whiteboard l = Some l' /\
       map wb_id l' = map wb_id l /\
       (Hook.findById (wb_id stored) l <> None ->
          Hook.findById (wb_id stored) l' = Some stored) /\
       (Hook.findById (wb_id stored) l = None -> l' = l) /\
       (forall id : string,
          id <> wb_id stored -> Hook.findById id l' = Hook.findById id l)).
Proof.
  split.
  - intros Hdb. unfold Hook.updateWhiteboard. rewrite Hdb. reflexivity.
  - intros stored. apply updateWhiteboard_spec.
Qed.

Lemma updateWhiteboard_replaces_by_id_witness :
  exists l' : list Whiteboard,
    Hook.updateWhiteboard (dbService_updateWhiteboard 7) blank_board
      [other_board; blank_board] = Some l' /\
    map wb_id l' = ["wb-9"; "wb-1"]%string.
Proof.
  destruct (proj2 (updateWhiteboard_replaces_by_id (dbService_updateWhiteboard 7)
                     blank_board [other_board; blank_board])
              _ eq_refl) as [l' [E [Hids _]]].
  exists l'. split; [exact E | exact Hids].
Defined.

(** X20.  [toggleFavorite] on an identifier that is not in the list does
    nothing.  On a board of the list, with a database that resolves and
    keeps identifier and flag, it flips the flag of that board, and
    toggling again brings the flag back; the identifiers of the list stay
    as they are throughout. *)
Theorem toggleFavorite_flips (db : Whiteboard -> option Whiteboard)
    (id : string) (l : list Whiteboard) :
  (Hook.findById id l = None -> Hook.toggleFavorite db id l = Some l) /\
  (db_keeps db ->
   forall wb : Whiteboard,
     Hook.findById id l = Some wb ->
     exists (l1 l2 : list Whiteboard) (wb1 wb2 : Whiteboard),
       Hook.toggleFavorite db id l = Some l1 /\
       Hook.findById id l1 = Some wb1 /\
       wb_isFavorite wb1 = negb (wb_isFavorite wb) /\
       Hook.toggleFavorite db id l1 = Some l2 /\
       Hook.findById id l2 = Some wb2 /\
       wb_isFavorite wb2 = wb_isFavorite wb /\
       map wb_id l2 = map wb_id l).
Proof.
  split.
  - intros Hnone. unfold Hook.toggleFavorite. rewrite Hnone. reflexivity.
  - intros Hdb wb Hfind.
    assert (Hstep : forall (l0 : list Whiteboard) (w : Whiteboard),
              Hook.findById id l0 = Some w ->
              exists (l1 : list Whiteboard) (w1 : Whiteboard),
                Hook.toggleFavorite db id l0 = Some l1 /\
                Hook.findById id l1 = Some w1 /\
                wb_isFavorite w1 = negb (wb_isFavorite w) /\
                map wb_id l1 = map wb_id l0).
    { intros l0 w Hw. destruct (findById_id id l0 w Hw) as [Hid _].
      destruct (Hdb (Hook.flipFavorite w)) as [w1 [E1 [Hid1 [Hfav1 _]]]].
      destruct (updateWhiteboard_spec db (Hook.flipFavorite w) w1 l0 E1)
        as [l1 [Eu [Hids [Hfound _]]]].
      simpl in Hid1. rewrite Hid1, Hid in Hfound.
      exists l1, w1. unfold Hook.toggleFavorite. rewrite Hw.
      split; [exact Eu |]. split; [apply Hfound; rewrite Hw; discriminate |].
      split; [exact Hfav1 | exact Hids]. }
    destruct (Hstep l wb Hfind) as [l1 [wb1 [E1 [F1 [V1 I1]]]]].
    destruct (Hstep l1 wb1 F1) as [l2 [wb2 [E2 [F2 [V2 I2]]]]].
    exists l1, l2, wb1, wb2. repeat split; try assumption.
    + rewrite V2, V1. apply negb_involutive.
    + congruence.
Qed.

Lemma db_keeps_dbService (now : Q) : db_keeps (dbService_updateWhiteboard now).
Proof. intros w. eexists. split; [reflexivity |]. repeat split. Qed.

Lemma toggleFavorite_flips_witness :
  exists (l1 : list Whiteboard) (wb1 : Whiteboard),
    Hook.toggleFavorite (dbService_updateWhiteboard 7) "wb-9"
      [other_board; blank_board] = Some l1 /\
    Hook.findById "wb-9" l1 = Some wb1 /\
    wb_isFavorite wb1 = negb (wb_isFavorite other_board).
Proof.
  destruct (proj2 (toggleFavorite_flips (dbService_updateWhiteboard 7)
                     "wb-9"%string [other_board; blank_board])
              (db_keeps_dbService 7) other_board eq_refl)
    as [l1 [l2 [wb1 [wb2 [E1 [F1 [V1 _]]]]]]].
  exists l1, wb1. split; [exact E1 |]. split; [exact F1 | exact V1].
Defined.

(** X21.  [deleteWhiteboard] removes the boards with the given identifier
    and no other: after a confirmed delete that the database carried out,
    no board with that identifier is left and every other board is still
    there, found under its identifier as before; a delete the user did not
    confirm leaves the list as it is. *)
Theorem deleteWhiteboard_removes_by_id (db : string -> bool) (id : string)
    (l : list Whiteboard) :
  Hook.deleteWhiteboard false db id l = Some l /\
  (db id = true ->
   exists l' : list Whiteboard,
     Hook.deleteWhiteboard true db id l = Some l' /\
     Hook.findById id l' = None /\
     (forall w : Whiteboard, In w l' <-> In w l /\ wb_id w <> id) /\
     (forall id' : string,
        id' <> id -> Hook.findById id' l' = Hook.findById id' l)).
Proof.
  split; [reflexivity |]. intros Hdb.
  unfold Hook.deleteWhiteboard. rewrite Hdb.
  eexists. split; [reflexivity |]. split; [| split].
  - unfold Hook.findById. induction l as [| w rest IH]; [reflexivity |].
    simpl. destruct (String.eqb (wb_id w) id) eqn:E; simpl;
      [exact IH | rewrite E; exact IH].
  - intros w. rewrite filter_In, negb_true_iff, String.eqb_neq. reflexivity.
  - intros id' Hne. unfold Hook.findById.
    induction l as [| w rest IH]; [reflexivity |].
    simpl. destruct (String.eqb (wb_id w) id) eqn:E; simpl.
    + apply String.eqb_eq in E.
      assert (E' : String.eqb (wb_id w) id' = false)
        by (apply String.eqb_neq; congruence).
      rewrite E'. exact IH.
    + destruct (String.eqb (wb_id w) id'); [reflexivity | exact IH].
Qed.

Lemma deleteWhiteboard_removes_by_id_witness :
  exists l' : list Whiteboard,
    Hook.deleteWhiteboard true (fun _ => true) "wb-9" [other_board; blank_board]
      = Some l' /\
    Hook.findById "wb-9" l' = None.
Proof.
  destruct (proj2 (deleteWhiteboard_removes_by_id (fun _ => true) "wb-9"%string
                     [other_board; blank_board]) eq_refl)
    as [l' [E [Hnone _]]].
  exists l'. split; [exact E | exact Hnone].
Defined.

(** X22.  Save, close, reopen.  When the editor was opened on a board of
    the list (under a non-empty identifier) and Save goes through a
    database that resolves and keeps identifier and content, the editor
    opened next on the same identifier starts from the saved element list,
    zoom and pan; its undo history is a
    single snapshot of those elements, and the tool is the pen again.
    Boards under other identifiers are found as before. *)
Theorem save_then_reopen (db : Whiteboard -> option Whiteboard)
    (whiteboard : Whiteboard) (now : Q) (s : Editor) (l : list Whiteboard) :
  db_keeps db ->
  wb_id whiteboard <> ""%string ->
  Hook.findById (wb_id whiteboard) l = Some whiteboard ->
  exists (l' : list Whiteboard) (s' : Editor),
    saveBoard db whiteboard now s l = Some l' /\
    openEditor (wb_id whiteboard) l' = Some s' /\
    elements s' = elements s /\
    zoom s' = zoom s /\
    pan s' = pan s /\
    history s' = [elements s] /\
    historyIndex s' = 0 /\
    currentTool s' = pen /\
    (forall id : string,
       id <> wb_id whiteboard -> Hook.findById id l' = Hook.findById id l).
Proof.
  intros Hdb Hne Hfind.
  destruct (Hdb (handleSave whiteboard now s)) as [stored [E [Hid [_ Hcont]]]].
  destruct (updateWhiteboard_spec db (handleSave whiteboard now s) stored l E)
    as [l' [Eu [_ [Hfound [_ Hother]]]]].
  simpl in Hid. rewrite Hid in Hfound, Hother.
  exists l', (init stored). split; [exact Eu |].
  split; [unfold openEditor; rewrite Hfound;
          [destruct (wb_id whiteboard); [contradiction | reflexivity]
          | rewrite Hfind; discriminate] |].
  unfold init; simpl. rewrite Hcont. simpl. repeat split. exact Hother.
Qed.

Lemma save_then_reopen_witness :
  exists (l' : list Whiteboard) (s' : Editor),
    saveBoard (dbService_updateWhiteboard 7) blank_board 7 one_stroke
      [other_board; blank_board] = Some l' /\
    openEditor (wb_id blank_board) l' = Some s' /\
    elements s' = elements one_stroke.
Proof.
  destruct (save_then_reopen (dbService_updateWhiteboard 7) blank_board 7
              one_stroke [other_board; blank_board]
              (db_keeps_dbService 7) ltac:(discriminate) eq_refl)
    as [l' [s' [E [Ho [He _]]]]].
  exists l', s'. split; [exact E |]. split; [exact Ho | exact He].
Defined.

Lemma findById_app_fresh (id : string) (l : list Whiteboard) (w : Whiteboard) :
  Hook.findById id l = None -> wb_id w = id ->
  Hook.findById id (l ++ [w]) = Some w.
Proof.
  unfold Hook.findById. intros Hnone Hid.
  induction l as [| a rest IH]; simpl in *.
  - rewrite Hid, String.eqb_refl. reflexivity.
  - destruct (String.eqb (wb_id a) id); [discriminate Hnone | apply IH, Hnone].
Qed.

Lemma findById_app_other (id : string) (l : list Whiteboard) (w : Whiteboard) :
  wb_id w <> id -> Hook.findById id (l ++ [w]) = Hook.findById id l.
Proof.
  unfold Hook.findById. intros Hne.
  induction l as [| a rest IH]; simpl.
  - apply String.eqb_neq in Hne. rewrite Hne. reflexivity.
  - destruct (String.eqb (wb_id a) id); [reflexivity | exact IH].
Qed.

(** X23.  Duplicating a board appends one board to the list and selects
    it.  When the database call resolves with a board that carries the
    content it was given under an identifier that is non-empty and new to
    the list, the editor opens on the copy showing the original's elements
    (the same elements, identifiers included), zoom and pan, and every
    board that was in the list is still found under its identifier. *)
Theorem handleDuplicate_opens_copy (db : Hook.NewWhiteboard -> option Whiteboard)
    (whiteboard newBoard : Whiteboard) (l : list Whiteboard) :
  db (Hook.mkNewWhiteboard (wb_name whiteboard ++ " (Copy)")
        (wb_location whiteboard) (wb_template whiteboard) false
        "current-user" (wb_content whiteboard))
    = Some newBoard ->
  wb_content newBoard = wb_content whiteboard ->
  wb_id newBoard <> ""%string ->
  Hook.findById (wb_id newBoard) l = None ->
  handleDuplicate db whiteboard l = Some (l ++ [newBoard], wb_id newBoard) /\
  (exists s : Editor,
     openEditor (wb_id newBoard) (l ++ [newBoard]) = Some s /\
     elements s = wc_elements (wb_content whiteboard) /\
     zoom s = wc_zoom (wb_content whiteboard) /\
     pan s = wc_pan (wb_content whiteboard)) /\
  (forall (id : string) (w : Whiteboard),
     Hook.findById id l = Some w -> Hook.findById id (l ++ [newBoard]) = Some w).
Proof.
  intros Hdb Hcont Hne Hfresh. split; [| split].
  - unfold handleDuplicate, Hook.createWhiteboard. rewrite Hdb. reflexivity.
  - exists (init newBoard). split.
    + unfold openEditor.
      rewrite (findById_app_fresh (wb_id newBoard) l newBoard Hfresh eq_refl).
      destruct (wb_id newBoard); [contradiction | reflexivity].
    + unfold init; simpl. rewrite Hcont. repeat split.
  - intros id w Hw. rewrite findById_app_other; [exact Hw |].
    intros Hid. rewrite <- Hid, Hfresh in Hw. discriminate Hw.
Qed.

Lemma handleDuplicate_opens_copy_witness :
  exists s : Editor,
    openEditor "wb-7" ([other_board; blank_board]
                       ++ [mkWhiteboard "wb-7" "Other (Copy)" "local" None
                             "current-user" 5 5 5 false (wb_content other_board)])
      = Some s /\
    elements s = wc_elements (wb_content other_board).
Proof.
  destruct (handleDuplicate_opens_copy (dbService_createWhiteboard "wb-7" 5)
              other_board
              (mkWhiteboard "wb-7" "Other (Copy)" "local" None "current-user"
                 5 5 5 false (wb_content other_board))
              [other_board; blank_board]
              eq_refl eq_refl ltac:(discriminate) eq_refl)
    as [_ [[s [Ho [He _]]] _]].
  exists s. split; [exact Ho | exact He].
Defined.
